(** * rmw_gurumdds_cpp: the service endpoint (rmw_service.cpp)

    A shallow embedding of the server side of a ROS 2 service on top of
    GurumDDS: endpoint creation and teardown, the non-blocking take of a
    request, the sending of a response under the two wire mappings
    (basic and enhanced), and the single-slot "new request" callback.

    The C++ functions are state transformers over a [World]: the C++ heap
    objects (service handles, [ServiceInfo] records, name buffers), the DDS
    entities reachable from them, and the graph cache.  Every function also
    reports the sequence of externally visible calls it made ([Event]).
    Dereferencing a dangling or null pointer is undefined behaviour and is
    modelled by the absence of a result. *)

From stdpp Require Import gmap strings list.
From Stdlib Require Import ZArith Lia.

Local Open Scope Z_scope.

(** ** Return codes *)

Inductive rmw_ret_t :=
| RMW_RET_OK
| RMW_RET_ERROR
| RMW_RET_TIMEOUT
| RMW_RET_INVALID_ARGUMENT
| RMW_RET_INCORRECT_RMW_IMPLEMENTATION.

Inductive dds_ReturnCode_t :=
| dds_RETCODE_OK
| dds_RETCODE_ERROR
| dds_RETCODE_TIMEOUT
| dds_RETCODE_NO_DATA.

Global Instance rmw_ret_eq_dec : EqDecision rmw_ret_t.
Proof. solve_decision. Defined.

Global Instance dds_ret_eq_dec : EqDecision dds_ReturnCode_t.
Proof. solve_decision. Defined.

(** ** Machine integers *)

Module Int.

Definition in_int32 (z : Z) : Prop := - 2 ^ 31 <= z < 2 ^ 31.
Definition in_uint32 (z : Z) : Prop := 0 <= z < 2 ^ 32.
Definition in_int64 (z : Z) : Prop := - 2 ^ 63 <= z < 2 ^ 63.

(** Two's complement wrap-around into [int64_t] and [uint32_t]. *)
Definition wrap_int64 (z : Z) : Z := (z + 2 ^ 63) mod 2 ^ 64 - 2 ^ 63.
Definition wrap_uint32 (z : Z) : Z := z mod 2 ^ 32.

(** [~x] on a [uint32_t]. *)
Definition not_uint32 (x : Z) : Z := Z.lxor x (2 ^ 32 - 1).

(** [sec * static_cast<int64_t>(1000000000) + nanosec] *)
Definition nanoseconds (sec nanosec : Z) : Z :=
  wrap_int64 (wrap_int64 (sec * 1000000000) + nanosec).

(** [((int64_t)sn_high) << 32 | sn_low], with [sn_high] an [int32_t] and
    [sn_low] a [uint32_t] (promoted to [int64_t] by zero extension). *)
Definition sequence_number_of_split (sn_high sn_low : Z) : Z :=
  Z.lor (wrap_int64 (Z.shiftl sn_high 32)) sn_low.

End Int.

(** ** Data model *)

Abbreviation addr := positive (only parsing).
Abbreviation bytes := (list Byte.byte) (only parsing).

(** The contents of a ROS message buffer; its layout is the business of
    the type support. *)
Abbreviation ros_message := (list Byte.byte) (only parsing).

Definition RMW_GURUMDDS_ID : string := "rmw_gurumdds_cpp".
Definition RMW_GID_STORAGE_SIZE : nat := 16.

(** [dds_DATA_AVAILABLE_STATUS], bit 10 of a [dds_StatusMask] in the DDS
    API. *)
Definition dds_DATA_AVAILABLE_STATUS : Z := Z.shiftl 1 10.

(** [std::memcpy(dst, src, n)] on byte arrays. *)
Definition memcpy (dst src : bytes) (n : nat) : bytes :=
  take n src ++ drop n dst.

Record dds_Time_t := {
  sec : Z;
  nanosec : Z
}.

(** [dds_SampleInfoEx]; [rmw_take_request] reads a [dds_SampleInfo] through
    this extended layout under both mappings. *)
Record dds_SampleInfoEx := {
  valid_data : bool;
  source_timestamp : dds_Time_t;
  reception_timestamp : dds_Time_t;
  src_guid : bytes;
  seq : Z
}.

(** One buffered sample of a data reader: the raw payload (the pointer can
    be null), its size and its sample info. *)
Record Sample := {
  sample_data : option bytes;
  sample_size : Z;
  sample_info : dds_SampleInfoEx
}.

Record rmw_request_id_t := {
  writer_guid : bytes;
  sequence_number : Z
}.

Record rmw_service_info_t := {
  info_source_timestamp : Z;
  info_received_timestamp : Z;
  request_id : rmw_request_id_t
}.

(** The two wire mappings. *)
Inductive wire_variant := Basic | Enhanced.

Global Instance wire_variant_eq_dec : EqDecision wire_variant.
Proof. solve_decision. Defined.

Definition variant_of_flag (service_mapping_basic : bool) : wire_variant :=
  if service_mapping_basic then Basic else Enhanced.

(** The (de)serialisation entry points of type_support_service.hpp for one
    service type.  The functions live outside rmw_service.cpp; the record
    holds their behaviour on the type the endpoint was created for.
    A deserialiser is given the raw sample, its size and the current
    contents of the caller's request buffer, and returns its success flag
    and the new contents of the buffer (the basic one also the split
    sequence number and the client GUID).  [allocate_response_*] returns
    the size of the buffer, or [None] for a null buffer;
    [serialize_response_*] returns the bytes written, or [None] when it
    reports failure.  The last two fields are the request and response
    type names and metastrings that names_and_types_helpers.hpp derives
    from the type. *)
Record service_type_support := {
  deserialize_request_basic :
    bytes -> Z -> ros_message -> bool * ros_message * (Z * Z * bytes);
  deserialize_request_enhanced :
    bytes -> Z -> ros_message -> bool * ros_message;
  allocate_response_basic : ros_message -> option Z;
  serialize_response_basic :
    ros_message -> Z -> Z -> bytes -> option bytes;
  allocate_response_enhanced : ros_message -> option Z;
  serialize_response_enhanced : ros_message -> Z -> option bytes;
  create_service_type_name : string * string;
  create_service_metastring : string * string
}.

(** [rmw_context_impl_t]: the mapping flag and the DDS participant the
    context owns (publisher and subscriber belong to the participant). *)
Record rmw_context_impl_t := {
  service_mapping_basic : bool;
  participant : addr
}.

(** [rosidl_service_type_support_t] as [get_service_typesupport_handle]
    sees it: the handle for the C and for the C++ introspection type
    support, when there is one.  Type supports are constant data of the
    program; a handle is the address of one. *)
Record rosidl_service_type_support_t := {
  introspection_c : option addr;
  introspection_cpp : option addr
}.

Record rmw_qos_profile_t := {
  avoid_ros_namespace_conventions : bool
}.

Record rmw_node_t := {
  node_implementation_identifier : string;
  node_context : addr
}.

Record rmw_event_callback_data_t := {
  callback : option addr;
  user_data : option addr
}.

(** [rmw_gurumdds_cpp::ServiceInfo] *)
Record ServiceInfo := {
  service_typesupport : option addr;
  response_writer : option addr;
  request_reader : option addr;
  read_condition : option addr;
  data_seq : option addr;
  info_seq : option addr;
  raw_data_sizes : option addr;
  ctx : option addr;
  event_callback_data : rmw_event_callback_data_t
}.

Record rmw_service_t := {
  implementation_identifier : string;
  data : option addr;
  service_name : option addr
}.

(** What a data writer has published: the raw bytes and, under the
    enhanced mapping, the sample info sent along. *)
Record written_sample := {
  written_data : bytes;
  written_size : Z;
  written_info : option dds_SampleInfoEx
}.

Record dds_DataReader := {
  rd_topic : string;
  rd_samples : list Sample;
  rd_loans : nat;
  rd_status_changes : Z;
  rd_listener_installed : bool;
  rd_listener_mask : Z;
  rd_listener_context : option addr
}.

Record dds_Topic := {
  topic_type_name : string;
  topic_refs : nat
}.

Inductive dds_Entity :=
| Ent_TypeSupport (metastring : string) (registered_as : option string)
| Ent_DataReader (r : dds_DataReader)
| Ent_ReadCondition (reader : addr)
| Ent_DataWriter (topic : string) (written : list written_sample)
| Ent_DataSeq (values : list (option bytes))
| Ent_SampleInfoSeq (infos : list dds_SampleInfoEx)
| Ent_UnsignedLongSeq (sizes : list Z).

(** The state the functions of rmw_service.cpp act on.  Topics are keyed by
    participant and name, which is how DDS identifies them. *)
Record World := {
  w_ctxs : gmap positive rmw_context_impl_t;
  w_services : gmap positive rmw_service_t;
  w_strings : gmap positive string;
  w_infos : gmap positive ServiceInfo;
  w_topics : gmap (positive * string) dds_Topic;
  w_dds : gmap positive dds_Entity;
  w_graph : gset positive
}.

Definition set_services (f : gmap positive rmw_service_t -> gmap positive rmw_service_t)
    (w : World) : World :=
  {| w_ctxs := w_ctxs w; w_services := f (w_services w); w_strings := w_strings w;
     w_infos := w_infos w; w_topics := w_topics w; w_dds := w_dds w;
     w_graph := w_graph w |}.

Definition set_strings (f : gmap positive string -> gmap positive string)
    (w : World) : World :=
  {| w_ctxs := w_ctxs w; w_services := w_services w; w_strings := f (w_strings w);
     w_infos := w_infos w; w_topics := w_topics w; w_dds := w_dds w;
     w_graph := w_graph w |}.

Definition set_infos (f : gmap positive ServiceInfo -> gmap positive ServiceInfo)
    (w : World) : World :=
  {| w_ctxs := w_ctxs w; w_services := w_services w; w_strings := w_strings w;
     w_infos := f (w_infos w); w_topics := w_topics w; w_dds := w_dds w;
     w_graph := w_graph w |}.

Definition set_topics (f : gmap (positive * string) dds_Topic -> gmap (positive * string) dds_Topic)
    (w : World) : World :=
  {| w_ctxs := w_ctxs w; w_services := w_services w; w_strings := w_strings w;
     w_infos := w_infos w; w_topics := f (w_topics w); w_dds := w_dds w;
     w_graph := w_graph w |}.

Definition set_dds (f : gmap positive dds_Entity -> gmap positive dds_Entity)
    (w : World) : World :=
  {| w_ctxs := w_ctxs w; w_services := w_services w; w_strings := w_strings w;
     w_infos := w_infos w; w_topics := w_topics w; w_dds := f (w_dds w);
     w_graph := w_graph w |}.

Definition set_graph (f : gset positive -> gset positive) (w : World) : World :=
  {| w_ctxs := w_ctxs w; w_services := w_services w; w_strings := w_strings w;
     w_infos := w_infos w; w_topics := w_topics w; w_dds := w_dds w;
     w_graph := f (w_graph w) |}.

(** ** Observable calls

    The calls that leave rmw_service.cpp (locks, the user's callback, the
    transport), and the assignment to the callback slot of a
    [ServiceInfo], which the event-callback mutex is there to guard. *)

Inductive mutex :=
| endpoint_mutex (context : addr)
| event_callback_mutex (info : addr).

Inductive Event :=
| EvLock (m : mutex)
| EvUnlock (m : mutex)
| EvCallback (fn : addr) (user : option addr) (count : nat)
| EvStoreCallback (info : addr) (fn user : option addr)
| EvRawTake (reader : addr) (v : wire_variant) (rc : dds_ReturnCode_t)
| EvReturnLoan (reader : addr)
| EvRawWrite (writer : addr) (v : wire_variant) (s : written_sample)
    (rc : dds_ReturnCode_t)
| EvSetListener (reader : addr) (mask : Z) (rc : dds_ReturnCode_t)
| EvDelete (entity : addr) (rc : dds_ReturnCode_t).

(** ** External failures

    Every call into DDS, the allocator, the naming helpers or the graph
    cache that can fail is a [fault_point]; an [oracle] says which of them
    fail during one call of an rmw function. *)

Inductive fault_point :=
| F_validate_full_topic_name
| F_topic_name_invalid
| F_request_typesupport_create
| F_request_register_type
| F_response_typesupport_create
| F_response_register_type
| F_request_default_topic_qos
| F_request_create_topic
| F_request_topic_qos_finalize
| F_request_find_topic
| F_response_default_topic_qos
| F_response_create_topic
| F_response_topic_qos_finalize
| F_response_find_topic
| F_get_datareader_qos
| F_create_datareader
| F_datareader_qos_finalize
| F_create_readcondition
| F_get_datawriter_qos
| F_create_datawriter
| F_datawriter_qos_finalize
| F_new_ServiceInfo
| F_DataSeq_create
| F_SampleInfoSeq_create
| F_UnsignedLongSeq_create
| F_rmw_service_allocate
| F_rmw_allocate_name
| F_on_service_created
| F_on_service_deleted
| F_delete_datawriter
| F_delete_readcondition
| F_delete_datareader
| F_delete_topic
| F_raw_take
| F_raw_write
| F_set_listener.

Global Instance fault_point_eq_dec : EqDecision fault_point.
Proof. solve_decision. Defined.

Definition oracle := fault_point -> bool.

Definition no_fault : oracle := fun _ => false.
Definition fault_at (f : fault_point) : oracle := fun g => bool_decide (g = f).

(** ** The monad of the embedding: state, event log, undefined behaviour *)

Definition M (A : Type) : Type := World -> option (A * World * list Event).

Definition ret {A} (x : A) : M A := fun w => Some (x, w, []).

Definition bind {A B} (m : M A) (k : A -> M B) : M B := fun w =>
  match m w with
  | None => None
  | Some (x, w1, e1) =>
      match k x w1 with
      | None => None
      | Some (y, w2, e2) => Some (y, w2, e1 ++ e2)
      end
  end.

Definition undefined {A} : M A := fun _ => None.
Definition emit (e : Event) : M unit := fun w => Some (tt, w, [e]).
Definition get_world : M World := fun w => Some (w, w, []).
Definition modify (f : World -> World) : M unit := fun w => Some (tt, f w, []).

Notation "'do' x <- m ; k" := (bind m (fun x => k))
  (at level 10, x name, m at level 100, k at level 200,
   format "'[v' 'do'  x  <-  m ; '/' k ']'").
Notation "m ;; k" := (bind m (fun _ => k))
  (at level 100, k at level 200, right associativity).

Definition of_option {A} (o : option A) : M A :=
  match o with Some x => ret x | None => undefined end.

Definition when (b : bool) (m : M unit) : M unit := if b then m else ret tt.

(** [std::lock_guard<std::mutex> guard(m)] around the rest of a function. *)
Definition with_lock {A} (m : mutex) (body : M A) : M A :=
  emit (EvLock m) ;; do r <- body; emit (EvUnlock m) ;; ret r.

(** ** The C++ heap *)

Definition load_ctx (c : addr) : M rmw_context_impl_t :=
  do w <- get_world; of_option (w_ctxs w !! c).

Definition load_service (h : addr) : M rmw_service_t :=
  do w <- get_world; of_option (w_services w !! h).

Definition store_service (h : addr) (s : rmw_service_t) : M unit :=
  load_service h ;; modify (set_services (<[h := s]>)).

Definition load_info (a : addr) : M ServiceInfo :=
  do w <- get_world; of_option (w_infos w !! a).

Definition store_info (a : addr) (si : ServiceInfo) : M unit :=
  load_info a ;; modify (set_infos (<[a := si]>)).

(** [rmw_service_allocate()] followed by the [memset] to zero. *)
Definition rmw_service_allocate (o : oracle) : M (option addr) :=
  if o F_rmw_service_allocate then ret None else
  do w <- get_world;
  let h := fresh (dom (w_services w)) in
  modify (set_services
    (<[h := {| implementation_identifier := ""; data := None;
               service_name := None |}]>)) ;;
  ret (Some h).

Definition rmw_service_free (h : addr) : M unit :=
  load_service h ;; modify (set_services (delete h)).

(** [rmw_allocate(n)] for a character buffer. *)
Definition rmw_allocate (o : oracle) : M (option addr) :=
  if o F_rmw_allocate_name then ret None else
  do w <- get_world;
  let p := fresh (dom (w_strings w)) in
  modify (set_strings (<[p := ""%string]>)) ;; ret (Some p).

Definition store_string (p : addr) (s : string) : M unit :=
  do w <- get_world;
  of_option (w_strings w !! p) ;; modify (set_strings (<[p := s]>)).

Definition rmw_free (p : addr) : M unit :=
  do w <- get_world;
  of_option (w_strings w !! p) ;; modify (set_strings (delete p)).

(** [new(std::nothrow) ServiceInfo()] *)
Definition new_ServiceInfo (o : oracle) : M (option addr) :=
  if o F_new_ServiceInfo then ret None else
  do w <- get_world;
  let a := fresh (dom (w_infos w)) in
  modify (set_infos
    (<[a := {| service_typesupport := None; response_writer := None;
               request_reader := None; read_condition := None;
               data_seq := None; info_seq := None; raw_data_sizes := None;
               ctx := None;
               event_callback_data :=
                 {| callback := None; user_data := None |} |}]>)) ;;
  ret (Some a).

(** [delete service_info]; deleting a null pointer does nothing. *)
Definition delete_ServiceInfo (p : option addr) : M unit :=
  match p with
  | None => ret tt
  | Some a => load_info a ;; modify (set_infos (delete a))
  end.

(** ** The DDS entities

    GurumDDS is an external library.  The model keeps what the functions
    of this file rely on: entities are created and deleted, a reader
    buffers samples and lends them out on a take, a writer records what it
    is given.  A call named by the oracle fails with [dds_RETCODE_ERROR]
    (or a null result) and leaves the entities as they are. *)

Definition load_entity (p : addr) : M dds_Entity :=
  do w <- get_world; of_option (w_dds w !! p).

Definition alloc_entity (e : dds_Entity) : M addr :=
  do w <- get_world;
  let p := fresh (dom (w_dds w)) in
  modify (set_dds (<[p := e]>)) ;; ret p.

Definition free_entity (p : addr) : M unit :=
  load_entity p ;; modify (set_dds (delete p)).

Definition load_reader (p : addr) : M dds_DataReader :=
  do e <- load_entity p;
  match e with Ent_DataReader r => ret r | _ => undefined end.

Definition store_reader (p : addr) (r : dds_DataReader) : M unit :=
  load_reader p ;; modify (set_dds (<[p := Ent_DataReader r]>)).

Definition dds_DataSeq_create (o : oracle) : M (option addr) :=
  if o F_DataSeq_create then ret None
  else do p <- alloc_entity (Ent_DataSeq []); ret (Some p).

Definition dds_SampleInfoSeq_create (o : oracle) : M (option addr) :=
  if o F_SampleInfoSeq_create then ret None
  else do p <- alloc_entity (Ent_SampleInfoSeq []); ret (Some p).

Definition dds_UnsignedLongSeq_create (o : oracle) : M (option addr) :=
  if o F_UnsignedLongSeq_create then ret None
  else do p <- alloc_entity (Ent_UnsignedLongSeq []); ret (Some p).

Definition dds_DataSeq_delete (p : option addr) : M unit :=
  match p with
  | None => ret tt
  | Some q =>
      do e <- load_entity q;
      match e with Ent_DataSeq _ => free_entity q | _ => undefined end
  end.

Definition dds_SampleInfoSeq_delete (p : option addr) : M unit :=
  match p with
  | None => ret tt
  | Some q =>
      do e <- load_entity q;
      match e with Ent_SampleInfoSeq _ => free_entity q | _ => undefined end
  end.

Definition dds_UnsignedLongSeq_delete (p : option addr) : M unit :=
  match p with
  | None => ret tt
  | Some q =>
      do e <- load_entity q;
      match e with Ent_UnsignedLongSeq _ => free_entity q | _ => undefined end
  end.

Definition dds_DataSeq_get (p : addr) (i : nat) : M (option bytes) :=
  do e <- load_entity p;
  match e with Ent_DataSeq l => of_option (l !! i) | _ => undefined end.

Definition dds_SampleInfoSeq_get (p : addr) (i : nat) : M dds_SampleInfoEx :=
  do e <- load_entity p;
  match e with Ent_SampleInfoSeq l => of_option (l !! i) | _ => undefined end.

Definition dds_UnsignedLongSeq_get (p : addr) (i : nat) : M Z :=
  do e <- load_entity p;
  match e with Ent_UnsignedLongSeq l => of_option (l !! i) | _ => undefined end.

Definition with_samples (r : dds_DataReader) (l : list Sample) (loans : nat)
    : dds_DataReader :=
  {| rd_topic := rd_topic r; rd_samples := l; rd_loans := loans;
     rd_status_changes := rd_status_changes r;
     rd_listener_installed := rd_listener_installed r;
     rd_listener_mask := rd_listener_mask r;
     rd_listener_context := rd_listener_context r |}.

(** [dds_DataReader_raw_take] and [dds_DataReader_raw_take_w_sampleinfoex]
    with [max_samples = 1] and every sample, view and instance state
    selected: the oldest buffered sample, if any, is lent to the three
    sequences. *)
Definition dds_DataReader_raw_take (o : oracle) (v : wire_variant)
    (reader data_values sample_infos sample_sizes : addr)
    : M dds_ReturnCode_t :=
  do r <- load_reader reader;
  load_entity data_values ;; load_entity sample_infos ;;
  load_entity sample_sizes ;;
  if o F_raw_take then
    emit (EvRawTake reader v dds_RETCODE_ERROR) ;; ret dds_RETCODE_ERROR
  else
    match rd_samples r with
    | [] =>
        emit (EvRawTake reader v dds_RETCODE_NO_DATA) ;;
        ret dds_RETCODE_NO_DATA
    | s :: rest =>
        store_reader reader (with_samples r rest (S (rd_loans r))) ;;
        modify (set_dds (<[data_values := Ent_DataSeq [sample_data s]]>)) ;;
        modify (set_dds (<[sample_infos := Ent_SampleInfoSeq [sample_info s]]>)) ;;
        modify (set_dds (<[sample_sizes := Ent_UnsignedLongSeq [sample_size s]]>)) ;;
        emit (EvRawTake reader v dds_RETCODE_OK) ;;
        ret dds_RETCODE_OK
    end.

(** [dds_DataReader_raw_return_loan]: whatever the three sequences hold on
    loan goes back to the reader, and the sequences are left empty. *)
Definition dds_DataReader_raw_return_loan
    (reader data_values sample_infos sample_sizes : addr) : M unit :=
  do r <- load_reader reader;
  do e <- load_entity data_values;
  load_entity sample_infos ;; load_entity sample_sizes ;;
  match e with
  | Ent_DataSeq l =>
      store_reader reader
        (with_samples r (rd_samples r) (rd_loans r - length l)%nat) ;;
      modify (set_dds (<[data_values := Ent_DataSeq []]>)) ;;
      modify (set_dds (<[sample_infos := Ent_SampleInfoSeq []]>)) ;;
      modify (set_dds (<[sample_sizes := Ent_UnsignedLongSeq []]>)) ;;
      emit (EvReturnLoan reader)
  | _ => undefined
  end.

(** [dds_DataWriter_raw_write] ([info = None]) and
    [dds_DataWriter_raw_write_w_sampleinfoex] ([info = Some _]). *)
Definition dds_DataWriter_raw_write (o : oracle) (v : wire_variant)
    (writer : addr) (raw : bytes) (size : Z)
    (info : option dds_SampleInfoEx) : M dds_ReturnCode_t :=
  let s := {| written_data := raw; written_size := size;
              written_info := info |} in
  do e <- load_entity writer;
  match e with
  | Ent_DataWriter topic written =>
      if o F_raw_write then
        emit (EvRawWrite writer v s dds_RETCODE_ERROR) ;;
        ret dds_RETCODE_ERROR
      else
        modify (set_dds (<[writer := Ent_DataWriter topic (written ++ [s])]>)) ;;
        emit (EvRawWrite writer v s dds_RETCODE_OK) ;;
        ret dds_RETCODE_OK
  | _ => undefined
  end.

Definition dds_DataReader_get_status_changes (reader : addr) : M Z :=
  do r <- load_reader reader; ret (rd_status_changes r).

Definition with_listener (r : dds_DataReader) (mask : Z) : dds_DataReader :=
  {| rd_topic := rd_topic r; rd_samples := rd_samples r;
     rd_loans := rd_loans r; rd_status_changes := rd_status_changes r;
     rd_listener_installed := true; rd_listener_mask := mask;
     rd_listener_context := rd_listener_context r |}.

Definition with_listener_context (r : dds_DataReader) (c : option addr)
    : dds_DataReader :=
  {| rd_topic := rd_topic r; rd_samples := rd_samples r;
     rd_loans := rd_loans r; rd_status_changes := rd_status_changes r;
     rd_listener_installed := rd_listener_installed r;
     rd_listener_mask := rd_listener_mask r;
     rd_listener_context := c |}.

Definition dds_DataReader_set_listener (o : oracle) (reader : addr) (mask : Z)
    : M dds_ReturnCode_t :=
  do r <- load_reader reader;
  if o F_set_listener then
    emit (EvSetListener reader mask dds_RETCODE_ERROR) ;;
    ret dds_RETCODE_ERROR
  else
    store_reader reader (with_listener r mask) ;;
    emit (EvSetListener reader mask dds_RETCODE_OK) ;;
    ret dds_RETCODE_OK.

Definition dds_DataReader_set_listener_context (reader : addr)
    (c : option addr) : M unit :=
  do r <- load_reader reader;
  store_reader reader (with_listener_context r c).

Definition dds_DataReader_get_listener_context (reader : addr)
    : M (option addr) :=
  do r <- load_reader reader; ret (rd_listener_context r).

(** Modelled from the spec: [ServiceInfo::count_unread] is declared in
    types.hpp, outside this file.  The unread-sample count is the number
    of samples of the request subscription that are buffered and not yet
    taken, recomputed at every call. *)
Definition count_unread (si : ServiceInfo) : M nat :=
  do reader <- of_option (request_reader si);
  do r <- load_reader reader;
  ret (length (rd_samples r)).

(** Modelled from the spec: [graph_cache::on_service_created] and
    [graph_cache::on_service_deleted] are the discovery collaborator's
    hooks; they register and unregister the endpoint, or refuse. *)
Definition on_service_created (o : oracle) (info : addr) : M rmw_ret_t :=
  if o F_on_service_created then ret RMW_RET_ERROR
  else modify (set_graph (fun g => {[info]} ∪ g)) ;; ret RMW_RET_OK.

Definition on_service_deleted (o : oracle) (info : addr) : M rmw_ret_t :=
  if o F_on_service_deleted then ret RMW_RET_ERROR
  else modify (set_graph (fun g => g ∖ {[info]})) ;; ret RMW_RET_OK.

(** Deletion of a reader, a writer or a read condition. *)
Definition dds_delete (o : oracle) (f : fault_point) (p : addr)
    : M dds_ReturnCode_t :=
  load_entity p ;;
  if o f then emit (EvDelete p dds_RETCODE_ERROR) ;; ret dds_RETCODE_ERROR
  else free_entity p ;; emit (EvDelete p dds_RETCODE_OK) ;; ret dds_RETCODE_OK.

Definition dds_Publisher_delete_datawriter (o : oracle) (p : addr) :=
  dds_delete o F_delete_datawriter p.
Definition dds_Subscriber_delete_datareader (o : oracle) (p : addr) :=
  dds_delete o F_delete_datareader p.
Definition dds_DataReader_delete_readcondition (o : oracle) (reader rc : addr) :=
  load_reader reader ;; dds_delete o F_delete_readcondition rc.

(** A sample joins the buffer of a reader. *)
Definition enqueue (reader : addr) (s : Sample) (w : World) : World :=
  match w_dds w !! reader with
  | Some (Ent_DataReader r) =>
      set_dds (<[reader := Ent_DataReader
                   (with_samples r (rd_samples r ++ [s]) (rd_loans r))]>) w
  | _ => w
  end.

(** ** The functions of rmw_service.cpp *)

(** The caller's memory behind the three out-pointers of
    [rmw_take_request] ([None] for a null pointer). *)
Record take_out := {
  out_request_header : option rmw_service_info_t;
  out_ros_request : option ros_message;
  out_taken : option bool
}.

Definition id_matches (s : string) : bool := String.eqb s RMW_GURUMDDS_ID.

Definition with_callback (si : ServiceInfo) (cb ud : option addr)
    : ServiceInfo :=
  {| service_typesupport := service_typesupport si;
     response_writer := response_writer si;
     request_reader := request_reader si;
     read_condition := read_condition si;
     data_seq := data_seq si; info_seq := info_seq si;
     raw_data_sizes := raw_data_sizes si; ctx := ctx si;
     event_callback_data := {| callback := cb; user_data := ud |} |}.

(** [info->event_callback_data.callback = cb;] and
    [info->event_callback_data.user_data = ud;] *)
Definition store_callback (a : addr) (si : ServiceInfo)
    (cb ud : option addr) : M unit :=
  store_info a (with_callback si cb ud) ;; emit (EvStoreCallback a cb ud).

Section Collaborators.

(** What rmw_service.cpp uses and other files define: the type support
    behind each handle, the return-code translation, and the identity
    codec between the DDS and the ROS forms of a sequence number and of
    a GUID. *)
Variable type_support_data : addr -> service_type_support.
Variable check_dds_ret_code : dds_ReturnCode_t -> rmw_ret_t.
Variable ros_sn_to_dds_sn : Z -> Z.
Variable dds_sn_to_ros_sn : Z -> Z.
Variable ros_guid_to_dds_guid : bytes -> bytes.
Variable dds_guid_to_ros_guid : bytes -> bytes.

(** The four statements that precede every return after the raw take. *)
Definition take_cleanup (reader dv sis szs : addr) : M unit :=
  dds_DataReader_raw_return_loan reader dv sis szs ;;
  dds_DataSeq_delete (Some dv) ;;
  dds_SampleInfoSeq_delete (Some sis) ;;
  dds_UnsignedLongSeq_delete (Some szs).

Definition fill_header (info : dds_SampleInfoEx) (sn : Z) (guid : bytes)
    (hdr : rmw_service_info_t) : rmw_service_info_t :=
  {| info_source_timestamp :=
       Int.nanoseconds (sec (source_timestamp info))
                       (nanosec (source_timestamp info));
     info_received_timestamp :=
       Int.nanoseconds (sec (reception_timestamp info))
                       (nanosec (reception_timestamp info));
     request_id :=
       {| writer_guid :=
            memcpy (writer_guid (request_id hdr)) guid RMW_GID_STORAGE_SIZE;
          sequence_number := sn |} |}.

Definition rmw_take_request (o : oracle) (service : option addr)
    (request_header : option rmw_service_info_t)
    (ros_request : option ros_message) (taken : option bool)
    : M (rmw_ret_t * take_out) :=
  let untouched :=
    {| out_request_header := request_header;
       out_ros_request := ros_request; out_taken := taken |} in
  match service with
  | None => ret (RMW_RET_INVALID_ARGUMENT, untouched)
  | Some h =>
  do svc <- load_service h;
  if negb (id_matches (implementation_identifier svc))
  then ret (RMW_RET_INCORRECT_RMW_IMPLEMENTATION, untouched) else
  match request_header, ros_request, taken with
  | Some hdr, Some req, Some _ =>
  (* *taken = false; *)
  let out h r t :=
    {| out_request_header := Some h; out_ros_request := Some r;
       out_taken := Some t |} in
  match data svc with
  | None => ret (RMW_RET_ERROR, out hdr req false)
  | Some a =>
  do si <- load_info a;
  match request_reader si with
  | None => ret (RMW_RET_ERROR, out hdr req false)
  | Some request_reader =>
  match service_typesupport si with
  | None => ret (RMW_RET_ERROR, out hdr req false)
  | Some type_support =>
  do data_values <- dds_DataSeq_create o;
  match data_values with
  | None => ret (RMW_RET_ERROR, out hdr req false)
  | Some dv =>
  do sample_infos <- dds_SampleInfoSeq_create o;
  match sample_infos with
  | None =>
      dds_DataSeq_delete (Some dv) ;;
      ret (RMW_RET_ERROR, out hdr req false)
  | Some sis =>
  do sample_sizes <- dds_UnsignedLongSeq_create o;
  match sample_sizes with
  | None =>
      dds_DataSeq_delete (Some dv) ;;
      dds_SampleInfoSeq_delete (Some sis) ;;
      ret (RMW_RET_ERROR, out hdr req false)
  | Some szs =>
  do c <- of_option (ctx si);
  do context <- load_ctx c;
  if service_mapping_basic context then
    do rc <- dds_DataReader_raw_take o Basic request_reader dv sis szs;
    if bool_decide (rc = dds_RETCODE_NO_DATA) then
      take_cleanup request_reader dv sis szs ;;
      ret (RMW_RET_OK, out hdr req false)
    else if negb (bool_decide (rc = dds_RETCODE_OK)) then
      take_cleanup request_reader dv sis szs ;;
      ret (RMW_RET_ERROR, out hdr req false)
    else
      do sample_info <- dds_SampleInfoSeq_get sis 0;
      if valid_data sample_info then
        do sample <- dds_DataSeq_get dv 0;
        match sample with
        | None =>
            take_cleanup request_reader dv sis szs ;;
            ret (RMW_RET_ERROR, out hdr req false)
        | Some raw =>
            do size <- dds_UnsignedLongSeq_get szs 0;
            let '(res, req', (sn_high, sn_low, client_guid)) :=
              deserialize_request_basic (type_support_data type_support)
                raw size req in
            if negb res then
              take_cleanup request_reader dv sis szs ;;
              ret (RMW_RET_ERROR, out hdr req' false)
            else
              let hdr' :=
                fill_header sample_info
                  (Int.sequence_number_of_split sn_high sn_low)
                  client_guid hdr in
              take_cleanup request_reader dv sis szs ;;
              (* *taken = true; *)
              ret (RMW_RET_OK, out hdr' req' true)
        end
      else
        take_cleanup request_reader dv sis szs ;;
        (* *taken = true; *)
        ret (RMW_RET_OK, out hdr req true)
  else
    do rc <- dds_DataReader_raw_take o Enhanced request_reader dv sis szs;
    if bool_decide (rc = dds_RETCODE_NO_DATA) then
      take_cleanup request_reader dv sis szs ;;
      ret (RMW_RET_OK, out hdr req false)
    else if negb (bool_decide (rc = dds_RETCODE_OK)) then
      take_cleanup request_reader dv sis szs ;;
      ret (RMW_RET_ERROR, out hdr req false)
    else
      do sample_info <- dds_SampleInfoSeq_get sis 0;
      if valid_data sample_info then
        do sample <- dds_DataSeq_get dv 0;
        match sample with
        | None =>
            take_cleanup request_reader dv sis szs ;;
            ret (RMW_RET_ERROR, out hdr req false)
        | Some raw =>
            do size <- dds_UnsignedLongSeq_get szs 0;
            let client_guid := dds_guid_to_ros_guid (src_guid sample_info) in
            let sequence_number := dds_sn_to_ros_sn (seq sample_info) in
            let '(res, req') :=
              deserialize_request_enhanced (type_support_data type_support)
                raw size req in
            if negb res then
              take_cleanup request_reader dv sis szs ;;
              ret (RMW_RET_ERROR, out hdr req' false)
            else
              let hdr' :=
                fill_header sample_info sequence_number client_guid hdr in
              take_cleanup request_reader dv sis szs ;;
              (* *taken = true; *)
              ret (RMW_RET_OK, out hdr' req' true)
        end
      else
        take_cleanup request_reader dv sis szs ;;
        (* *taken = true; *)
        ret (RMW_RET_OK, out hdr req true)
  end end end end end end
  | _, _, _ => ret (RMW_RET_INVALID_ARGUMENT, untouched)
  end
  end.

(** [std::memset(&sampleinfo_ex, 0, sizeof(dds_SampleInfoEx))] followed
    by the two assignments of [rmw_send_response]. *)
Definition response_sampleinfo (request_header : rmw_request_id_t)
    : dds_SampleInfoEx :=
  {| valid_data := false;
     source_timestamp := {| sec := 0; nanosec := 0 |};
     reception_timestamp := {| sec := 0; nanosec := 0 |};
     src_guid := ros_guid_to_dds_guid (writer_guid request_header);
     seq := ros_sn_to_dds_sn (sequence_number request_header) |}.

Definition rmw_send_response (o : oracle) (service : option addr)
    (request_header : option rmw_request_id_t)
    (ros_response : option ros_message) : M rmw_ret_t :=
  match service with
  | None => ret RMW_RET_INVALID_ARGUMENT
  | Some h =>
  do svc <- load_service h;
  if negb (id_matches (implementation_identifier svc))
  then ret RMW_RET_INCORRECT_RMW_IMPLEMENTATION else
  match request_header, ros_response with
  | Some hdr, Some resp =>
  match data svc with
  | None => ret RMW_RET_ERROR
  | Some a =>
  do si <- load_info a;
  match response_writer si with
  | None => ret RMW_RET_ERROR
  | Some response_writer =>
  match service_typesupport si with
  | None => ret RMW_RET_ERROR
  | Some type_support =>
  do c <- of_option (ctx si);
  do context <- load_ctx c;
  if service_mapping_basic context then
    match allocate_response_basic (type_support_data type_support) resp with
    | None => ret RMW_RET_ERROR
    | Some size =>
        match serialize_response_basic (type_support_data type_support)
                resp size (sequence_number hdr) (writer_guid hdr) with
        | None => ret RMW_RET_ERROR
        | Some dds_response =>
            do rc <- dds_DataWriter_raw_write o Basic response_writer
                       dds_response size None;
            if negb (bool_decide (rc = dds_RETCODE_OK))
            then ret RMW_RET_ERROR else ret RMW_RET_OK
        end
    end
  else
    match allocate_response_enhanced (type_support_data type_support) resp with
    | None => ret RMW_RET_ERROR
    | Some size =>
        match serialize_response_enhanced (type_support_data type_support)
                resp size with
        | None => ret RMW_RET_ERROR
        | Some dds_response =>
            do rc <- dds_DataWriter_raw_write o Enhanced response_writer
                       dds_response size (Some (response_sampleinfo hdr));
            if negb (bool_decide (rc = dds_RETCODE_OK))
            then ret RMW_RET_ERROR else ret RMW_RET_OK
        end
    end
  end end end
  | _, _ => ret RMW_RET_INVALID_ARGUMENT
  end
  end.

Definition rmw_service_set_on_new_request_callback (o : oracle)
    (rmw_service : option addr) (cb : option addr) (ud : option addr)
    : M rmw_ret_t :=
  match rmw_service with
  | None => ret RMW_RET_INVALID_ARGUMENT
  | Some h =>
  do svc <- load_service h;
  if negb (id_matches (implementation_identifier svc))
  then ret RMW_RET_INCORRECT_RMW_IMPLEMENTATION else
  match data svc with
  | None => ret RMW_RET_ERROR
  | Some a =>
  do service_info <- load_info a;
  with_lock (event_callback_mutex a) (
    do reader <- of_option (request_reader service_info);
    do mask <- dds_DataReader_get_status_changes reader;
    match cb with
    | Some fn =>
        do unread_count <- count_unread service_info;
        when (bool_decide (0 < unread_count)%nat)
             (emit (EvCallback fn ud unread_count)) ;;
        store_callback a service_info (Some fn) ud ;;
        let mask := Z.lor mask dds_DATA_AVAILABLE_STATUS in
        do dds_rc <- dds_DataReader_set_listener o reader mask;
        ret (check_dds_ret_code dds_rc)
    | None =>
        store_callback a service_info None None ;;
        let mask := Z.land mask (Int.not_uint32 dds_DATA_AVAILABLE_STATUS) in
        do dds_rc <- dds_DataReader_set_listener o reader mask;
        ret (check_dds_ret_code dds_rc)
    end)
  end
  end.

(** The [on_data_available] handler that [rmw_create_service] puts into
    the request listener. *)
Definition on_data_available (request_reader : addr) : M unit :=
  do context <- dds_DataReader_get_listener_context request_reader;
  do a <- of_option context;
  do info <- load_info a;
  with_lock (event_callback_mutex a) (
    match callback (event_callback_data info) with
    | Some fn =>
        do n <- count_unread info;
        emit (EvCallback fn (user_data (event_callback_data info)) n)
    | None => ret tt
    end).

(** The transport side of a delivery: a sample arrives at a reader, and
    the reader's listener is told when it is installed with the
    data-available bit in its mask. *)
Definition deliver (reader : addr) (s : Sample) : M unit :=
  do r <- load_reader reader;
  modify (enqueue reader s) ;;
  if rd_listener_installed r
     && negb (Z.land (rd_listener_mask r) dds_DATA_AVAILABLE_STATUS =? 0)
  then on_data_available reader else ret tt.


Definition with_data (s : rmw_service_t) (d : option addr) : rmw_service_t :=
  {| implementation_identifier := implementation_identifier s;
     data := d; service_name := service_name s |}.

Definition is_ok (rc : dds_ReturnCode_t) : bool :=
  bool_decide (rc = dds_RETCODE_OK).

Definition rmw_destroy_service (o : oracle) (node : option rmw_node_t)
    (service : option addr) : M rmw_ret_t :=
  match node with
  | None => ret RMW_RET_INVALID_ARGUMENT
  | Some n =>
  if negb (id_matches (node_implementation_identifier n))
  then ret RMW_RET_INCORRECT_RMW_IMPLEMENTATION else
  match service with
  | None => ret RMW_RET_INVALID_ARGUMENT
  | Some h =>
  do svc <- load_service h;
  if negb (id_matches (implementation_identifier svc))
  then ret RMW_RET_INCORRECT_RMW_IMPLEMENTATION else
  load_ctx (node_context n) ;;
  with_lock (endpoint_mutex (node_context n)) (
    let finish : M rmw_ret_t :=
      match service_name svc with
      | Some p => rmw_free p
      | None => ret tt
      end ;;
      rmw_service_free h ;;
      ret RMW_RET_OK in
    match data svc with
    | Some a =>
        do service_info <- load_info a;
        do rc <- match response_writer service_info with
                 | Some wr => dds_Publisher_delete_datawriter o wr
                 | None => ret dds_RETCODE_OK
                 end;
        if negb (is_ok rc) then ret RMW_RET_ERROR else
        dds_DataSeq_delete (data_seq service_info) ;;
        dds_SampleInfoSeq_delete (info_seq service_info) ;;
        dds_UnsignedLongSeq_delete (raw_data_sizes service_info) ;;
        do rc <- match request_reader service_info with
                 | Some rd =>
                     do rc <- match read_condition service_info with
                              | Some c =>
                                  dds_DataReader_delete_readcondition o rd c
                              | None => ret dds_RETCODE_OK
                              end;
                     if negb (is_ok rc) then ret rc
                     else dds_Subscriber_delete_datareader o rd
                 | None => ret dds_RETCODE_OK
                 end;
        if negb (is_ok rc) then ret RMW_RET_ERROR else
        do g <- on_service_deleted o a;
        if negb (bool_decide (g = RMW_RET_OK)) then ret RMW_RET_ERROR else
        delete_ServiceInfo (Some a) ;;
        store_service h (with_data svc None) ;;
        finish
    | None => finish
    end)
  end
  end.

(** *** Creation *)

(** [rmw_dds_common::qos_profile_update_best_available_for_services]
    resolves the "best available" policies; the naming flag, the one
    field kept here, passes through. *)
Definition qos_profile_update_best_available_for_services
    (q : rmw_qos_profile_t) : rmw_qos_profile_t := q.

Definition ros_service_requester_prefix : string := "rq".
Definition ros_service_response_prefix : string := "rr".

(** Modelled from the spec: [create_topic_name] is defined in
    namespace_prefix.hpp, outside this file; a topic name is the prefix,
    the service name and the suffix put together. *)
Definition create_topic_name (prefix name suffix : string) : string :=
  (prefix ++ name ++ suffix)%string.

Definition is_empty (s : string) : bool := (String.length s =? 0)%nat.

Definition dds_TypeSupport_create (o : oracle) (f : fault_point)
    (metastring : string) : M (option addr) :=
  if o f then ret None
  else do p <- alloc_entity (Ent_TypeSupport metastring None); ret (Some p).

Definition dds_TypeSupport_register_type (o : oracle) (f : fault_point)
    (ts : addr) (type_name : string) : M dds_ReturnCode_t :=
  do e <- load_entity ts;
  match e with
  | Ent_TypeSupport m _ =>
      if o f then ret dds_RETCODE_ERROR
      else modify (set_dds (<[ts := Ent_TypeSupport m (Some type_name)]>)) ;;
           ret dds_RETCODE_OK
  | _ => undefined
  end.

Definition dds_TypeSupport_delete (ts : addr) : M unit :=
  do e <- load_entity ts;
  match e with Ent_TypeSupport _ _ => free_entity ts | _ => undefined end.

Definition dds_DomainParticipant_create_topic (o : oracle) (f : fault_point)
    (part : addr) (name type_name : string) : M (option string) :=
  if o f then ret None
  else modify (set_topics
         (<[(part, name) :=
              {| topic_type_name := type_name; topic_refs := 1 |}]>)) ;;
       ret (Some name).

Definition dds_DomainParticipant_find_topic (o : oracle) (f : fault_point)
    (part : addr) (name : string) : M (option string) :=
  do w <- get_world;
  match w_topics w !! (part, name) with
  | Some t =>
      if o f then ret None
      else modify (set_topics
             (<[(part, name) :=
                  {| topic_type_name := topic_type_name t;
                     topic_refs := S (topic_refs t) |}]>)) ;;
           ret (Some name)
  | None => ret None
  end.

(** Every [create_topic] and [find_topic] is undone by one
    [delete_topic]; the topic goes away with its last reference. *)
Definition dds_DomainParticipant_delete_topic (o : oracle) (part : addr)
    (name : string) : M dds_ReturnCode_t :=
  do w <- get_world;
  do t <- of_option (w_topics w !! (part, name));
  if o F_delete_topic then ret dds_RETCODE_ERROR
  else
    (if bool_decide (topic_refs t <= 1)%nat
     then modify (set_topics (delete (part, name)))
     else modify (set_topics
            (<[(part, name) :=
                 {| topic_type_name := topic_type_name t;
                    topic_refs := pred (topic_refs t) |}]>))) ;;
    ret dds_RETCODE_OK.

Definition new_reader (topic : string) : dds_DataReader :=
  {| rd_topic := topic; rd_samples := []; rd_loans := 0;
     rd_status_changes := 0; rd_listener_installed := false;
     rd_listener_mask := 0; rd_listener_context := None |}.

Definition dds_Subscriber_create_datareader (o : oracle) (topic : string)
    : M (option addr) :=
  if o F_create_datareader then ret None
  else do p <- alloc_entity (Ent_DataReader (new_reader topic)); ret (Some p).

Definition dds_DataReader_create_readcondition (o : oracle) (reader : addr)
    : M (option addr) :=
  load_reader reader ;;
  if o F_create_readcondition then ret None
  else do p <- alloc_entity (Ent_ReadCondition reader); ret (Some p).

Definition dds_Publisher_create_datawriter (o : oracle) (topic : string)
    : M (option addr) :=
  if o F_create_datawriter then ret None
  else do p <- alloc_entity (Ent_DataWriter topic []); ret (Some p).

(** The block that looks a topic up and creates it or attaches to it;
    the source has it once for the request and once for the response
    topic.  The result is whether control went on (rather than to
    [fail]) and the value the topic variable has by then. *)
Definition obtain_topic (o : oracle)
    (f_qos f_create f_finalize f_find : fault_point)
    (part : addr) (topic_name type_name : string)
    : M (bool * option string) :=
  do w <- get_world;
  match w_topics w !! (part, topic_name) with
  | None =>
      if o f_qos then ret (false, None) else
      do topic <- dds_DomainParticipant_create_topic o f_create part
                    topic_name type_name;
      match topic with
      | None => ret (false, None)
      | Some t => if o f_finalize then ret (false, Some t)
                  else ret (true, Some t)
      end
  | Some _ =>
      do topic <- dds_DomainParticipant_find_topic o f_find part topic_name;
      match topic with
      | None => ret (false, None)
      | Some t => ret (true, Some t)
      end
  end.

(** The statements after the label [fail:], over the values the local
    variables have when control gets there. *)
Definition create_fail (o : oracle) (part : addr)
    (request_typesupport response_typesupport : option addr)
    (request_topic response_topic : option string)
    (request_reader read_condition response_writer : option addr)
    (service_info rmw_service : option addr) : M (option addr) :=
  match rmw_service with
  | Some h =>
      do svc <- load_service h;
      match service_name svc with
      | Some p => rmw_free p
      | None => ret tt
      end ;;
      rmw_service_free h
  | None => ret tt
  end ;;
  match request_reader with
  | Some rd =>
      match read_condition with
      | Some c => dds_DataReader_delete_readcondition o rd c ;; ret tt
      | None => ret tt
      end ;;
      dds_Subscriber_delete_datareader o rd ;; ret tt
  | None => ret tt
  end ;;
  match response_writer with
  | Some wr => dds_Publisher_delete_datawriter o wr ;; ret tt
  | None => ret tt
  end ;;
  match request_topic with
  | Some t => dds_DomainParticipant_delete_topic o part t ;; ret tt
  | None => ret tt
  end ;;
  match response_topic with
  | Some t => dds_DomainParticipant_delete_topic o part t ;; ret tt
  | None => ret tt
  end ;;
  match request_typesupport with
  | Some ts => dds_TypeSupport_delete ts
  | None => ret tt
  end ;;
  match response_typesupport with
  | Some ts => dds_TypeSupport_delete ts
  | None => ret tt
  end ;;
  delete_ServiceInfo service_info ;;
  ret None.

Definition rmw_create_service (o : oracle) (node : option rmw_node_t)
    (type_supports : option rosidl_service_type_support_t)
    (service_name : option string) (qos_policies : option rmw_qos_profile_t)
    : M (option addr) :=
  match node with
  | None => ret None
  | Some n =>
  if negb (id_matches (node_implementation_identifier n)) then ret None else
  match type_supports, service_name with
  | Some tss, Some name =>
  if is_empty name then ret None else
  match qos_policies with
  | None => ret None
  | Some qos =>
  let adapted_qos_policies :=
    qos_profile_update_best_available_for_services qos in
  if negb (avoid_ros_namespace_conventions adapted_qos_policies)
     && (o F_validate_full_topic_name || o F_topic_name_invalid)
  then ret None else
  match match introspection_c tss with
        | Some t => Some t
        | None => introspection_cpp tss
        end with
  | None => ret None
  | Some type_support =>
  do context <- load_ctx (node_context n);
  with_lock (endpoint_mutex (node_context n)) (
    let part := participant context in
    let fail := create_fail o part in
    let request_type_name :=
      fst (create_service_type_name (type_support_data type_support)) in
    let response_type_name :=
      snd (create_service_type_name (type_support_data type_support)) in
    if is_empty request_type_name || is_empty response_type_name
    then ret None else
    let request_topic_name :=
      create_topic_name ros_service_requester_prefix name "Request" in
    let response_topic_name :=
      create_topic_name ros_service_response_prefix name "Reply" in
    let request_metastring :=
      fst (create_service_metastring (type_support_data type_support)) in
    let response_metastring :=
      snd (create_service_metastring (type_support_data type_support)) in
    if is_empty request_metastring || is_empty response_metastring
    then ret None else
    do request_typesupport <-
      dds_TypeSupport_create o F_request_typesupport_create request_metastring;
    match request_typesupport with
    | None => fail None None None None None None None None None
    | Some rts =>
    do rc <- dds_TypeSupport_register_type o F_request_register_type rts
               request_type_name;
    if negb (is_ok rc)
    then fail (Some rts) None None None None None None None None else
    do response_typesupport <-
      dds_TypeSupport_create o F_response_typesupport_create
        response_metastring;
    match response_typesupport with
    | None => fail (Some rts) None None None None None None None None
    | Some pts =>
    do rc <- dds_TypeSupport_register_type o F_response_register_type pts
               response_type_name;
    if negb (is_ok rc)
    then fail (Some rts) (Some pts) None None None None None None None else
    (* Look for request topic *)
    do rq <- obtain_topic o F_request_default_topic_qos
               F_request_create_topic F_request_topic_qos_finalize
               F_request_find_topic part request_topic_name
               request_type_name;
    if negb (fst rq)
    then fail (Some rts) (Some pts) (snd rq) None None None None None None
    else
    (* Look for response topic *)
    do rr <- obtain_topic o F_response_default_topic_qos
               F_response_create_topic F_response_topic_qos_finalize
               F_response_find_topic part response_topic_name
               response_type_name;
    if negb (fst rr)
    then fail (Some rts) (Some pts) (snd rq) (snd rr) None None None None None
    else
    match snd rq, snd rr with
    | Some request_topic, Some response_topic =>
    let fail := fail (Some rts) (Some pts) (snd rq) (snd rr) in
    if o F_get_datareader_qos then fail None None None None None else
    do request_reader <- dds_Subscriber_create_datareader o request_topic;
    match request_reader with
    | None => fail None None None None None
    | Some rd =>
    if o F_datareader_qos_finalize
    then fail (Some rd) None None None None else
    do read_condition <- dds_DataReader_create_readcondition o rd;
    match read_condition with
    | None => fail (Some rd) None None None None
    | Some cond =>
    if o F_get_datawriter_qos
    then fail (Some rd) (Some cond) None None None else
    do response_writer <- dds_Publisher_create_datawriter o response_topic;
    match response_writer with
    | None => fail (Some rd) (Some cond) None None None
    | Some wr =>
    let fail := fail (Some rd) (Some cond) (Some wr) in
    if o F_datawriter_qos_finalize then fail None None else
    do service_info <- new_ServiceInfo o;
    match service_info with
    | None => fail None None
    | Some si =>
    do data_seq <- dds_DataSeq_create o;
    match data_seq with
    | None => ret None                              (* return nullptr; *)
    | Some _ =>
    do info_seq <- dds_SampleInfoSeq_create o;
    match info_seq with
    | None => ret None                              (* return nullptr; *)
    | Some _ =>
    do raw_data_sizes <- dds_UnsignedLongSeq_create o;
    match raw_data_sizes with
    | None => ret None                              (* return nullptr; *)
    | Some _ =>
    dds_DataReader_set_listener_context rd (Some si) ;;
    store_info si
      {| service_typesupport := Some type_support;
         response_writer := Some wr; request_reader := Some rd;
         read_condition := Some cond; data_seq := data_seq;
         info_seq := info_seq; raw_data_sizes := raw_data_sizes;
         ctx := Some (node_context n);
         event_callback_data :=
           {| callback := None; user_data := None |} |} ;;
    do rmw_service <- rmw_service_allocate o;
    match rmw_service with
    | None => fail (Some si) None
    | Some h =>
    do name_buffer <- rmw_allocate o;
    store_service h
      {| implementation_identifier := RMW_GURUMDDS_ID; data := Some si;
         service_name := name_buffer |} ;;
    match name_buffer with
    | None => fail (Some si) (Some h)
    | Some p =>
    store_string p name ;;
    do g <- on_service_created o si;
    if negb (bool_decide (g = RMW_RET_OK))
    then fail (Some si) (Some h) else
    dds_TypeSupport_delete rts ;;
    dds_TypeSupport_delete pts ;;
    ret (Some h)
    end end end end end end end end end
    | _, _ => undefined
    end
    end end)
  end end
  | _, _ => ret None
  end
  end.

(** *** Sequences of calls *)

Inductive Op :=
| OpCreate (o : oracle) (node : option rmw_node_t)
    (type_supports : option rosidl_service_type_support_t)
    (service_name : option string) (qos : option rmw_qos_profile_t)
| OpDestroy (o : oracle) (node : option rmw_node_t) (service : option addr)
| OpTake (o : oracle) (service : option addr)
    (request_header : option rmw_service_info_t)
    (ros_request : option ros_message) (taken : option bool)
| OpSend (o : oracle) (service : option addr)
    (request_header : option rmw_request_id_t)
    (ros_response : option ros_message)
| OpSetCallback (o : oracle) (service : option addr) (cb ud : option addr)
| OpDeliver (reader : addr) (s : Sample).

Definition step (op : Op) : M unit :=
  match op with
  | OpCreate o n ts name qos => rmw_create_service o n ts name qos ;; ret tt
  | OpDestroy o n s => rmw_destroy_service o n s ;; ret tt
  | OpTake o s h r t => rmw_take_request o s h r t ;; ret tt
  | OpSend o s h r => rmw_send_response o s h r ;; ret tt
  | OpSetCallback o s cb ud =>
      rmw_service_set_on_new_request_callback o s cb ud ;; ret tt
  | OpDeliver r s => deliver r s
  end.

Record step_record := {
  rec_before : World;
  rec_op : Op;
  rec_events : list Event;
  rec_after : World
}.

(** The calls of [ops] one after the other, up to the first one whose
    behaviour is undefined. *)
Fixpoint run (ops : list Op) (w : World) : list step_record :=
  match ops with
  | [] => []
  | op :: rest =>
      match step op w with
      | None => []
      | Some (_, w', evs) =>
          {| rec_before := w; rec_op := op; rec_events := evs;
             rec_after := w' |} :: run rest w'
      end
  end.

End Collaborators.

(** *** The QoS getters *)

(** [rmw_time_t] *)
Record rmw_time_t := {
  rmw_sec : Z;
  rmw_nsec : Z
}.

(** The policies of an [rmw_qos_profile_t] that the two getters report;
    [qos_naming] is the rest of the profile (the naming flag of
    [rmw_qos_profile_t] above). *)
Record rmw_qos_policies := {
  history : Z;
  depth : Z;
  reliability : Z;
  durability : Z;
  deadline : rmw_time_t;
  lifespan : rmw_time_t;
  liveliness : Z;
  liveliness_lease_duration : rmw_time_t;
  qos_naming : rmw_qos_profile_t
}.

Record dds_HistoryQosPolicy := {
  history_kind : Z;
  history_depth : Z
}.

Record dds_LivelinessQosPolicy := {
  liveliness_kind : Z;
  lease_duration : dds_Time_t
}.

(** The policies of a [dds_DataWriterQos] and of a [dds_DataReaderQos]
    that the getters read. *)
Record dds_DataWriterQos := {
  wq_reliability : Z;
  wq_durability : Z;
  wq_deadline : dds_Time_t;
  wq_lifespan : dds_Time_t;
  wq_liveliness : dds_LivelinessQosPolicy;
  wq_history : dds_HistoryQosPolicy
}.

Record dds_DataReaderQos := {
  rq_reliability : Z;
  rq_durability : Z;
  rq_deadline : dds_Time_t;
  rq_liveliness : dds_LivelinessQosPolicy;
  rq_history : dds_HistoryQosPolicy
}.

(** [static_cast<size_t>(depth)] of an [int32_t], on a 64-bit target. *)
Definition size_t_of_int32 (z : Z) : Z := z mod 2 ^ 64.

Section ActualQos.

(** The conversions of qos.hpp, and the DDS calls that read the QoS of an
    entity ([None] when the call does not return [dds_RETCODE_OK]) and
    finalise it. *)
Variable convert_reliability : Z -> Z.
Variable convert_durability : Z -> Z.
Variable convert_deadline : dds_Time_t -> rmw_time_t.
Variable convert_lifespan : dds_Time_t -> rmw_time_t.
Variable convert_liveliness : dds_LivelinessQosPolicy -> Z.
Variable convert_liveliness_lease_duration :
  dds_LivelinessQosPolicy -> rmw_time_t.
Variable convert_history : dds_HistoryQosPolicy -> Z.
Variable dds_DataWriter_get_qos : addr -> option dds_DataWriterQos.
Variable dds_DataWriterQos_finalize : dds_DataWriterQos -> dds_ReturnCode_t.
Variable dds_DataReader_get_qos : addr -> option dds_DataReaderQos.
Variable dds_DataReaderQos_finalize : dds_DataReaderQos -> dds_ReturnCode_t.

Definition rmw_service_response_publisher_get_actual_qos
    (service : option addr) (qos : option rmw_qos_policies)
    : M (rmw_ret_t * option rmw_qos_policies) :=
  match service with
  | None => ret (RMW_RET_INVALID_ARGUMENT, qos)
  | Some h =>
  do svc <- load_service h;
  if negb (id_matches (implementation_identifier svc))
  then ret (RMW_RET_INCORRECT_RMW_IMPLEMENTATION, qos) else
  match qos with
  | None => ret (RMW_RET_INVALID_ARGUMENT, qos)
  | Some q =>
  match data svc with
  | None => ret (RMW_RET_ERROR, qos)
  | Some a =>
  do service_info <- load_info a;
  match response_writer service_info with
  | None => ret (RMW_RET_ERROR, qos)
  | Some response_writer =>
  do e <- load_entity response_writer;
  match e with
  | Ent_DataWriter _ _ =>
  match dds_DataWriter_get_qos response_writer with
  | None => ret (RMW_RET_ERROR, qos)
  | Some dds_qos =>
      let q' :=
        {| reliability := convert_reliability (wq_reliability dds_qos);
           durability := convert_durability (wq_durability dds_qos);
           deadline := convert_deadline (wq_deadline dds_qos);
           lifespan := convert_lifespan (wq_lifespan dds_qos);
           liveliness := convert_liveliness (wq_liveliness dds_qos);
           liveliness_lease_duration :=
             convert_liveliness_lease_duration (wq_liveliness dds_qos);
           history := convert_history (wq_history dds_qos);
           depth := size_t_of_int32 (history_depth (wq_history dds_qos));
           qos_naming := qos_naming q |} in
      if negb (is_ok (dds_DataWriterQos_finalize dds_qos))
      then ret (RMW_RET_ERROR, Some q')
      else ret (RMW_RET_OK, Some q')
  end
  | _ => undefined
  end
  end end end
  end.

Definition rmw_service_request_subscription_get_actual_qos
    (service : option addr) (qos : option rmw_qos_policies)
    : M (rmw_ret_t * option rmw_qos_policies) :=
  match service with
  | None => ret (RMW_RET_INVALID_ARGUMENT, qos)
  | Some h =>
  do svc <- load_service h;
  if negb (id_matches (implementation_identifier svc))
  then ret (RMW_RET_INCORRECT_RMW_IMPLEMENTATION, qos) else
  match qos with
  | None => ret (RMW_RET_INVALID_ARGUMENT, qos)
  | Some q =>
  match data svc with
  | None => ret (RMW_RET_ERROR, qos)
  | Some a =>
  do service_info <- load_info a;
  match request_reader service_info with
  | None => ret (RMW_RET_ERROR, qos)
  | Some request_reader =>
  load_reader request_reader ;;
  match dds_DataReader_get_qos request_reader with
  | None => ret (RMW_RET_ERROR, qos)
  | Some dds_qos =>
      let q' :=
        {| reliability := convert_reliability (rq_reliability dds_qos);
           durability := convert_durability (rq_durability dds_qos);
           deadline := convert_deadline (rq_deadline dds_qos);
           lifespan := lifespan q;
           liveliness := convert_liveliness (rq_liveliness dds_qos);
           liveliness_lease_duration :=
             convert_liveliness_lease_duration (rq_liveliness dds_qos);
           history := convert_history (rq_history dds_qos);
           depth := size_t_of_int32 (history_depth (rq_history dds_qos));
           qos_naming := qos_naming q |} in
      if negb (is_ok (dds_DataReaderQos_finalize dds_qos))
      then ret (RMW_RET_ERROR, Some q')
      else ret (RMW_RET_OK, Some q')
  end
  end end end
  end.

End ActualQos.

(** ** A concrete endpoint

    A context under the basic mapping (address 1) and one under the
    enhanced mapping (address 2), a toy type support whose basic wire form
    is the 16 GUID bytes, the two halves of the sequence number in
    big-endian order and then the body, and the service "/add_two_ints". *)
Module Fixture.

Definition byte_of_Z (z : Z) : Byte.byte :=
  default Byte.x00 (Byte.of_N (Z.to_N (z mod 256))).

Definition Z_of_byte (b : Byte.byte) : Z := Z.of_N (Byte.to_N b).

Definition be32 (z : Z) : bytes :=
  [byte_of_Z (z / 2 ^ 24); byte_of_Z (z / 2 ^ 16); byte_of_Z (z / 2 ^ 8);
   byte_of_Z z].

Definition of_be32 (l : bytes) : Z :=
  fold_left (fun acc b => acc * 256 + Z_of_byte b) l 0.

Definition to_int32 (z : Z) : Z := if z <? 2 ^ 31 then z else z - 2 ^ 32.

Definition toy_type_support : service_type_support :=
  {| deserialize_request_basic := fun raw size old =>
       if (length raw <? 24)%nat then (false, old, (0, 0, []))
       else (true, drop 24 raw,
             (to_int32 (of_be32 (take 4 (drop 16 raw))),
              of_be32 (take 4 (drop 20 raw)),
              take 16 raw));
     deserialize_request_enhanced := fun raw size old =>
       if (length raw <? 1)%nat then (false, old) else (true, raw);
     allocate_response_basic := fun resp =>
       Some (Z.of_nat (24 + length resp));
     serialize_response_basic := fun resp size sn guid =>
       Some (guid ++ be32 (Z.shiftr sn 32) ++ be32 sn ++ resp);
     allocate_response_enhanced := fun resp => Some (Z.of_nat (length resp));
     serialize_response_enhanced := fun resp size => Some resp;
     create_service_type_name :=
       ("AddTwoInts_Request_"%string, "AddTwoInts_Response_"%string);
     create_service_metastring := ("!rq"%string, "!rr"%string) |}.

Definition type_supports : rosidl_service_type_support_t :=
  {| introspection_c := Some 1%positive; introspection_cpp := None |}.

(** The collaborators of the concrete runs: every handle stands for the
    toy type support, and the identity codec leaves GUIDs and sequence
    numbers as they are. *)
Definition type_support_data (_ : addr) : service_type_support :=
  toy_type_support.

Definition check_dds_ret_code (rc : dds_ReturnCode_t) : rmw_ret_t :=
  if bool_decide (rc = dds_RETCODE_OK) then RMW_RET_OK else RMW_RET_ERROR.

Definition take := rmw_take_request type_support_data id id.
Definition send := rmw_send_response type_support_data id id.
Definition set_callback :=
  rmw_service_set_on_new_request_callback check_dds_ret_code.

Definition basic_ctx : addr := 1%positive.
Definition enhanced_ctx : addr := 2%positive.

Definition node (c : addr) : rmw_node_t :=
  {| node_implementation_identifier := RMW_GURUMDDS_ID; node_context := c |}.

Definition qos : rmw_qos_profile_t :=
  {| avoid_ros_namespace_conventions := false |}.

Definition w_init : World :=
  {| w_ctxs :=
       <[basic_ctx := {| service_mapping_basic := true;
                         participant := 1%positive |}]>
       (<[enhanced_ctx := {| service_mapping_basic := false;
                             participant := 2%positive |}]> ∅);
     w_services := ∅; w_strings := ∅; w_infos := ∅; w_topics := ∅;
     w_dds := ∅; w_graph := ∅ |}.

Definition create (o : oracle) (c : addr) : M (option addr) :=
  rmw_create_service type_support_data o (Some (node c)) (Some type_supports)
    (Some "/add_two_ints"%string) (Some qos).

Definition world_of {A} (r : option (A * World * list Event)) : World :=
  match r with Some (_, w, _) => w | None => w_init end.

Definition value_of {A} (r : option (A * World * list Event)) : option A :=
  match r with Some (x, _, _) => Some x | None => None end.

Definition events_of {A} (r : option (A * World * list Event))
    : list Event :=
  match r with Some (_, _, e) => e | None => [] end.

(** The world after a successful creation under each mapping; the
    handle, the [ServiceInfo], the reader and the writer sit at the
    addresses below. *)
Definition w_basic : World := world_of (create no_fault basic_ctx w_init).
Definition w_enhanced : World :=
  world_of (create no_fault enhanced_ctx w_init).

Definition zero_guid : bytes := replicate 16 Byte.x00.

Definition empty_header : rmw_service_info_t :=
  {| info_source_timestamp := 0; info_received_timestamp := 0;
     request_id := {| writer_guid := zero_guid; sequence_number := 0 |} |}.

Definition lifecycle_sample : Sample :=
  {| sample_data := None; sample_size := 0;
     sample_info :=
       {| valid_data := false;
          source_timestamp := {| sec := 0; nanosec := 0 |};
          reception_timestamp := {| sec := 0; nanosec := 0 |};
          src_guid := zero_guid; seq := 0 |} |}.

(** What the creation under the basic mapping has built. *)
Definition the_handle : addr := 1%positive.
Definition the_endpoint : addr := 1%positive.
Definition the_reader : addr := 3%positive.
Definition the_writer : addr := 5%positive.

Definition the_service : rmw_service_t :=
  {| implementation_identifier := RMW_GURUMDDS_ID;
     data := Some the_endpoint; service_name := Some 1%positive |}.

Definition the_info : ServiceInfo :=
  {| service_typesupport := Some 1%positive;
     response_writer := Some the_writer;
     request_reader := Some the_reader;
     read_condition := Some 4%positive;
     data_seq := Some 6%positive; info_seq := Some 7%positive;
     raw_data_sizes := Some 8%positive;
     ctx := Some basic_ctx;
     event_callback_data := {| callback := None; user_data := None |} |}.

Definition basic_context : rmw_context_impl_t :=
  {| service_mapping_basic := true; participant := 1%positive |}.

Definition reader_state : dds_DataReader :=
  {| rd_topic := "rq/add_two_intsRequest"; rd_samples := []; rd_loans := 0;
     rd_status_changes := 0; rd_listener_installed := false;
     rd_listener_mask := 0; rd_listener_context := Some the_endpoint |}.

(** A request on the wire under the basic mapping: the client GUID, the
    sequence number 42 in two halves, and a two-byte body. *)
Definition request_body : bytes := [Byte.x01; Byte.x02].

Definition request_sample : Sample :=
  {| sample_data := Some (zero_guid ++ be32 0 ++ be32 42 ++ request_body);
     sample_size := 26;
     sample_info :=
       {| valid_data := true;
          source_timestamp := {| sec := 1; nanosec := 5 |};
          reception_timestamp := {| sec := 1; nanosec := 7 |};
          src_guid := zero_guid; seq := 0 |} |}.

(** The endpoint with one lifecycle sample, with one request, and with two
    requests buffered. *)
Definition w_lifecycle : World := enqueue the_reader lifecycle_sample w_basic.
Definition w_request : World := enqueue the_reader request_sample w_basic.
Definition w_two_requests : World := enqueue the_reader request_sample w_request.

Definition reader_two : dds_DataReader :=
  with_samples reader_state [request_sample; request_sample] 0.

(** The endpoint after a callback (the function at address 9, with user
    data at 10) has been registered on [w_two_requests]. *)
Definition w_registered : World :=
  world_of (set_callback no_fault (Some the_handle) (Some 9%positive)
              (Some 10%positive) w_two_requests).

Definition info_registered : ServiceInfo :=
  with_callback the_info (Some 9%positive) (Some 10%positive).

Definition reader_registered : dds_DataReader :=
  with_listener reader_two dds_DATA_AVAILABLE_STATUS.

(** A handle whose data pointer is null. *)
Definition w_null_data : World :=
  set_services (<[the_handle := with_data the_service None]>) w_basic.

Definition some_calls : list Op :=
  [OpTake no_fault (Some the_handle) (Some empty_header) (Some []) (Some false);
   OpSend no_fault (Some the_handle)
     (Some {| writer_guid := zero_guid; sequence_number := 42 |})
     (Some request_body);
   OpDeliver the_reader request_sample;
   OpSetCallback no_fault (Some the_handle) (Some 9%positive) None;
   OpDeliver the_reader lifecycle_sample;
   OpTake no_fault (Some the_handle) (Some empty_header) (Some []) (Some false);
   OpCreate no_fault (Some (node enhanced_ctx)) (Some type_supports)
     (Some "/other"%string) (Some qos)].

Abbreviation run_calls :=
  (run type_support_data check_dds_ret_code id id id id).

End Fixture.

(** * Specifications *)

(** ** The split sequence number of the basic mapping *)

(** Modelled from the spec: the basic mapping carries the 64-bit sequence
    number as a 32-bit high and a 32-bit low half; the split itself is done
    by [serialize_response_basic], in type_support_service.hpp. *)
Definition sn_high (sequence_number : Z) : Z := Z.shiftr sequence_number 32.
Definition sn_low (sequence_number : Z) : Z :=
  Z.land sequence_number (2 ^ 32 - 1).

(** What the codec outside this file has to do for one exchange, for the
    round trip through [rmw_send_response] and [rmw_take_request] to be
    the identity: the response buffer is allocated and serialised, the
    deserialiser gives the body back (under the basic mapping together
    with the split sequence number and the GUID), and under the enhanced
    mapping the identity codec is undone by its inverse. *)
Definition codec_agrees (basic : bool) (ts : service_type_support)
    (ros_sn_to_dds_sn dds_sn_to_ros_sn : Z -> Z)
    (ros_guid_to_dds_guid dds_guid_to_ros_guid : bytes -> bytes)
    (payload guid : bytes) (sn size : Z) (raw old : bytes) : Prop :=
  if basic then
    allocate_response_basic ts payload = Some size /\
    serialize_response_basic ts payload size sn guid = Some raw /\
    deserialize_request_basic ts raw size old
      = (true, payload, (sn_high sn, sn_low sn, guid))
  else
    allocate_response_enhanced ts payload = Some size /\
    serialize_response_enhanced ts payload size = Some raw /\
    deserialize_request_enhanced ts raw size old = (true, payload) /\
    dds_sn_to_ros_sn (ros_sn_to_dds_sn sn) = sn /\
    dds_guid_to_ros_guid (ros_guid_to_dds_guid guid) = guid.

(** A published sample as a reader of the same mapping gets it. *)
Definition loop_back (s : written_sample) (sent received : dds_Time_t)
    : Sample :=
  {| sample_data := Some (written_data s);
     sample_size := written_size s;
     sample_info :=
       {| valid_data := true;
          source_timestamp := sent;
          reception_timestamp := received;
          src_guid := match written_info s with
                      | Some i => src_guid i
                      | None => []
                      end;
          seq := match written_info s with
                 | Some i => seq i
                 | None => 0
                 end |} |}.

(** ** What a call leaves alone *)

Definition heap_kept (w w' : World) : Prop :=
  w_ctxs w' = w_ctxs w /\ w_services w' = w_services w /\
  w_strings w' = w_strings w /\ w_infos w' = w_infos w /\
  w_topics w' = w_topics w /\ w_graph w' = w_graph w.

(** Every reader is still there, with the loans and the listener it had. *)
Definition readers_kept (w w' : World) : Prop :=
  forall rd r, w_dds w !! rd = Some (Ent_DataReader r) ->
    exists r', w_dds w' !! rd = Some (Ent_DataReader r') /\
      rd_loans r' = rd_loans r /\
      rd_listener_installed r' = rd_listener_installed r /\
      rd_listener_mask r' = rd_listener_mask r /\
      rd_listener_context r' = rd_listener_context r.

(** ** [rmw_take_request] *)

Definition untouched (hdr : option rmw_service_info_t)
    (req : option ros_message) (taken : option bool) : take_out :=
  {| out_request_header := hdr; out_ros_request := req; out_taken := taken |}.

(** The call was turned down by the argument checks. *)
Definition take_rejected (w : World) (service : option addr)
    (hdr : option rmw_service_info_t) (req : option ros_message)
    (taken : option bool) (res : rmw_ret_t * take_out) : Prop :=
  snd res = untouched hdr req taken /\
  (fst res = RMW_RET_INVALID_ARGUMENT /\
     (service = None \/ hdr = None \/ req = None \/ taken = None)
   \/ fst res = RMW_RET_INCORRECT_RMW_IMPLEMENTATION /\
      exists h svc, service = Some h /\ w_services w !! h = Some svc /\
        id_matches (implementation_identifier svc) = false).

(** Every return of [rmw_take_request]: either nothing was asked of the
    transport, or one raw take under the mapping of the endpoint's context
    was followed by the return of the loan. *)
Definition take_post (w : World) (service : option addr)
    (hdr : option rmw_service_info_t) (req : option ros_message)
    (taken : option bool) (res : rmw_ret_t * take_out) (w' : World)
    (evs : list Event) : Prop :=
  heap_kept w w' /\ readers_kept w w' /\
  (evs = [] /\
     (take_rejected w service hdr req taken res \/
      fst res = RMW_RET_ERROR /\ out_taken (snd res) = Some false)
   \/ exists h svc a si rd c cx rc,
        service = Some h /\ w_services w !! h = Some svc /\
        data svc = Some a /\ w_infos w !! a = Some si /\
        request_reader si = Some rd /\ ctx si = Some c /\
        w_ctxs w !! c = Some cx /\
        evs = [EvRawTake rd (variant_of_flag (service_mapping_basic cx)) rc;
               EvReturnLoan rd] /\
        (out_taken (snd res) = Some false \/
         fst res = RMW_RET_OK /\ rc = dds_RETCODE_OK)).




(** ** [rmw_send_response] *)

Definition send_post (w : World) (service : option addr) (res : rmw_ret_t)
    (w' : World) (evs : list Event) : Prop :=
  heap_kept w w' /\ readers_kept w w' /\
  (evs = []
   \/ exists h svc a si wr c cx s rc,
        service = Some h /\ w_services w !! h = Some svc /\
        data svc = Some a /\ w_infos w !! a = Some si /\
        response_writer si = Some wr /\ ctx si = Some c /\
        w_ctxs w !! c = Some cx /\
        evs = [EvRawWrite wr (variant_of_flag (service_mapping_basic cx))
                 s rc]).

(** ** The wire mapping of an endpoint *)

(** The flag a take or a send on the endpoint at [a] branches on. *)
Definition endpoint_flag (w : World) (a : addr) : option bool :=
  match w_infos w !! a with
  | Some si =>
      match ctx si with
      | Some c =>
          match w_ctxs w !! c with
          | Some cx => Some (service_mapping_basic cx)
          | None => None
          end
      | None => None
      end
  | None => None
  end.

(** The mapping under which an event went through the transport. *)
Definition transport_variant (e : Event) : option wire_variant :=
  match e with
  | EvRawTake _ v _ => Some v
  | EvRawWrite _ v _ _ => Some v
  | _ => None
  end.

Definition handle_endpoint (w : World) (service : option addr)
    : option addr :=
  match service with
  | Some h =>
      match w_services w !! h with
      | Some svc => data svc
      | None => None
      end
  | None => None
  end.

Definition is_callback (e : Event) : bool :=
  match e with EvCallback _ _ _ => true | _ => false end.

(** ** The notification gate *)

(** The calls after which a cleared callback has to stay silent: takes and
    sends on any endpoint, and deliveries to the reader [rd]. *)
Definition quiet_op (rd : addr) (op : Op) : bool :=
  match op with
  | OpTake _ _ _ _ _ => true
  | OpSend _ _ _ _ => true
  | OpDeliver reader _ => bool_decide (reader = rd)
  | _ => false
  end.

(** What [dds_DataReader_set_listener] returns under the oracle. *)
Definition listener_rc (o : oracle) : dds_ReturnCode_t :=
  if o F_set_listener then dds_RETCODE_ERROR else dds_RETCODE_OK.

(** The gate of the endpoint at [a] is closed: no callback is stored, and
    the listener of its reader [rd] leads to [a]. *)
Definition gate_closed (a rd : addr) (w : World) : Prop :=
  (exists si, w_infos w !! a = Some si /\
              callback (event_callback_data si) = None) /\
  (exists r, w_dds w !! rd = Some (Ent_DataReader r) /\
             rd_listener_context r = Some a).

(** ** [rmw_destroy_service] *)

(** Every return of [rmw_destroy_service]: the contexts are as they were,
    no [ServiceInfo] appears or changes, and after a successful return
    the handle is no longer allocated. *)
Definition destroy_post (w : World) (service : option addr) (res : rmw_ret_t)
    (w' : World) (evs : list Event) : Prop :=
  w_ctxs w' = w_ctxs w /\
  (forall a si, w_infos w' !! a = Some si -> w_infos w !! a = Some si) /\
  (res = RMW_RET_OK ->
   forall h, service = Some h -> w_services w' !! h = None).

(** ** [rmw_create_service] *)

(** Every return of [rmw_create_service]: the contexts and the
    [ServiceInfo] records that were there are as they were. *)
Definition create_post (w : World) (res : option addr) (w' : World)
    (evs : list Event) : Prop :=
  w_ctxs w' = w_ctxs w /\
  (forall a si, w_infos w !! a = Some si -> w_infos w' !! a = Some si).

(** Every return of the callback registration: the contexts are as they
    were, and every [ServiceInfo] is still there and still points to the
    context it pointed to. *)
Definition set_callback_post (w : World) (res : rmw_ret_t) (w' : World)
    (evs : list Event) : Prop :=
  w_ctxs w' = w_ctxs w /\
  (forall a si, w_infos w !! a = Some si ->
     exists si', w_infos w' !! a = Some si' /\ ctx si' = ctx si).

Definition op_endpoint (w : World) (op : Op) : option addr :=
  match op with
  | OpTake _ service _ _ _ => handle_endpoint w service
  | OpSend _ service _ _ => handle_endpoint w service
  | _ => None
  end.

(** ** The two wire variants *)

(** Modelled from the spec: the envelope of a request consumed under a
    wire variant.  Under the basic variant the caller identity and the
    split sequence number are inside the serialised payload and come out
    of it through the deserialiser of that variant; under the enhanced
    variant they are read from the metadata of the sample, through the
    identity codec, and the payload is deserialised on its own. *)
Definition decode_under (v : wire_variant) (ts : service_type_support)
    (dds_sn_to_ros_sn : Z -> Z) (dds_guid_to_ros_guid : bytes -> bytes)
    (s : Sample) (raw : bytes) (old : ros_message)
    : bool * ros_message * bytes * Z :=
  match v with
  | Basic =>
      let '(ok, payload, (high, low, caller)) :=
        deserialize_request_basic ts raw (sample_size s) old in
      (ok, payload, caller, Int.sequence_number_of_split high low)
  | Enhanced =>
      let '(ok, payload) :=
        deserialize_request_enhanced ts raw (sample_size s) old in
      (ok, payload, dds_guid_to_ros_guid (src_guid (sample_info s)),
       dds_sn_to_ros_sn (seq (sample_info s)))
  end.

(** Modelled from the spec: a response published under a wire variant.
    Under the basic variant the identity and the sequence number of the
    envelope are re-embedded in the serialised body and the sample has
    no metadata; under the enhanced variant the body is serialised on
    its own and the identity and the sequence number go, through the
    identity codec, into the metadata of the outgoing sample. *)
Definition encoded_under (v : wire_variant) (ts : service_type_support)
    (ros_sn_to_dds_sn : Z -> Z) (ros_guid_to_dds_guid : bytes -> bytes)
    (envelope : rmw_request_id_t) (payload : ros_message)
    (s : written_sample) : Prop :=
  match v with
  | Basic =>
      allocate_response_basic ts payload = Some (written_size s) /\
      serialize_response_basic ts payload (written_size s)
        (sequence_number envelope) (writer_guid envelope)
        = Some (written_data s) /\
      written_info s = None
  | Enhanced =>
      allocate_response_enhanced ts payload = Some (written_size s) /\
      serialize_response_enhanced ts payload (written_size s)
        = Some (written_data s) /\
      exists i, written_info s = Some i /\
        src_guid i = ros_guid_to_dds_guid (writer_guid envelope) /\
        seq i = ros_sn_to_dds_sn (sequence_number envelope)
  end.

(** A take on the endpoint at [a] that was handed a sample consumed it
    under the variant [v]: the raw take was the one of [v], the sample
    was the oldest of the endpoint's request reader, and when that
    sample is valid and carries data, what the caller gets is what
    [decode_under v] makes of it: the decoded payload and the header
    filled with the envelope when the decoding succeeds, an error with
    the header left alone when it does not. *)
Definition take_under (v : wire_variant)
    (type_support_data : addr -> service_type_support)
    (dds_sn_to_ros_sn : Z -> Z) (dds_guid_to_ros_guid : bytes -> bytes)
    (w : World) (a : addr) (hdr : option rmw_service_info_t)
    (req : option ros_message) (res : rmw_ret_t * take_out)
    (evs : list Event) : Prop :=
  forall rd v',
    evs = [EvRawTake rd v' dds_RETCODE_OK; EvReturnLoan rd] ->
    v' = v /\
    exists si ts r s rest header buffer,
      w_infos w !! a = Some si /\ request_reader si = Some rd /\
      service_typesupport si = Some ts /\
      w_dds w !! rd = Some (Ent_DataReader r) /\
      rd_samples r = s :: rest /\
      hdr = Some header /\ req = Some buffer /\
      forall raw,
        valid_data (sample_info s) = true -> sample_data s = Some raw ->
        let '(ok, payload, caller, sn) :=
          decode_under v (type_support_data ts) dds_sn_to_ros_sn
            dds_guid_to_ros_guid s raw buffer in
        res = if ok
              then (RMW_RET_OK,
                    {| out_request_header :=
                         Some (fill_header (sample_info s) sn caller
                                 header);
                       out_ros_request := Some payload;
                       out_taken := Some true |})
              else (RMW_RET_ERROR,
                    {| out_request_header := Some header;
                       out_ros_request := Some payload;
                       out_taken := Some false |}).

(** A send on the endpoint at [a] that reached the transport produced
    its sample under the variant [v]: the raw write was the one of [v],
    to the endpoint's response writer, and the sample written is the
    caller's envelope and payload encoded under [v]. *)
Definition send_under (v : wire_variant)
    (type_support_data : addr -> service_type_support)
    (ros_sn_to_dds_sn : Z -> Z) (ros_guid_to_dds_guid : bytes -> bytes)
    (w : World) (a : addr) (hdr : option rmw_request_id_t)
    (resp : option ros_message) (evs : list Event) : Prop :=
  forall wr v' s rc,
    evs = [EvRawWrite wr v' s rc] ->
    v' = v /\
    exists si ts envelope payload,
      w_infos w !! a = Some si /\ response_writer si = Some wr /\
      service_typesupport si = Some ts /\
      hdr = Some envelope /\ resp = Some payload /\
      encoded_under v (type_support_data ts) ros_sn_to_dds_sn
        ros_guid_to_dds_guid envelope payload s.

(** One call of a sequence, when it is a take or a send, went through
    the codec of the variant [v]. *)
Definition codec_under (v : wire_variant)
    (type_support_data : addr -> service_type_support)
    (ros_sn_to_dds_sn dds_sn_to_ros_sn : Z -> Z)
    (ros_guid_to_dds_guid dds_guid_to_ros_guid : bytes -> bytes)
    (a : addr) (rec : step_record) : Prop :=
  match rec_op rec with
  | OpTake o service hdr req t =>
      exists res,
        rmw_take_request type_support_data dds_sn_to_ros_sn
          dds_guid_to_ros_guid o service hdr req t (rec_before rec)
          = Some (res, rec_after rec, rec_events rec) /\
        take_under v type_support_data dds_sn_to_ros_sn
          dds_guid_to_ros_guid (rec_before rec) a hdr req res
          (rec_events rec)
  | OpSend o service hdr resp =>
      exists res,
        rmw_send_response type_support_data ros_sn_to_dds_sn
          ros_guid_to_dds_guid o service hdr resp (rec_before rec)
          = Some (res, rec_after rec, rec_events rec) /\
        send_under v type_support_data ros_sn_to_dds_sn
          ros_guid_to_dds_guid (rec_before rec) a hdr resp
          (rec_events rec)
  | _ => True
  end.

(** ** Weakest preconditions

    [gwp total m w Q]: when [m] is run in [w] and returns, [Q] holds of
    its result, final world and events; with [total = true] it also
    returns (its behaviour is defined). *)

Definition stuck (total : bool) : Prop := total = false.

Definition gwp {A} (total : bool) (m : M A) (w : World)
    (Q : A -> World -> list Event -> Prop) : Prop :=
  match m w with
  | Some (x, w', e) => Q x w' e
  | None => stuck total
  end.

(** A program that leaves the contexts and the [ServiceInfo] records
    alone. *)
Definition frames {A} (m : M A) : Prop :=
  forall w, gwp false m w (fun _ w' _ =>
    w_ctxs w' = w_ctxs w /\ w_infos w' = w_infos w).

(** ** What a take and a send do to the world *)

(** A take leaves the world as it found it, or removes the oldest sample
    from the buffer of the endpoint's request reader; nothing else. *)
Definition take_world (w : World) (service : option addr) (w' : World)
    (evs : list Event) : Prop :=
  w' = w \/
  exists h svc a si rd r s rest v,
    service = Some h /\ w_services w !! h = Some svc /\ data svc = Some a /\
    w_infos w !! a = Some si /\ request_reader si = Some rd /\
    w_dds w !! rd = Some (Ent_DataReader r) /\ rd_samples r = s :: rest /\
    evs = [EvRawTake rd v dds_RETCODE_OK; EvReturnLoan rd] /\
    w' = set_dds (<[rd := Ent_DataReader (with_samples r rest (rd_loans r))]>) w.

(** A send that does not return [RMW_RET_OK] leaves the world as it found
    it; one that does has handed exactly one sample to the endpoint's
    response writer. *)
Definition send_world (w : World) (service : option addr) (res : rmw_ret_t)
    (w' : World) (evs : list Event) : Prop :=
  (res <> RMW_RET_OK /\ w' = w /\
   (evs = [] \/ exists wr v s, evs = [EvRawWrite wr v s dds_RETCODE_ERROR]))
  \/
  (res = RMW_RET_OK /\
   exists h svc a si wr topic written v s,
     service = Some h /\ w_services w !! h = Some svc /\ data svc = Some a /\
     w_infos w !! a = Some si /\ response_writer si = Some wr /\
     w_dds w !! wr = Some (Ent_DataWriter topic written) /\
     evs = [EvRawWrite wr v s dds_RETCODE_OK] /\
     w' = set_dds (<[wr := Ent_DataWriter topic (written ++ [s])]>) w).

(** ** A well-formed endpoint *)

(** The addresses of what one endpoint is made of: the handle, the buffer
    of its name, the [ServiceInfo], the type support and the context it
    points to, and its DDS entities. *)
Record endpoint_layout := {
  ep_handle : addr;
  ep_name : addr;
  ep_info : addr;
  ep_typesupport : addr;
  ep_ctx : addr;
  ep_reader : addr;
  ep_condition : addr;
  ep_writer : addr;
  ep_data_seq : addr;
  ep_info_seq : addr;
  ep_sizes : addr
}.

(** The handle and the [ServiceInfo] as [rmw_create_service] fills them
    in. *)
Definition endpoint_service (l : endpoint_layout) : rmw_service_t :=
  {| implementation_identifier := RMW_GURUMDDS_ID;
     data := Some (ep_info l);
     service_name := Some (ep_name l) |}.

Definition endpoint_info (l : endpoint_layout)
    (cb : rmw_event_callback_data_t) : ServiceInfo :=
  {| service_typesupport := Some (ep_typesupport l);
     response_writer := Some (ep_writer l);
     request_reader := Some (ep_reader l);
     read_condition := Some (ep_condition l);
     data_seq := Some (ep_data_seq l);
     info_seq := Some (ep_info_seq l);
     raw_data_sizes := Some (ep_sizes l);
     ctx := Some (ep_ctx l);
     event_callback_data := cb |}.

(** The endpoint laid out as [l] is whole: every pointer leads to a live
    object of the right kind, and the listener context of the reader
    leads back to the [ServiceInfo]. *)
Definition endpoint_at (w : World) (l : endpoint_layout) : Prop :=
  w_services w !! ep_handle l = Some (endpoint_service l) /\
  is_Some (w_strings w !! ep_name l) /\
  (exists cb, w_infos w !! ep_info l = Some (endpoint_info l cb)) /\
  is_Some (w_ctxs w !! ep_ctx l) /\
  (exists r, w_dds w !! ep_reader l = Some (Ent_DataReader r) /\
             rd_listener_context r = Some (ep_info l)) /\
  w_dds w !! ep_condition l = Some (Ent_ReadCondition (ep_reader l)) /\
  (exists topic written,
     w_dds w !! ep_writer l = Some (Ent_DataWriter topic written)) /\
  (exists v, w_dds w !! ep_data_seq l = Some (Ent_DataSeq v)) /\
  (exists v, w_dds w !! ep_info_seq l = Some (Ent_SampleInfoSeq v)) /\
  (exists v, w_dds w !! ep_sizes l = Some (Ent_UnsignedLongSeq v)).

(** The world without the endpoint: handle, name, [ServiceInfo], DDS
    entities and graph-cache entry are gone; topics and contexts stay. *)
Definition endpoint_released (l : endpoint_layout) (w : World) : World :=
  {| w_ctxs := w_ctxs w;
     w_services := delete (ep_handle l) (w_services w);
     w_strings := delete (ep_name l) (w_strings w);
     w_infos := delete (ep_info l) (w_infos w);
     w_topics := w_topics w;
     w_dds :=
       delete (ep_reader l)
         (delete (ep_condition l)
            (delete (ep_sizes l)
               (delete (ep_info_seq l)
                  (delete (ep_data_seq l)
                     (delete (ep_writer l) (w_dds w))))));
     w_graph := w_graph w ∖ {[ep_info l]} |}.

(** What a teardown has already let go of when the deletion of the read
    condition or of the reader fails: the writer and the three scratch
    sequences. *)
Definition endpoint_half_released (l : endpoint_layout) (w : World) : World :=
  set_dds (fun m =>
    delete (ep_sizes l)
      (delete (ep_info_seq l)
         (delete (ep_data_seq l) (delete (ep_writer l) m)))) w.

(** ** What a creation builds *)

(** The topic table after a call has created the topic, or has attached
    to the one that was there. *)
Definition hold_topic (part : addr) (name type_name : string)
    (m : gmap (positive * string) dds_Topic)
    : gmap (positive * string) dds_Topic :=
  match m !! (part, name) with
  | None =>
      <[(part, name) :=
          {| topic_type_name := type_name; topic_refs := 1 |}]> m
  | Some t =>
      <[(part, name) :=
          {| topic_type_name := topic_type_name t;
             topic_refs := S (topic_refs t) |}]> m
  end.

Definition request_topic_name (name : string) : string :=
  create_topic_name ros_service_requester_prefix name "Request".
Definition response_topic_name (name : string) : string :=
  create_topic_name ros_service_response_prefix name "Reply".

(** The topics of the service [name], of request type [rq_type] and
    response type [rr_type], held once more on the participant [part]. *)
Definition hold_topics (part : addr) (name rq_type rr_type : string)
    (m : gmap (positive * string) dds_Topic)
    : gmap (positive * string) dds_Topic :=
  hold_topic part (response_topic_name name) rr_type
    (hold_topic part (request_topic_name name) rq_type m).

(** The world with the endpoint of the service [name] laid out as [l]:
    handle, name, [ServiceInfo] without a callback, a reader with an
    empty buffer, no listener installed and the [ServiceInfo] as its
    listener context, its read condition, a writer that has published
    nothing, three empty scratch sequences, the graph-cache entry and
    the two topics. *)
Definition endpoint_built (l : endpoint_layout) (name : string)
    (part : addr) (rq_type rr_type : string) (w : World) : World :=
  {| w_ctxs := w_ctxs w;
     w_services := <[ep_handle l := endpoint_service l]> (w_services w);
     w_strings := <[ep_name l := name]> (w_strings w);
     w_infos :=
       <[ep_info l :=
           endpoint_info l {| callback := None; user_data := None |}]>
         (w_infos w);
     w_topics := hold_topics part name rq_type rr_type (w_topics w);
     w_dds :=
       <[ep_reader l :=
           Ent_DataReader
             (with_listener_context (new_reader (request_topic_name name))
                (Some (ep_info l)))]>
         (<[ep_sizes l := Ent_UnsignedLongSeq []]>
            (<[ep_info_seq l := Ent_SampleInfoSeq []]>
               (<[ep_data_seq l := Ent_DataSeq []]>
                  (<[ep_writer l :=
                       Ent_DataWriter (response_topic_name name) []]>
                     (<[ep_condition l := Ent_ReadCondition (ep_reader l)]>
                        (w_dds w))))));
     w_graph := {[ep_info l]} ∪ w_graph w |}.

(** Nothing of the layout [l] is allocated in [w]. *)
Definition layout_fresh (w : World) (l : endpoint_layout) : Prop :=
  w_services w !! ep_handle l = None /\
  w_strings w !! ep_name l = None /\
  w_infos w !! ep_info l = None /\
  w_dds w !! ep_reader l = None /\
  w_dds w !! ep_condition l = None /\
  w_dds w !! ep_writer l = None /\
  w_dds w !! ep_data_seq l = None /\
  w_dds w !! ep_info_seq l = None /\
  w_dds w !! ep_sizes l = None.

(** Every topic of the table has at least the reference of the call that
    created it. *)
Definition topics_referenced (w : World) : Prop :=
  forall k t, w_topics w !! k = Some t -> (1 <= topic_refs t)%nat.

(** The graph cache holds live endpoints only. *)
Definition graph_live (w : World) : Prop :=
  forall a, a ∈ w_graph w -> is_Some (w_infos w !! a).

(** A creation has what it needs to go through: a node of this
    implementation whose context is live, a service name that is not
    empty, a type support of one of the two introspection kinds, whose
    type names and metastrings are not empty. *)
Definition creatable (type_support_data : addr -> service_type_support)
    (w : World) (n : rmw_node_t) (tss : rosidl_service_type_support_t)
    (name : string) (ts : addr) (cx : rmw_context_impl_t) : Prop :=
  id_matches (node_implementation_identifier n) = true /\
  is_empty name = false /\
  match introspection_c tss with
  | Some t => Some t
  | None => introspection_cpp tss
  end = Some ts /\
  w_ctxs w !! node_context n = Some cx /\
  is_empty (fst (create_service_type_name (type_support_data ts))) = false /\
  is_empty (snd (create_service_type_name (type_support_data ts))) = false /\
  is_empty (fst (create_service_metastring (type_support_data ts))) = false /\
  is_empty (snd (create_service_metastring (type_support_data ts))) = false.

(** The three scratch sequences of a creation that went to [fail:] after
    they had been made. *)
Definition sequences_left (p1 p2 p3 : addr) (w : World) : World :=
  set_dds (fun m =>
    <[p3 := Ent_UnsignedLongSeq []]>
      (<[p2 := Ent_SampleInfoSeq []]> (<[p1 := Ent_DataSeq []]> m))) w.

(** The steps of [rmw_create_service] that come after the scratch
    sequences and can still fail. *)
Definition late_fault (f : fault_point) : bool :=
  match f with
  | F_rmw_service_allocate | F_rmw_allocate_name | F_on_service_created =>
      true
  | _ => false
  end.

(** ** Calls on one endpoint *)

(** The calls that a user of the endpoint laid out as [l] makes between
    its creation and its teardown: takes, sends and callback
    registrations on its handle (or on a null one), with any arguments
    and under any oracle, and the deliveries of the transport to its
    request reader. *)
Definition on_handle (l : endpoint_layout) (service : option addr) : bool :=
  match service with
  | None => true
  | Some h => bool_decide (h = ep_handle l)
  end.

Definition endpoint_op (l : endpoint_layout) (op : Op) : bool :=
  match op with
  | OpTake _ service _ _ _ => on_handle l service
  | OpSend _ service _ _ => on_handle l service
  | OpSetCallback _ service _ _ => on_handle l service
  | OpDeliver reader _ => bool_decide (reader = ep_reader l)
  | _ => false
  end.

(** A reader and a writer QoS with the same policies, the lifespan of the
    writer apart. *)
Definition same_policies (rq : dds_DataReaderQos) (wq : dds_DataWriterQos)
    : Prop :=
  rq_reliability rq = wq_reliability wq /\
  rq_durability rq = wq_durability wq /\
  rq_deadline rq = wq_deadline wq /\
  rq_liveliness rq = wq_liveliness wq /\
  rq_history rq = wq_history wq.

(** The profile of the caller after the assignments of the
    response-publisher getter from the writer QoS [dq] (every policy
    converted, the depth cast to [size_t]), and after those of the
    request-subscription getter from the reader QoS [dq], which has none
    for [lifespan].  What the getters do not assign is as it was in the
    caller's profile [q]. *)
Definition profile_from_writer (convert_reliability convert_durability : Z -> Z)
    (convert_deadline convert_lifespan : dds_Time_t -> rmw_time_t)
    (convert_liveliness : dds_LivelinessQosPolicy -> Z)
    (convert_liveliness_lease_duration :
       dds_LivelinessQosPolicy -> rmw_time_t)
    (convert_history : dds_HistoryQosPolicy -> Z)
    (dq : dds_DataWriterQos) (q : rmw_qos_policies) : rmw_qos_policies :=
  {| history := convert_history (wq_history dq);
     depth := history_depth (wq_history dq) mod 2 ^ 64;
     reliability := convert_reliability (wq_reliability dq);
     durability := convert_durability (wq_durability dq);
     deadline := convert_deadline (wq_deadline dq);
     lifespan := convert_lifespan (wq_lifespan dq);
     liveliness := convert_liveliness (wq_liveliness dq);
     liveliness_lease_duration :=
       convert_liveliness_lease_duration (wq_liveliness dq);
     qos_naming := qos_naming q |}.

Definition profile_from_reader (convert_reliability convert_durability : Z -> Z)
    (convert_deadline : dds_Time_t -> rmw_time_t)
    (convert_liveliness : dds_LivelinessQosPolicy -> Z)
    (convert_liveliness_lease_duration :
       dds_LivelinessQosPolicy -> rmw_time_t)
    (convert_history : dds_HistoryQosPolicy -> Z)
    (dq : dds_DataReaderQos) (q : rmw_qos_policies) : rmw_qos_policies :=
  {| history := convert_history (rq_history dq);
     depth := history_depth (rq_history dq) mod 2 ^ 64;
     reliability := convert_reliability (rq_reliability dq);
     durability := convert_durability (rq_durability dq);
     deadline := convert_deadline (rq_deadline dq);
     lifespan := lifespan q;
     liveliness := convert_liveliness (rq_liveliness dq);
     liveliness_lease_duration :=
       convert_liveliness_lease_duration (rq_liveliness dq);
     qos_naming := qos_naming q |}.

(** ** Concrete cases on the basic endpoint *)

Module Cases.

Import Fixture.

(** The layout of the endpoint that the creation under the basic mapping
    builds in [w_init]. *)
Definition the_layout : endpoint_layout :=
  {| ep_handle := the_handle; ep_name := 1%positive;
     ep_info := the_endpoint; ep_typesupport := 1%positive;
     ep_ctx := basic_ctx; ep_reader := the_reader;
     ep_condition := 4%positive; ep_writer := the_writer;
     ep_data_seq := 6%positive; ep_info_seq := 7%positive;
     ep_sizes := 8%positive |}.

(** A valid sample too short to hold the 24 bytes of the basic envelope:
    the toy deserialiser turns it down. *)
Definition short_sample : Sample :=
  {| sample_data := Some [Byte.x01]; sample_size := 1;
     sample_info :=
       {| valid_data := true;
          source_timestamp := {| sec := 1; nanosec := 5 |};
          reception_timestamp := {| sec := 1; nanosec := 7 |};
          src_guid := zero_guid; seq := 0 |} |}.

Definition w_short : World := enqueue the_reader short_sample w_basic.

Definition reader_short : dds_DataReader :=
  with_samples reader_state [short_sample] 0.

Definition reader_request : dds_DataReader :=
  with_samples reader_state [request_sample] 0.

(** The handle of the basic endpoint, relabelled as the handle of another
    rmw implementation. *)
Definition foreign_service : rmw_service_t :=
  {| implementation_identifier := "rmw_fastrtps_cpp";
     data := Some the_endpoint; service_name := Some 1%positive |}.

Definition w_foreign : World :=
  set_services (<[the_handle := foreign_service]>) w_basic.

(** Calls on the handle of the basic endpoint, some of them refused by
    the transport or the allocator, and deliveries to its reader. *)
Definition endpoint_calls : list Op :=
  [OpTake no_fault (Some the_handle) (Some empty_header) (Some []) (Some false);
   OpDeliver the_reader short_sample;
   OpDeliver the_reader request_sample;
   OpSetCallback no_fault (Some the_handle) (Some 9%positive) None;
   OpTake (fault_at F_raw_take) (Some the_handle) (Some empty_header)
     (Some []) (Some false);
   OpTake no_fault (Some the_handle) None (Some []) (Some false);
   OpTake no_fault (Some the_handle) (Some empty_header) (Some []) (Some false);
   OpSend (fault_at F_raw_write) (Some the_handle)
     (Some {| writer_guid := zero_guid; sequence_number := 42 |})
     (Some request_body);
   OpSend no_fault (Some the_handle)
     (Some {| writer_guid := zero_guid; sequence_number := 42 |})
     (Some request_body);
   OpDeliver the_reader lifecycle_sample;
   OpSetCallback (fault_at F_set_listener) None None None;
   OpTake no_fault (Some the_handle) (Some empty_header) (Some []) (Some false)].

(** A QoS that the transport reports for both the writer and the reader
    of the endpoint, with a history depth of 10, and conversions that
    keep the DDS values. *)
Definition toy_history : dds_HistoryQosPolicy :=
  {| history_kind := 0; history_depth := 10 |}.

Definition toy_liveliness : dds_LivelinessQosPolicy :=
  {| liveliness_kind := 0; lease_duration := {| sec := 3; nanosec := 0 |} |}.

Definition toy_writer_qos : dds_DataWriterQos :=
  {| wq_reliability := 1; wq_durability := 0;
     wq_deadline := {| sec := 2; nanosec := 0 |};
     wq_lifespan := {| sec := 4; nanosec := 0 |};
     wq_liveliness := toy_liveliness; wq_history := toy_history |}.

Definition toy_reader_qos : dds_DataReaderQos :=
  {| rq_reliability := 1; rq_durability := 0;
     rq_deadline := {| sec := 2; nanosec := 0 |};
     rq_liveliness := toy_liveliness; rq_history := toy_history |}.

Definition rmw_time_of (t : dds_Time_t) : rmw_time_t :=
  {| rmw_sec := sec t; rmw_nsec := nanosec t |}.

Definition caller_profile : rmw_qos_policies :=
  {| history := 0; depth := 0; reliability := 0; durability := 0;
     deadline := {| rmw_sec := 0; rmw_nsec := 0 |};
     lifespan := {| rmw_sec := 9; rmw_nsec := 9 |};
     liveliness := 0;
     liveliness_lease_duration := {| rmw_sec := 0; rmw_nsec := 0 |};
     qos_naming := qos |}.

Definition lease_of (l : dds_LivelinessQosPolicy) : rmw_time_t :=
  rmw_time_of (lease_duration l).

Definition writer_qos_of (_ : addr) : option dds_DataWriterQos :=
  Some toy_writer_qos.

Definition reader_qos_of (_ : addr) : option dds_DataReaderQos :=
  Some toy_reader_qos.

Definition writer_finalize (_ : dds_DataWriterQos) : dds_ReturnCode_t :=
  dds_RETCODE_OK.

Definition reader_finalize (_ : dds_DataReaderQos) : dds_ReturnCode_t :=
  dds_RETCODE_OK.

Definition publisher_qos :=
  rmw_service_response_publisher_get_actual_qos id id rmw_time_of rmw_time_of
    liveliness_kind lease_of history_kind writer_qos_of writer_finalize.

Definition subscription_qos :=
  rmw_service_request_subscription_get_actual_qos id id rmw_time_of
    liveliness_kind lease_of history_kind reader_qos_of reader_finalize.

(** A transport that reads the QoS of the writer and then fails to
    finalise it. *)
Definition writer_finalize_fails (_ : dds_DataWriterQos) : dds_ReturnCode_t :=
  dds_RETCODE_ERROR.

Definition publisher_qos_unfinalised :=
  rmw_service_response_publisher_get_actual_qos id id rmw_time_of rmw_time_of
    liveliness_kind lease_of history_kind writer_qos_of
    writer_finalize_fails.

End Cases.

(** * A weakest-precondition calculus for [M] *)

Lemma gwp_bind {A B} t (m : M A) (k : A -> M B) w Q :
  gwp t m w (fun x w1 e1 =>
    gwp t (k x) w1 (fun y w2 e2 => Q y w2 (e1 ++ e2))) ->
  gwp t (bind m k) w Q.
Proof.
  unfold gwp, bind. destruct (m w) as [[[x w1] e1]|]; [|done].
  by destruct (k x w1) as [[[y w2] e2]|].
Qed.

Lemma gwp_ret {A} t (x : A) w (Q : A -> World -> list Event -> Prop) :
  Q x w [] -> gwp t (ret x) w Q.
Proof. done. Qed.

Lemma gwp_emit t ev w (Q : unit -> World -> list Event -> Prop) :
  Q tt w [ev] -> gwp t (emit ev) w Q.
Proof. done. Qed.

Lemma gwp_get_world t w (Q : World -> World -> list Event -> Prop) :
  Q w w [] -> gwp t get_world w Q.
Proof. done. Qed.

Lemma gwp_modify t f w (Q : unit -> World -> list Event -> Prop) :
  Q tt (f w) [] -> gwp t (modify f) w Q.
Proof. done. Qed.

Lemma gwp_undefined {A} t w (Q : A -> World -> list Event -> Prop) :
  stuck t -> gwp t undefined w Q.
Proof. done. Qed.

Lemma gwp_of_option {A} t (o : option A) w
    (Q : A -> World -> list Event -> Prop) :
  match o with Some x => Q x w [] | None => stuck t end ->
  gwp t (of_option o) w Q.
Proof. by destruct o. Qed.

Lemma gwp_alloc_entity t e w (Q : positive -> World -> list Event -> Prop) :
  (forall p, w_dds w !! p = None -> Q p (set_dds (<[p := e]>) w) []) ->
  gwp t (alloc_entity e) w Q.
Proof.
  intros H. unfold alloc_entity.
  apply gwp_bind, gwp_get_world, gwp_bind, gwp_modify, gwp_ret.
  apply H, not_elem_of_dom, is_fresh.
Qed.

Lemma gwp_mono {A} t (m : M A) w (Q Q' : A -> World -> list Event -> Prop) :
  gwp t m w Q -> (forall x w' e, Q x w' e -> Q' x w' e) -> gwp t m w Q'.
Proof. unfold gwp. destruct (m w) as [[[x w'] e]|]; auto. Qed.

Lemma gwp_elim {A} (m : M A) w Q x w' e :
  gwp false m w Q -> m w = Some (x, w', e) -> Q x w' e.
Proof. unfold gwp. intros H E. by rewrite E in H. Qed.

Lemma gwp_total {A} (m : M A) w Q :
  gwp true m w Q -> exists x w' e, m w = Some (x, w', e) /\ Q x w' e.
Proof. unfold gwp. destruct (m w) as [[[x w'] e]|]; [eauto|done]. Qed.

Lemma enqueue_reader rd r s w :
  w_dds w !! rd = Some (Ent_DataReader r) ->
  enqueue rd s w =
  set_dds (<[rd := Ent_DataReader
               (with_samples r (rd_samples r ++ [s]) (rd_loans r))]>) w.
Proof. intros H. unfold enqueue. by rewrite H. Qed.

(** Projections of updated worlds. *)
Ltac wp_world :=
  cbn [w_ctxs w_services w_strings w_infos w_topics w_dds w_graph
       set_services set_strings set_infos set_topics set_dds set_graph].

Ltac wp_world_in H :=
  cbn [w_ctxs w_services w_strings w_infos w_topics w_dds w_graph
       set_services set_strings set_infos set_topics set_dds set_graph] in H.

(** [p <> q] from what is known of the lookups at [p] and [q]. *)
Ltac ne_solve :=
  first [ assumption
        | apply not_eq_sym; assumption
        | let E := fresh in intros E; subst; congruence ].

Ltac map_simpl :=
  repeat first
    [ rewrite lookup_insert_eq
    | rewrite lookup_delete_eq
    | rewrite lookup_insert_ne by ne_solve
    | rewrite lookup_delete_ne by ne_solve ].

(** A lookup through insertions and deletions is brought back to the map
    underneath, by cases on the addresses. *)
Ltac lookup_norm H :=
  repeat first
    [ apply lookup_insert_Some in H as [[? ?] | [? H]]; simplify_eq
    | let N := fresh "Hne" in apply lookup_insert_None in H as [H N]
    | let N := fresh "Hne" in apply lookup_delete_Some in H as [N H] ].

(** A freshness fact is kept as a lookup in the initial map together with
    the inequalities to the addresses allocated since. *)
Ltac fresh_norm H :=
  wp_world_in H;
  repeat (let N := fresh "Hne" in apply lookup_insert_None in H as [H N]).

Ltac wp_unfold :=
  lazymatch goal with
  | |- gwp _ (when _ _) _ _ => unfold when
  | |- gwp _ (with_lock _ _) _ _ => unfold with_lock
  | |- gwp _ (load_ctx _) _ _ => unfold load_ctx
  | |- gwp _ (load_service _) _ _ => unfold load_service
  | |- gwp _ (store_service _ _) _ _ => unfold store_service
  | |- gwp _ (load_info _) _ _ => unfold load_info
  | |- gwp _ (store_info _ _) _ _ => unfold store_info
  | |- gwp _ (store_callback _ _ _ _) _ _ => unfold store_callback
  | |- gwp _ (rmw_service_free _) _ _ => unfold rmw_service_free
  | |- gwp _ (rmw_free _) _ _ => unfold rmw_free
  | |- gwp _ (store_string _ _) _ _ => unfold store_string
  | |- gwp _ (delete_ServiceInfo _) _ _ => unfold delete_ServiceInfo
  | |- gwp _ (load_entity _) _ _ => unfold load_entity
  | |- gwp _ (free_entity _) _ _ => unfold free_entity
  | |- gwp _ (load_reader _) _ _ => unfold load_reader
  | |- gwp _ (store_reader _ _) _ _ => unfold store_reader
  | |- gwp _ (dds_DataSeq_create _) _ _ => unfold dds_DataSeq_create
  | |- gwp _ (dds_SampleInfoSeq_create _) _ _ =>
      unfold dds_SampleInfoSeq_create
  | |- gwp _ (dds_UnsignedLongSeq_create _) _ _ =>
      unfold dds_UnsignedLongSeq_create
  | |- gwp _ (dds_DataSeq_delete _) _ _ => unfold dds_DataSeq_delete
  | |- gwp _ (dds_SampleInfoSeq_delete _) _ _ =>
      unfold dds_SampleInfoSeq_delete
  | |- gwp _ (dds_UnsignedLongSeq_delete _) _ _ =>
      unfold dds_UnsignedLongSeq_delete
  | |- gwp _ (dds_DataSeq_get _ _) _ _ => unfold dds_DataSeq_get
  | |- gwp _ (dds_SampleInfoSeq_get _ _) _ _ => unfold dds_SampleInfoSeq_get
  | |- gwp _ (dds_UnsignedLongSeq_get _ _) _ _ =>
      unfold dds_UnsignedLongSeq_get
  | |- gwp _ (dds_DataReader_raw_take _ _ _ _ _ _) _ _ =>
      unfold dds_DataReader_raw_take
  | |- gwp _ (dds_DataReader_raw_return_loan _ _ _ _) _ _ =>
      unfold dds_DataReader_raw_return_loan
  | |- gwp _ (dds_DataWriter_raw_write _ _ _ _ _ _) _ _ =>
      unfold dds_DataWriter_raw_write
  | |- gwp _ (dds_DataReader_get_status_changes _) _ _ =>
      unfold dds_DataReader_get_status_changes
  | |- gwp _ (dds_DataReader_set_listener _ _ _) _ _ =>
      unfold dds_DataReader_set_listener
  | |- gwp _ (dds_DataReader_set_listener_context _ _) _ _ =>
      unfold dds_DataReader_set_listener_context
  | |- gwp _ (dds_DataReader_get_listener_context _) _ _ =>
      unfold dds_DataReader_get_listener_context
  | |- gwp _ (count_unread _) _ _ => unfold count_unread
  | |- gwp _ (on_service_created _ _) _ _ => unfold on_service_created
  | |- gwp _ (on_service_deleted _ _) _ _ => unfold on_service_deleted
  | |- gwp _ (dds_delete _ _ _) _ _ => unfold dds_delete
  | |- gwp _ (dds_Publisher_delete_datawriter _ _) _ _ =>
      unfold dds_Publisher_delete_datawriter
  | |- gwp _ (dds_Subscriber_delete_datareader _ _) _ _ =>
      unfold dds_Subscriber_delete_datareader
  | |- gwp _ (dds_DataReader_delete_readcondition _ _ _) _ _ =>
      unfold dds_DataReader_delete_readcondition
  | |- gwp _ (take_cleanup _ _ _ _) _ _ => unfold take_cleanup
  | |- gwp _ (on_data_available _) _ _ => unfold on_data_available
  end.

(** A branch whose condition contradicts the hypotheses is closed. *)
Ltac close_branch E :=
  exfalso;
  repeat match goal with
         | H : ?l = _ |- _ =>
             lazymatch H with
             | E => fail
             | _ => lazymatch type of E with
                    | context [l] => rewrite H in E
                    end
             end
         end;
  cbn in E; discriminate E.

(** One step of symbolic execution: the head of the program is run, a
    lookup is resolved from the hypotheses when they settle it, and a
    branch on anything else is split. *)
Ltac wp_step :=
  lazymatch goal with
  | |- gwp _ (bind _ _) _ _ => apply gwp_bind
  | |- gwp _ (ret _) _ _ => apply gwp_ret; cbn beta
  | |- gwp _ (emit _) _ _ => apply gwp_emit; cbn beta
  | |- gwp _ get_world _ _ => apply gwp_get_world; cbn beta
  | |- gwp _ (modify (enqueue _ _)) _ _ =>
      apply gwp_modify; cbn beta;
      try (erewrite enqueue_reader by (wp_world; map_simpl; eassumption))
  | |- gwp _ (modify _) _ _ => apply gwp_modify; cbn beta
  | |- gwp _ undefined _ _ => apply gwp_undefined
  | |- gwp _ (of_option _) _ _ => apply gwp_of_option; wp_world; map_simpl
  | |- gwp _ (alloc_entity _) _ _ =>
      let p := fresh "p" in
      let Hp := fresh "Hfresh" in
      apply gwp_alloc_entity; intros p Hp; fresh_norm Hp; cbn beta
  | |- gwp _ (if ?b then _ else _) _ _ =>
      first [ match goal with H : b = _ |- _ => rewrite H end
            | change b with true; cbv iota
            | change b with false; cbv iota
            | let E := fresh "Hb" in
              destruct b eqn:E; try (solve [close_branch E]) ]
  | |- gwp _ (match ?x with _ => _ end) _ _ =>
      first [ match goal with H : x = _ |- _ => rewrite H end;
              lazy beta iota
            | destruct x eqn:? ]
  | |- match ?o with Some _ => _ | None => _ end =>
      first [ match goal with H : o = _ |- _ => rewrite H end
            | lazymatch o with
              | ?l !! _ =>
                  lazymatch type of l with
                  | list _ =>
                      let v := eval cbn in o in
                      progress (change o with v); lazy beta iota
                  end
              end
            | let E := fresh "Hlook" in destruct o eqn:E; lookup_norm E ]
  | |- stuck false => reflexivity
  | |- gwp _ _ _ _ => wp_unfold
  end.

Ltac wp_run := repeat wp_step.

Ltac bool_hyps :=
  repeat match goal with
  | H : negb _ = true |- _ => apply negb_true_iff in H
  | H : negb _ = false |- _ => apply negb_false_iff in H
  | H : bool_decide _ = true |- _ => apply bool_decide_eq_true in H
  | H : bool_decide _ = false |- _ => apply bool_decide_eq_false in H
  end.

(** A lookup through an insertion at an address not yet compared with the
    one looked up is split on whether the two are the same. *)
Ltac split_lookup :=
  match goal with
  | |- context [ <[?p := _]> _ !! ?q ] =>
      lazymatch goal with
      | _ : p <> q |- _ => fail
      | _ : q <> p |- _ => fail
      | _ => destruct (decide (p = q)) as [->|]
      end
  end.

Ltac readers_leaf :=
  intros ? ? ?; wp_world;
  repeat first [ progress map_simpl | split_lookup ];
  try (eexists; split; [first [eassumption | reflexivity] |];
       simplify_eq; cbn; repeat split; try lia; done).

Ltac take_leaf :=
  cbn [fst snd out_taken app];
  first
    [ left; split; [reflexivity|];
      first
        [ right; split; reflexivity
        | left; unfold take_rejected, untouched; cbn [fst snd];
          split; [reflexivity|];
          first [ left; split; [reflexivity|]; naive_solver
                | right; split; [reflexivity|]; eexists _, _;
                  split; [reflexivity|]; split; eassumption ] ]
    | right; eexists _, _, _, _, _, _, _, _;
      split; [reflexivity|];
      do 6 (split; [eassumption|]);
      split;
      [ match goal with
        | H : service_mapping_basic _ = _ |- _ => rewrite H
        end; reflexivity
      | first [ left; reflexivity | right; split; reflexivity ] ] ].

(** * Arithmetic of the split sequence number *)

Lemma wrap_int64_small z : Int.in_int64 z -> Int.wrap_int64 z = z.
Proof.
  unfold Int.in_int64, Int.wrap_int64. intros H.
  rewrite Z.mod_small by lia. lia.
Qed.

Lemma lor_high_low hi lo :
  0 <= lo < 2 ^ 32 -> Z.lor (hi * 2 ^ 32) lo = hi * 2 ^ 32 + lo.
Proof.
  intros Hlo.
  assert (Z.land (hi * 2 ^ 32) lo = 0) as Hdisj.
  { apply Z.bits_inj'. intros n Hn. rewrite Z.land_spec, Z.bits_0.
    destruct (Z.lt_ge_cases n 32).
    - by rewrite Z.mul_pow2_bits_low by lia.
    - rewrite <- (Z.mod_small lo (2 ^ 32)) by lia.
      rewrite Z.mod_pow2_bits_high by lia. apply andb_false_r. }
  by rewrite <- Z.lxor_lor, <- Z.add_nocarry_lxor.
Qed.

Lemma split_as_sum hi lo :
  Int.in_int32 hi -> Int.in_uint32 lo ->
  Int.sequence_number_of_split hi lo = hi * 2 ^ 32 + lo.
Proof.
  unfold Int.in_int32, Int.in_uint32, Int.sequence_number_of_split.
  intros Hhi Hlo. rewrite Z.shiftl_mul_pow2 by lia.
  rewrite wrap_int64_small by (unfold Int.in_int64; lia).
  by apply lor_high_low.
Qed.

Lemma sn_high_div sn : sn_high sn = sn / 2 ^ 32.
Proof. unfold sn_high. by rewrite Z.shiftr_div_pow2. Qed.

Lemma sn_low_mod sn : sn_low sn = sn mod 2 ^ 32.
Proof.
  unfold sn_low. change (2 ^ 32 - 1) with (Z.ones 32).
  by rewrite Z.land_ones.
Qed.

Lemma sn_halves_in_range sn :
  Int.in_int64 sn -> Int.in_int32 (sn_high sn) /\ Int.in_uint32 (sn_low sn).
Proof.
  unfold Int.in_int64, Int.in_int32, Int.in_uint32.
  rewrite sn_high_div, sn_low_mod. intros H. split.
  - split.
    + apply Z.div_le_lower_bound; lia.
    + apply Z.div_lt_upper_bound; lia.
  - apply Z.mod_pos_bound. lia.
Qed.

Lemma split_recombine sn :
  Int.in_int64 sn -> Int.sequence_number_of_split (sn_high sn) (sn_low sn) = sn.
Proof.
  intros H. destruct (sn_halves_in_range sn H) as [Hhi Hlo].
  rewrite split_as_sum by done. rewrite sn_high_div, sn_low_mod.
  pose proof (Z.div_mod sn (2 ^ 32)). lia.
Qed.

Lemma split_unique hi lo :
  Int.in_int32 hi -> Int.in_uint32 lo ->
  sn_high (Int.sequence_number_of_split hi lo) = hi /\
  sn_low (Int.sequence_number_of_split hi lo) = lo.
Proof.
  intros Hhi Hlo. rewrite split_as_sum by done.
  rewrite sn_high_div, sn_low_mod. unfold Int.in_uint32 in Hlo. split.
  - rewrite Z.add_comm, Z.div_add by lia. rewrite Z.div_small by lia. lia.
  - rewrite Z.add_comm, Z.mod_add by lia. by apply Z.mod_small.
Qed.

Lemma memcpy_whole (dst src : list Byte.byte) n :
  length src = n -> length dst = n -> memcpy dst src n = src.
Proof.
  intros Hs Hd. unfold memcpy.
  rewrite take_ge by lia. rewrite drop_ge by lia. apply app_nil_r.
Qed.


Ltac send_leaf :=
  first
    [ left; reflexivity
    | right; eexists _, _, _, _, _, _, _, _, _;
      split; [reflexivity|];
      do 6 (split; [eassumption|]);
      match goal with
      | H : service_mapping_basic _ = _ |- _ => rewrite H
      end; reflexivity ].

(** * The status mask *)

Lemma mask_enabled m :
  Z.land (Z.lor m dds_DATA_AVAILABLE_STATUS) dds_DATA_AVAILABLE_STATUS
  = dds_DATA_AVAILABLE_STATUS.
Proof.
  apply Z.bits_inj'. intros n Hn. rewrite Z.land_spec, Z.lor_spec.
  destruct (Z.testbit m n), (Z.testbit dds_DATA_AVAILABLE_STATUS n); done.
Qed.

Lemma mask_disabled m :
  Z.land (Z.land m (Int.not_uint32 dds_DATA_AVAILABLE_STATUS))
         dds_DATA_AVAILABLE_STATUS = 0.
Proof.
  apply Z.bits_inj'. intros n Hn.
  rewrite !Z.land_spec, Z.bits_0. unfold Int.not_uint32.
  rewrite Z.lxor_spec.
  change dds_DATA_AVAILABLE_STATUS with (2 ^ 10).
  rewrite Z.pow2_bits_eqb by lia.
  destruct (Z.eqb_spec 10 n) as [<-|]; [|by rewrite andb_false_r].
  change (Z.testbit (2 ^ 32 - 1) 10) with true. by rewrite andb_false_r.
Qed.

Lemma discard_inv {A} (m : M A) w w' evs :
  (m ;; ret tt) w = Some (tt, w', evs) -> exists x, m w = Some (x, w', evs).
Proof.
  unfold bind, ret. destruct (m w) as [[[x w1] e1]|]; [|done].
  intros [= -> <-]. rewrite app_nil_r. eauto.
Qed.

(** * Frames of creation and teardown *)

Ltac destroy_leaf :=
  split; [reflexivity|];
  split;
  [ let H := fresh in intros ? ? H; wp_world_in H; lookup_norm H; exact H
  | first [ discriminate
          | let E := fresh in
            intros _ ? E; simplify_eq; wp_world; map_simpl; reflexivity ] ].

Lemma world_eta w : set_topics id w = w.
Proof. by destruct w. Qed.

Lemma gwp_new_ServiceInfo t (o : oracle) w (Q : option addr -> World -> list Event -> Prop) :
  (if o F_new_ServiceInfo then Q None w []
   else forall (a : addr) (v : ServiceInfo), w_infos w !! a = None ->
          v = {| service_typesupport := None; response_writer := None;
                 request_reader := None; read_condition := None;
                 data_seq := None; info_seq := None; raw_data_sizes := None;
                 ctx := None;
                 event_callback_data :=
                   {| callback := None; user_data := None |} |} ->
          Q (Some a) (set_infos (<[a := v]>) w) []) ->
  gwp t (new_ServiceInfo o) w Q.
Proof.
  intros H. unfold new_ServiceInfo. destruct (o F_new_ServiceInfo).
  - by apply gwp_ret.
  - apply gwp_bind, gwp_get_world, gwp_bind, gwp_modify, gwp_ret.
    apply H; [|done]. apply not_elem_of_dom, is_fresh.
Qed.

Ltac create_unfold :=
  lazymatch goal with
  | |- gwp _ (dds_TypeSupport_create _ _ _) _ _ => unfold dds_TypeSupport_create
  | |- gwp _ (dds_TypeSupport_register_type _ _ _ _) _ _ =>
      unfold dds_TypeSupport_register_type
  | |- gwp _ (dds_TypeSupport_delete _) _ _ => unfold dds_TypeSupport_delete
  | |- gwp _ (dds_DomainParticipant_create_topic _ _ _ _ _) _ _ =>
      unfold dds_DomainParticipant_create_topic
  | |- gwp _ (dds_DomainParticipant_find_topic _ _ _ _) _ _ =>
      unfold dds_DomainParticipant_find_topic
  | |- gwp _ (dds_DomainParticipant_delete_topic _ _ _) _ _ =>
      unfold dds_DomainParticipant_delete_topic
  | |- gwp _ (dds_Subscriber_create_datareader _ _) _ _ =>
      unfold dds_Subscriber_create_datareader
  | |- gwp _ (dds_DataReader_create_readcondition _ _) _ _ =>
      unfold dds_DataReader_create_readcondition
  | |- gwp _ (dds_Publisher_create_datawriter _ _) _ _ =>
      unfold dds_Publisher_create_datawriter
  | |- gwp _ (rmw_service_allocate _) _ _ => unfold rmw_service_allocate
  | |- gwp _ (rmw_allocate _) _ _ => unfold rmw_allocate
  | |- gwp _ (new_ServiceInfo _) _ _ =>
      apply gwp_new_ServiceInfo;
      let E := fresh "Hb" in
      destruct (_ F_new_ServiceInfo) eqn:E;
      [| let a := fresh "a" in
         let v := fresh "v" in
         let Ha := fresh "Hnew" in
         let Hv := fresh "Hv" in
         intros a v Ha Hv; wp_world_in Ha ]
  end.

Lemma obtain_topic_spec o f1 f2 f3 f4 part name type_name w :
  gwp false (obtain_topic o f1 f2 f3 f4 part name type_name) w
    (fun _ w' e => e = [] /\ exists f, w' = set_topics f w).
Proof.
  unfold obtain_topic. repeat first [wp_step | create_unfold].
  all: split; [done|].
  all: first [ by exists id; rewrite world_eta | by eexists ].
Qed.

Lemma gwp_obtain_topic o f1 f2 f3 f4 part name type_name w
    (Q : bool * option string -> World -> list Event -> Prop) :
  (forall x f, Q x (set_topics f w) []) ->
  gwp false (obtain_topic o f1 f2 f3 f4 part name type_name) w Q.
Proof.
  intros H. eapply gwp_mono; [apply obtain_topic_spec|].
  intros x w' e [-> [f ->]]. apply H.
Qed.

Lemma gwp_after_frames {A B} (m : M A) (k : A -> M B) w
    (Q : B -> World -> Prop) :
  frames m ->
  (forall x w', w_ctxs w' = w_ctxs w -> w_infos w' = w_infos w ->
     gwp false (k x) w' (fun y w2 _ => Q y w2)) ->
  gwp false (bind m k) w (fun y w2 _ => Q y w2).
Proof.
  intros Hm Hk. apply gwp_bind. eapply gwp_mono; [apply Hm|].
  intros x w' e [Hc Hi]. cbn beta. by apply Hk.
Qed.

Ltac frames_block :=
  intros ?; repeat first [wp_step | create_unfold]; by split.

Lemma create_fail_spec o part rts pts rt pt rd cond wr si h w :
  gwp false (create_fail o part rts pts rt pt rd cond wr si h) w
    (fun res w' _ =>
       res = None /\ w_ctxs w' = w_ctxs w /\
       w_infos w' = match si with
                    | Some a => delete a (w_infos w)
                    | None => w_infos w
                    end).
Proof.
  unfold create_fail.
  do 7 (apply gwp_after_frames; [frames_block|];
        let Hc := fresh "Hc" in
        let Hi := fresh "Hi" in
        intros ? ? Hc Hi; rewrite <- Hc, <- Hi; clear Hc Hi).
  wp_run. all: done.
Qed.

Lemma gwp_create_fail o part rts pts rt pt rd cond wr si h w
    (Q : option addr -> World -> list Event -> Prop) :
  (forall w' e,
     w_ctxs w' = w_ctxs w ->
     w_infos w' = match si with
                  | Some a => delete a (w_infos w)
                  | None => w_infos w
                  end ->
     Q None w' e) ->
  gwp false (create_fail o part rts pts rt pt rd cond wr si h) w Q.
Proof.
  intros H. eapply gwp_mono; [apply create_fail_spec|].
  intros x w' e (-> & ? & ?). by apply H.
Qed.

Ltac create_step :=
  first
    [ apply gwp_create_fail;
      let Hc := fresh "Hctxs" in
      let Hi := fresh "Hinfos" in
      intros ? ? Hc Hi
    | apply gwp_obtain_topic; intros ? ?; cbn beta
    | wp_step
    | create_unfold ].

Ltac create_leaf :=
  split;
  [ first [ reflexivity
          | match goal with H : w_ctxs _ = _ |- _ => rewrite H end;
            reflexivity ]
  | let H := fresh in
    intros ? ? H;
    try match goal with Hi : w_infos _ = _ |- _ => rewrite Hi end;
    wp_world;
    repeat first [ progress map_simpl | split_lookup; [congruence|] ];
    first [ exact H | congruence ] ].

(** * Equality of worlds *)

Lemma world_ext (a b : World) :
  w_ctxs a = w_ctxs b -> w_services a = w_services b ->
  w_strings a = w_strings b -> w_infos a = w_infos b ->
  w_topics a = w_topics b -> w_dds a = w_dds b -> w_graph a = w_graph b ->
  a = b.
Proof. destruct a, b; cbn; congruence. Qed.

(** Two readers, or two topics, that agree field by field. *)
Ltac reader_eq :=
  match goal with
  | H : w_dds _ !! ?k = Some (Ent_DataReader ?r) |- _ = w_dds _ !! ?k =>
      rewrite H; destruct r
  | |- _ => idtac
  end;
  unfold with_samples, with_listener, with_listener_context;
  cbn [rd_topic rd_samples rd_loans rd_status_changes rd_listener_installed
       rd_listener_mask rd_listener_context length];
  repeat f_equal; lia.

Ltac topic_eq :=
  match goal with
  | H : w_topics _ !! ?k = Some ?t |- _ = w_topics _ !! ?k =>
      rewrite H; destruct t; cbn [topic_type_name topic_refs] in *;
      repeat f_equal; lia
  end.

(** The key looked up is compared with the keys inserted and deleted,
    one after the other. *)
Ltac split_key :=
  match goal with
  | |- context [ <[?p := _]> _ !! ?q ] =>
      lazymatch goal with
      | _ : p <> q |- _ => fail
      | _ : q <> p |- _ => fail
      | _ => destruct (decide (p = q)) as [<-|]
      end
  | |- context [ delete ?p _ !! ?q ] =>
      lazymatch goal with
      | _ : p <> q |- _ => fail
      | _ : q <> p |- _ => fail
      | _ => destruct (decide (p = q)) as [<-|]
      end
  end.

Ltac map_eq_solve :=
  apply map_eq; intros ?;
  repeat first [progress map_simpl | split_key];
  first [ reflexivity | assumption | by symmetry | topic_eq | reader_eq
        | congruence ].

(** The addresses that the allocator hands out for a handle and for a
    name buffer are kept as addresses that were free. *)
Ltac fresh_heap :=
  repeat match goal with
         | |- context [ fresh (dom (w_services ?w)) ] =>
             let h := fresh "h" in
             let H := fresh "Hfree" in
             assert (w_services w !! fresh (dom (w_services w)) = None) as H
               by apply not_elem_of_dom, is_fresh;
             set (h := fresh (dom (w_services w))) in *; clearbody h
         | |- context [ fresh (dom (w_strings ?w)) ] =>
             let h := fresh "p" in
             let H := fresh "Hfree" in
             assert (w_strings w !! fresh (dom (w_strings w)) = None) as H
               by apply not_elem_of_dom, is_fresh;
             set (h := fresh (dom (w_strings w))) in *; clearbody h
         end.

(** Two worlds built from the same one by insertions and deletions are
    compared field by field, and the maps key by key. *)
Ltac world_eq :=
  fresh_heap; apply world_ext; wp_world; try reflexivity; map_eq_solve.

(** The facts of [endpoint_at], with the layout taken apart. *)
Ltac endpoint_facts H :=
  let cb := fresh "cb" in
  let r := fresh "r" in
  let Hctx := fresh "Hlistener" in
  destruct H as (Hsvc & [? Hname] & [cb Hinfo] & [? Hcx] & (r & Hreader & Hctx)
                 & Hcond & (? & ? & Hwriter) & [? Hdseq] & [? Hiseq]
                 & [? Hsseq]);
  unfold endpoint_service, endpoint_info in *;
  cbn [ep_handle ep_name ep_info ep_typesupport ep_ctx ep_reader ep_condition
       ep_writer ep_data_seq ep_info_seq ep_sizes] in *.

(** Projections of records that are known are computed before the next
    step of symbolic execution looks at them. *)
Ltac proj_simpl :=
  progress cbn [implementation_identifier data service_name
                service_typesupport response_writer request_reader
                read_condition data_seq info_seq raw_data_sizes ctx
                event_callback_data callback user_data
                with_callback with_data
                rd_topic rd_samples rd_loans rd_status_changes
                rd_listener_installed rd_listener_mask rd_listener_context
                with_samples with_listener with_listener_context
                fst snd negb andb].

Ltac wp_go := repeat first [proj_simpl | wp_step].

(** * Creation step by step *)

Lemma topic_keys_differ (part : addr) name :
  (part, request_topic_name name) <> (part, response_topic_name name).
Proof.
  unfold request_topic_name, response_topic_name, create_topic_name.
  cbn. intros [=].
Qed.

(** Symbolic execution of [rmw_create_service]: the lookup of a topic is
    brought back to the table the call started from, and the two blocks
    of the source that the model shares are opened up. *)
Ltac create_go_step :=
  first
    [ proj_simpl
    | lazymatch goal with
      | |- gwp _ (match w_topics _ !! _ with _ => _ end) _ _ =>
          progress (wp_world; map_simpl)
      end
    | lazymatch goal with
      | |- gwp _ (new_ServiceInfo _) _ _ =>
          apply gwp_new_ServiceInfo;
          match goal with H : _ F_new_ServiceInfo = _ |- _ => rewrite H end;
          let a := fresh "a" in
          let v := fresh "v" in
          let Ha := fresh "Hnew" in
          let Hv := fresh "Hv" in
          intros a v Ha Hv; wp_world_in Ha
      end
    | wp_step | create_unfold
    | progress unfold obtain_topic
    | progress unfold create_fail ].

Ltac create_go := repeat create_go_step.

(** The oracle is told not to fail at the point [f]. *)
Ltac oracle_at Ho f :=
  let H := fresh "Ho" in pose proof (Ho f) as H.

Ltac oracle_all Ho :=
  oracle_at Ho F_validate_full_topic_name;
  oracle_at Ho F_topic_name_invalid;
  oracle_at Ho F_request_typesupport_create;
  oracle_at Ho F_request_register_type;
  oracle_at Ho F_response_typesupport_create;
  oracle_at Ho F_response_register_type;
  oracle_at Ho F_request_default_topic_qos;
  oracle_at Ho F_request_create_topic;
  oracle_at Ho F_request_topic_qos_finalize;
  oracle_at Ho F_request_find_topic;
  oracle_at Ho F_response_default_topic_qos;
  oracle_at Ho F_response_create_topic;
  oracle_at Ho F_response_topic_qos_finalize;
  oracle_at Ho F_response_find_topic;
  oracle_at Ho F_get_datareader_qos;
  oracle_at Ho F_create_datareader;
  oracle_at Ho F_datareader_qos_finalize;
  oracle_at Ho F_create_readcondition;
  oracle_at Ho F_get_datawriter_qos;
  oracle_at Ho F_create_datawriter;
  oracle_at Ho F_datawriter_qos_finalize;
  oracle_at Ho F_new_ServiceInfo;
  oracle_at Ho F_DataSeq_create;
  oracle_at Ho F_SampleInfoSeq_create;
  oracle_at Ho F_UnsignedLongSeq_create;
  oracle_at Ho F_rmw_service_allocate;
  oracle_at Ho F_rmw_allocate_name;
  oracle_at Ho F_on_service_created;
  oracle_at Ho F_delete_datawriter;
  oracle_at Ho F_delete_readcondition;
  oracle_at Ho F_delete_datareader;
  oracle_at Ho F_delete_topic.

Lemma hold_topics_cases part name rq_type rr_type m :
  hold_topics part name rq_type rr_type m =
  let rq := (part, request_topic_name name) in
  let rr := (part, response_topic_name name) in
  <[rr := match m !! rr with
          | None => {| topic_type_name := rr_type; topic_refs := 1 |}
          | Some t => {| topic_type_name := topic_type_name t;
                         topic_refs := S (topic_refs t) |}
          end]>
    (<[rq := match m !! rq with
             | None => {| topic_type_name := rq_type; topic_refs := 1 |}
             | Some t => {| topic_type_name := topic_type_name t;
                            topic_refs := S (topic_refs t) |}
             end]> m).
Proof.
  pose proof (topic_keys_differ part name).
  unfold hold_topics, hold_topic. cbn zeta.
  destruct (m !! (part, request_topic_name name)) eqn:E1;
    rewrite lookup_insert_ne by done;
    by destruct (m !! (part, response_topic_name name)).
Qed.

Lemma endpoint_built_whole l name part rq_type rr_type w :
  is_Some (w_ctxs w !! ep_ctx l) ->
  ep_reader l <> ep_condition l -> ep_reader l <> ep_writer l ->
  ep_reader l <> ep_data_seq l -> ep_reader l <> ep_info_seq l ->
  ep_reader l <> ep_sizes l -> ep_condition l <> ep_writer l ->
  ep_condition l <> ep_data_seq l -> ep_condition l <> ep_info_seq l ->
  ep_condition l <> ep_sizes l -> ep_writer l <> ep_data_seq l ->
  ep_writer l <> ep_info_seq l -> ep_writer l <> ep_sizes l ->
  ep_data_seq l <> ep_info_seq l -> ep_data_seq l <> ep_sizes l ->
  ep_info_seq l <> ep_sizes l ->
  endpoint_at (endpoint_built l name part rq_type rr_type w) l.
Proof.
  intros. unfold endpoint_at, endpoint_built. wp_world.
  map_simpl. repeat split; eauto.
Qed.

(** A topic that was found had a reference of its own, so that giving
    back the one the call took cannot be what removes it. *)
Ltac topic_refs_absurd Hrefs :=
  try match goal with
      | H : (topic_refs (Build_dds_Topic _ (S (topic_refs ?d))) <= 1)%nat,
        H0 : w_topics _ !! _ = Some ?d |- _ =>
          exfalso; apply Hrefs in H0; cbn [topic_refs] in H;
          clear -H H0; lia
      end.

(** The oracle fails at one point only: the hypothesis [Ho] says that it
    does not fail at any other. *)
Ltac oracle_but Ho :=
  let at_ f :=
    (let H := fresh "Ho" in
     pose proof (Ho f ltac:(discriminate)) as H) in
  at_ F_validate_full_topic_name;
  at_ F_topic_name_invalid;
  at_ F_request_typesupport_create;
  at_ F_request_register_type;
  at_ F_response_typesupport_create;
  at_ F_response_register_type;
  at_ F_request_default_topic_qos;
  at_ F_request_create_topic;
  at_ F_request_topic_qos_finalize;
  at_ F_request_find_topic;
  at_ F_response_default_topic_qos;
  at_ F_response_create_topic;
  at_ F_response_topic_qos_finalize;
  at_ F_response_find_topic;
  at_ F_get_datareader_qos;
  at_ F_create_datareader;
  at_ F_datareader_qos_finalize;
  at_ F_create_readcondition;
  at_ F_get_datawriter_qos;
  at_ F_create_datawriter;
  at_ F_datawriter_qos_finalize;
  at_ F_new_ServiceInfo;
  at_ F_DataSeq_create;
  at_ F_SampleInfoSeq_create;
  at_ F_UnsignedLongSeq_create;
  at_ F_rmw_service_allocate;
  at_ F_rmw_allocate_name;
  at_ F_delete_datawriter;
  at_ F_delete_readcondition;
  at_ F_delete_datareader;
  at_ F_delete_topic.

Lemma endpoint_released_built l name part rq_type rr_type w :
  layout_fresh w l -> graph_live w ->
  endpoint_released l (endpoint_built l name part rq_type rr_type w)
  = set_topics (hold_topics part name rq_type rr_type) w.
Proof.
  intros (Hh & Hp & Ha & Hrd & Hc & Hwr & Hd & Hi & Hs) Hgraph.
  unfold endpoint_released, endpoint_built.
  apply world_ext; wp_world; try reflexivity.
  - by apply delete_insert_id.
  - by apply delete_insert_id.
  - by apply delete_insert_id.
  - map_eq_solve.
  - assert (ep_info l ∉ w_graph w) as Hnot.
    { intros Hin. apply Hgraph in Hin as [? Hin]. congruence. }
    apply set_eq. intros x.
    rewrite elem_of_difference, elem_of_union, !elem_of_singleton. split.
    + intros [[Hx|Hx] Hn]; [by destruct Hn | done].
    + intros Hx. split; [by right|]. by intros ->.
Qed.

(** * What keeps an endpoint whole *)

Lemma on_handle_cases l service :
  on_handle l service = true ->
  service = None \/ service = Some (ep_handle l).
Proof.
  destruct service as [h|]; [|by left]. cbn.
  intros ->%bool_decide_eq_true. by right.
Qed.

(** A reader is replaced by one with the same listener context. *)
Lemma endpoint_at_reader l w rd r r' :
  endpoint_at w l ->
  w_dds w !! rd = Some (Ent_DataReader r) ->
  rd_listener_context r' = rd_listener_context r ->
  endpoint_at (set_dds (<[rd := Ent_DataReader r']>) w) l.
Proof.
  intros (Hsvc & Hname & Hinfo & Hcx & (r0 & Hreader & Hctx) & Hcond
          & (? & ? & Hwriter) & [? Hdseq] & [? Hiseq] & [? Hsseq]) Hr Heq.
  unfold endpoint_at. wp_world.
  repeat (split; [done|]).
  split.
  { destruct (decide (rd = ep_reader l)) as [->|].
    - rewrite lookup_insert_eq. eexists. split; [done|]. congruence.
    - rewrite lookup_insert_ne by done. eauto. }
  rewrite !lookup_insert_ne by congruence. eauto 10.
Qed.

(** A writer is replaced by a writer. *)
Lemma endpoint_at_writer l w wr topic written written' :
  endpoint_at w l ->
  w_dds w !! wr = Some (Ent_DataWriter topic written) ->
  endpoint_at (set_dds (<[wr := Ent_DataWriter topic written']>) w) l.
Proof.
  intros (Hsvc & Hname & Hinfo & Hcx & (r0 & Hreader & Hctx) & Hcond
          & (? & ? & Hwriter) & [? Hdseq] & [? Hiseq] & [? Hsseq]) Hw.
  unfold endpoint_at. wp_world.
  repeat (split; [done|]).
  split; [rewrite lookup_insert_ne by congruence; eauto|].
  split; [by rewrite lookup_insert_ne by congruence|].
  split.
  { destruct (decide (wr = ep_writer l)) as [->|].
    - rewrite lookup_insert_eq. eauto.
    - rewrite lookup_insert_ne by done. eauto. }
  rewrite !lookup_insert_ne by congruence. eauto 10.
Qed.

(** The hypotheses that name the endpoint of a handle and its flag are
    brought to the context record that the call has loaded. *)
Ltac endpoint_hyps Hend Hflag :=
  unfold handle_endpoint in Hend; unfold endpoint_flag in Hflag;
  repeat match type of Hend with
         | context [match ?x with _ => _ end] =>
             match goal with H : x = Some _ |- _ => rewrite H in Hend end
         end;
  match goal with
  | H : data ?svc = Some _ |- _ =>
      match type of Hend with
      | data svc = Some _ => rewrite H in Hend; injection Hend as <-
      end
  end;
  repeat match type of Hflag with
         | context [match ?x with _ => _ end] =>
             match goal with H : x = Some _ |- _ => rewrite H in Hflag end
         end;
  injection Hflag as <-;
  match goal with H : service_mapping_basic _ = _ |- _ => rewrite H end.

(** * Properties *)

Section Properties.

Variable type_support_data : addr -> service_type_support.
Variable check_dds_ret_code : dds_ReturnCode_t -> rmw_ret_t.
Variable ros_sn_to_dds_sn : Z -> Z.
Variable dds_sn_to_ros_sn : Z -> Z.
Variable ros_guid_to_dds_guid : bytes -> bytes.
Variable dds_guid_to_ros_guid : bytes -> bytes.

Local Abbreviation take :=
  (rmw_take_request type_support_data dds_sn_to_ros_sn dds_guid_to_ros_guid).
Local Abbreviation send :=
  (rmw_send_response type_support_data ros_sn_to_dds_sn ros_guid_to_dds_guid).
Local Abbreviation set_callback :=
  (rmw_service_set_on_new_request_callback check_dds_ret_code).
Local Abbreviation create := (rmw_create_service type_support_data).
Local Abbreviation exec :=
  (step type_support_data check_dds_ret_code ros_sn_to_dds_sn
     dds_sn_to_ros_sn ros_guid_to_dds_guid dds_guid_to_ros_guid).
Local Abbreviation trace :=
  (run type_support_data check_dds_ret_code ros_sn_to_dds_sn
     dds_sn_to_ros_sn ros_guid_to_dds_guid dds_guid_to_ros_guid).

(** ** Taking a request *)

Lemma take_spec o service hdr req t w :
  gwp false (take o service hdr req t) w (take_post w service hdr req t).
Proof.
  clear check_dds_ret_code ros_sn_to_dds_sn ros_guid_to_dds_guid.
  unfold rmw_take_request. wp_run.
  all: split; [by repeat split|].
  all: split; [readers_leaf|].
  all: bool_hyps; take_leaf.
Qed.

(** C9.  On every return of [rmw_take_request], a raw take from the
    transport has been followed, before the return, by the return of
    the loan to the same reader; and every reader has as many loans
    outstanding after the call as it had before it. *)
Theorem take_returns_loans o service hdr req t w res w' evs :
  take o service hdr req t w = Some (res, w', evs) ->
  (forall pre rd v rc post,
      evs = pre ++ EvRawTake rd v rc :: post ->
      In (EvReturnLoan rd) post) /\
  (forall rd r,
      w_dds w !! rd = Some (Ent_DataReader r) ->
      exists r', w_dds w' !! rd = Some (Ent_DataReader r') /\
                 rd_loans r' = rd_loans r).
Proof.
  intros E. pose proof (gwp_elim _ _ _ _ _ _ (take_spec _ _ _ _ _ _) E)
    as (_ & Hrd & Hev).
  split.
  - intros pre rd v rc post ->.
    destruct Hev as [[Hnil _] | (h & svc & a & si & rd' & c & cx & rc' &
                                 _ & _ & _ & _ & _ & _ & _ & Hevs & _)].
    + by destruct pre.
    + destruct pre as [|e1 [|e2 [|e3 pre]]]; simplify_eq/=. by left.
  - intros rd r Hr. destruct (Hrd rd r Hr) as (r' & ? & ? & _). eauto.
Qed.



Lemma send_spec o service hdr resp w :
  gwp false (send o service hdr resp) w (send_post w service).
Proof.
  clear check_dds_ret_code dds_sn_to_ros_sn dds_guid_to_ros_guid.
  unfold rmw_send_response. wp_run.
  all: split; [by repeat split|].
  all: split; [readers_leaf|].
  all: bool_hyps; cbn [app]; send_leaf.
Qed.

(** C4.  A take on an endpoint whose request reader has nothing
    buffered (the handle and the out-pointers being valid, the scratch
    sequences allocated and the transport in working order) is answered
    by the transport with "no data" and returns [RMW_RET_OK], never an
    error; the caller's request header and request buffer are as they
    were, [taken] is [false], and the loan has been handed back. *)
Theorem take_no_data o h svc a si rd ts c cx r hdr req t w :
  w_services w !! h = Some svc ->
  id_matches (implementation_identifier svc) = true ->
  data svc = Some a ->
  w_infos w !! a = Some si ->
  request_reader si = Some rd ->
  service_typesupport si = Some ts ->
  ctx si = Some c ->
  w_ctxs w !! c = Some cx ->
  w_dds w !! rd = Some (Ent_DataReader r) ->
  rd_samples r = [] ->
  o F_DataSeq_create = false ->
  o F_SampleInfoSeq_create = false ->
  o F_UnsignedLongSeq_create = false ->
  o F_raw_take = false ->
  exists w',
    take o (Some h) (Some hdr) (Some req) (Some t) w
      = Some ((RMW_RET_OK,
               {| out_request_header := Some hdr;
                  out_ros_request := Some req;
                  out_taken := Some false |}),
              w',
              [EvRawTake rd (variant_of_flag (service_mapping_basic cx))
                 dds_RETCODE_NO_DATA;
               EvReturnLoan rd]).
Proof.
  intros.
  cut (gwp true (take o (Some h) (Some hdr) (Some req) (Some t)) w
         (fun res w' evs =>
            res = (RMW_RET_OK,
                   {| out_request_header := Some hdr;
                      out_ros_request := Some req;
                      out_taken := Some false |}) /\
            evs = [EvRawTake rd (variant_of_flag (service_mapping_basic cx))
                     dds_RETCODE_NO_DATA; EvReturnLoan rd])).
  { intros G. apply gwp_total in G as (res & w' & evs & E & -> & ->). eauto. }
  unfold rmw_take_request. wp_run.
  all: done.
Qed.

Lemma send_ok o h svc a si wr ts c cx topic written hdr resp size raw w :
  w_services w !! h = Some svc ->
  id_matches (implementation_identifier svc) = true ->
  data svc = Some a ->
  w_infos w !! a = Some si ->
  response_writer si = Some wr ->
  service_typesupport si = Some ts ->
  ctx si = Some c ->
  w_ctxs w !! c = Some cx ->
  w_dds w !! wr = Some (Ent_DataWriter topic written) ->
  o F_raw_write = false ->
  (if service_mapping_basic cx
   then allocate_response_basic (type_support_data ts) resp = Some size /\
        serialize_response_basic (type_support_data ts) resp size
          (sequence_number hdr) (writer_guid hdr) = Some raw
   else allocate_response_enhanced (type_support_data ts) resp = Some size /\
        serialize_response_enhanced (type_support_data ts) resp size
          = Some raw) ->
  let s := {| written_data := raw; written_size := size;
              written_info :=
                if service_mapping_basic cx then None
                else Some (response_sampleinfo ros_sn_to_dds_sn
                             ros_guid_to_dds_guid hdr) |} in
  send o (Some h) (Some hdr) (Some resp) w =
  Some (RMW_RET_OK,
        set_dds (<[wr := Ent_DataWriter topic (written ++ [s])]>) w,
        [EvRawWrite wr (variant_of_flag (service_mapping_basic cx)) s
           dds_RETCODE_OK]).
Proof.
  intros Hh Hid Hd Ha Hwr Hts Hc Hcx Hw Ho Hcodec s.
  cut (gwp true (send o (Some h) (Some hdr) (Some resp)) w
         (fun res w' evs =>
            res = RMW_RET_OK /\
            w' = set_dds (<[wr := Ent_DataWriter topic (written ++ [s])]>) w /\
            evs = [EvRawWrite wr (variant_of_flag (service_mapping_basic cx))
                     s dds_RETCODE_OK])).
  { intros G. apply gwp_total in G as (res & w' & evs & E & -> & -> & ->).
    done. }
  subst s. unfold rmw_send_response.
  destruct (service_mapping_basic cx) eqn:Hflag;
    destruct Hcodec as [Halloc Hser].
  all: wp_run.
  all: done.
Qed.

Lemma take_ok o h svc a si rd ts c cx r s rest hdr req t raw req' hi lo g w :
  w_services w !! h = Some svc ->
  id_matches (implementation_identifier svc) = true ->
  data svc = Some a ->
  w_infos w !! a = Some si ->
  request_reader si = Some rd ->
  service_typesupport si = Some ts ->
  ctx si = Some c ->
  w_ctxs w !! c = Some cx ->
  w_dds w !! rd = Some (Ent_DataReader r) ->
  rd_samples r = s :: rest ->
  valid_data (sample_info s) = true ->
  sample_data s = Some raw ->
  o F_DataSeq_create = false ->
  o F_SampleInfoSeq_create = false ->
  o F_UnsignedLongSeq_create = false ->
  o F_raw_take = false ->
  (if service_mapping_basic cx
   then deserialize_request_basic (type_support_data ts) raw
          (sample_size s) req = (true, req', (hi, lo, g))
   else deserialize_request_enhanced (type_support_data ts) raw
          (sample_size s) req = (true, req')) ->
  exists w',
    take o (Some h) (Some hdr) (Some req) (Some t) w =
    Some ((RMW_RET_OK,
           {| out_request_header :=
                Some (if service_mapping_basic cx
                      then fill_header (sample_info s)
                             (Int.sequence_number_of_split hi lo) g hdr
                      else fill_header (sample_info s)
                             (dds_sn_to_ros_sn (seq (sample_info s)))
                             (dds_guid_to_ros_guid (src_guid (sample_info s)))
                             hdr);
              out_ros_request := Some req';
              out_taken := Some true |}),
          w',
          [EvRawTake rd (variant_of_flag (service_mapping_basic cx))
             dds_RETCODE_OK;
           EvReturnLoan rd]).
Proof.
  intros Hh Hid Hd Ha Hrd Hts Hc Hcx Hr Hs Hv Hraw Ho1 Ho2 Ho3 Ho4 Hdec.
  cut (gwp true (take o (Some h) (Some hdr) (Some req) (Some t)) w
         (fun res w' evs =>
            res = (RMW_RET_OK,
           {| out_request_header :=
                Some (if service_mapping_basic cx
                      then fill_header (sample_info s)
                             (Int.sequence_number_of_split hi lo) g hdr
                      else fill_header (sample_info s)
                             (dds_sn_to_ros_sn (seq (sample_info s)))
                             (dds_guid_to_ros_guid (src_guid (sample_info s)))
                             hdr);
              out_ros_request := Some req';
              out_taken := Some true |}) /\
            evs = [EvRawTake rd (variant_of_flag (service_mapping_basic cx))
                     dds_RETCODE_OK; EvReturnLoan rd])).
  { intros G. apply gwp_total in G as (res & w' & evs & E & -> & ->). eauto. }
  unfold rmw_take_request.
  destruct (service_mapping_basic cx) eqn:Hflag.
  all: wp_run.
  all: done.
Qed.

(** C5.  For every 16-byte caller identity and every 64-bit sequence
    number, a response sent with them under either mapping and handed
    back to the endpoint's reader is taken with exactly that identity
    and that sequence number and with the body unchanged, provided the
    codec outside this file does its part ([codec_agrees]).  Under the
    basic mapping the halves recombine as
    [((int64_t)high << 32) | low]; 42 is [high = 0], [low = 42]. *)
Theorem correlation_round_trip o_send o_take h svc a si wr rd ts c cx
    topic written r guid sn payload size raw hdr0 req0 t0 sent received w :
  w_services w !! h = Some svc ->
  id_matches (implementation_identifier svc) = true ->
  data svc = Some a ->
  w_infos w !! a = Some si ->
  response_writer si = Some wr ->
  request_reader si = Some rd ->
  service_typesupport si = Some ts ->
  ctx si = Some c ->
  w_ctxs w !! c = Some cx ->
  w_dds w !! wr = Some (Ent_DataWriter topic written) ->
  w_dds w !! rd = Some (Ent_DataReader r) ->
  rd_samples r = [] ->
  o_send F_raw_write = false ->
  o_take F_DataSeq_create = false ->
  o_take F_SampleInfoSeq_create = false ->
  o_take F_UnsignedLongSeq_create = false ->
  o_take F_raw_take = false ->
  length guid = RMW_GID_STORAGE_SIZE ->
  length (writer_guid (request_id hdr0)) = RMW_GID_STORAGE_SIZE ->
  Int.in_int64 sn ->
  codec_agrees (service_mapping_basic cx) (type_support_data ts)
    ros_sn_to_dds_sn dds_sn_to_ros_sn ros_guid_to_dds_guid
    dds_guid_to_ros_guid payload guid sn size raw req0 ->
  let envelope := {| writer_guid := guid; sequence_number := sn |} in
  let v := variant_of_flag (service_mapping_basic cx) in
  Int.sequence_number_of_split (sn_high sn) (sn_low sn) = sn /\
  sn_high 42 = 0 /\ sn_low 42 = 42 /\
  exists s w1,
    send o_send (Some h) (Some envelope) (Some payload) w
      = Some (RMW_RET_OK, w1, [EvRawWrite wr v s dds_RETCODE_OK]) /\
    exists hdr w2,
      take o_take (Some h) (Some hdr0) (Some req0) (Some t0)
        (enqueue rd (loop_back s sent received) w1)
        = Some ((RMW_RET_OK,
                 {| out_request_header := Some hdr;
                    out_ros_request := Some payload;
                    out_taken := Some true |}),
                w2, [EvRawTake rd v dds_RETCODE_OK; EvReturnLoan rd]) /\
      request_id hdr = envelope.
Proof.
  intros Hh Hid Hd Ha Hwr Hrd Hts Hc Hcx Hw Hr Hs Hos Ho1 Ho2 Ho3 Ho4
    Hg Hg0 Hsn Hcodec envelope v.
  split; [by apply split_recombine|]. do 2 (split; [done|]).
  assert (wr <> rd) as Hne by congruence.
  eexists _, _. split.
  { eapply (send_ok o_send h svc a si wr ts c cx topic written envelope
              payload size raw); try done.
    unfold codec_agrees in Hcodec.
    destruct (service_mapping_basic cx);
      [destruct Hcodec as (? & ? & _) | destruct Hcodec as (? & ? & _)];
      by split. }
  set (s := {| written_data := raw |}).
  set (w1 := set_dds _ w).
  assert (w_dds w1 !! rd = Some (Ent_DataReader r)) as Hr1.
  { subst w1. wp_world. by rewrite lookup_insert_ne. }
  rewrite (enqueue_reader _ _ _ _ Hr1).
  set (w2 := set_dds _ w1).
  edestruct (take_ok o_take h svc a si rd ts c cx
               (with_samples r (rd_samples r ++ [loop_back s sent received])
                  (rd_loans r))
               (loop_back s sent received) [] hdr0 req0 t0 raw payload
               (sn_high sn) (sn_low sn) guid w2) as (w3 & E); try done.
  { subst w2. wp_world. by rewrite lookup_insert_eq. }
  { cbn. by rewrite Hs. }
  { unfold codec_agrees in Hcodec. cbn.
    destruct (service_mapping_basic cx);
      [by destruct Hcodec as (_ & _ & ?)
      | by destruct Hcodec as (_ & _ & ? & _)]. }
  eexists _, w3. split; [exact E|].
  unfold codec_agrees in Hcodec. subst s envelope.
  destruct (service_mapping_basic cx);
    cbn [loop_back sample_info src_guid seq written_info
         response_sampleinfo request_id fill_header writer_guid
         sequence_number].
  - rewrite memcpy_whole by done. by rewrite split_recombine.
  - destruct Hcodec as (_ & _ & _ & -> & ->). by rewrite memcpy_whole.
Qed.

(** ** The notification gate *)

(** C6.  A call that supplies a callback on an endpoint whose request
    reader holds [K > 0] unread samples does four things between taking
    and releasing the lock of the gate, in this order: it invokes that
    callback, exactly once and with the count [K]; it assigns the callback
    and the user data to the slot of the [ServiceInfo]; and it sets the
    listener with the data-available bit in its mask.  Afterwards the
    slot holds the callback and the user data. *)
Theorem set_callback_reports_unread o h svc a si rd r fn ud w :
  w_services w !! h = Some svc ->
  id_matches (implementation_identifier svc) = true ->
  data svc = Some a ->
  w_infos w !! a = Some si ->
  request_reader si = Some rd ->
  w_dds w !! rd = Some (Ent_DataReader r) ->
  (0 < length (rd_samples r))%nat ->
  let K := length (rd_samples r) in
  let mask := Z.lor (rd_status_changes r) dds_DATA_AVAILABLE_STATUS in
  let gate := event_callback_mutex a in
  exists w',
    set_callback o (Some h) (Some fn) ud w
      = Some (check_dds_ret_code (listener_rc o), w',
              [EvLock gate; EvCallback fn ud K;
               EvStoreCallback a (Some fn) ud;
               EvSetListener rd mask (listener_rc o); EvUnlock gate]) /\
    w_infos w' !! a = Some (with_callback si (Some fn) ud) /\
    Z.land mask dds_DATA_AVAILABLE_STATUS = dds_DATA_AVAILABLE_STATUS /\
    (o F_set_listener = false ->
     w_dds w' !! rd = Some (Ent_DataReader (with_listener r mask))).
Proof.
  intros Hh Hid Hd Ha Hrd Hr HK K mask gate.
  cut (gwp true (set_callback o (Some h) (Some fn) ud) w
         (fun res w' evs =>
            res = check_dds_ret_code (listener_rc o) /\
            evs = [EvLock gate; EvCallback fn ud K;
                   EvStoreCallback a (Some fn) ud;
                   EvSetListener rd mask (listener_rc o); EvUnlock gate] /\
            w_infos w' !! a = Some (with_callback si (Some fn) ud) /\
            (o F_set_listener = false ->
             w_dds w' !! rd = Some (Ent_DataReader (with_listener r mask))))).
  { intros G. apply gwp_total in G as (res & w' & evs & E & -> & -> & ? & ?).
    exists w'. split; [done|]. split; [done|]. split; [apply mask_enabled|done]. }
  unfold rmw_service_set_on_new_request_callback, listener_rc.
  assert (bool_decide (0 < length (rd_samples r))%nat = true) as HKb
    by by apply bool_decide_eq_true.
  wp_run.
  all: wp_world; map_simpl; done.
Qed.

Lemma deliver_closed a rd s w :
  gate_closed a rd w ->
  gwp false (deliver rd s) w (fun _ w' evs =>
    gate_closed a rd w' /\ Forall (fun e => is_callback e = false) evs).
Proof.
  intros [(si & Ha & Hcb) (r & Hr & Hctx)].
  assert (gate_closed a rd (enqueue rd s w)) as Hclosed.
  { rewrite (enqueue_reader _ _ _ _ Hr). split; wp_world.
    - eauto.
    - rewrite lookup_insert_eq. eauto. }
  rewrite (enqueue_reader _ _ _ _ Hr) in Hclosed.
  unfold deliver. wp_run.
  all: try (cbn in Hlook; simplify_eq; congruence).
  all: split; [done|]; cbn [app]; by repeat constructor.
Qed.

Lemma run_closed_quiet a rd ops w :
  gate_closed a rd w ->
  forallb (quiet_op rd) ops = true ->
  forall rec e, In rec (trace ops w) -> In e (rec_events rec) ->
    is_callback e = false.
Proof.
  revert w. induction ops as [|op ops IH]; intros w Hclosed Hops rec e;
    [intros []|].
  cbn in Hops. apply andb_true_iff in Hops as [Hop Hops].
  cbn [run].
  destruct (exec op w) as [[[[] w'] evs]|] eqn:E; [|intros []].
  assert (gate_closed a rd w' /\ Forall (fun e => is_callback e = false) evs)
    as [Hclosed' Hquiet].
  { destruct op; try discriminate Hop; cbn [step] in E.
    - apply discard_inv in E as [x E].
      pose proof (gwp_elim _ _ _ _ _ _ (take_spec _ _ _ _ _ _) E)
        as (Hheap & Hreaders & Hev).
      split.
      + destruct Hclosed as [(si & Ha & Hcb) (r & Hr & Hctx)].
        destruct Hheap as (_ & _ & _ & Hinfos & _).
        destruct (Hreaders _ _ Hr) as (r' & Hr' & _ & _ & _ & Hctx').
        split; [rewrite Hinfos; eauto|]. exists r'. split; [done|congruence].
      + destruct Hev as [[-> _] | (? & ? & ? & ? & ? & ? & ? & ? & Hev)];
          [constructor|].
        destruct Hev as (_ & _ & _ & _ & _ & _ & _ & -> & _).
        by repeat constructor.
    - apply discard_inv in E as [x E].
      pose proof (gwp_elim _ _ _ _ _ _ (send_spec _ _ _ _ _) E)
        as (Hheap & Hreaders & Hev).
      split.
      + destruct Hclosed as [(si & Ha & Hcb) (r & Hr & Hctx)].
        destruct Hheap as (_ & _ & _ & Hinfos & _).
        destruct (Hreaders _ _ Hr) as (r' & Hr' & _ & _ & _ & Hctx').
        split; [rewrite Hinfos; eauto|]. exists r'. split; [done|congruence].
      + destruct Hev as [-> | (? & ? & ? & ? & ? & ? & ? & ? & ? & Hev)];
          [constructor|].
        destruct Hev as (_ & _ & _ & _ & _ & _ & _ & ->).
        by repeat constructor.
    - apply bool_decide_eq_true in Hop as ->.
      exact (gwp_elim _ _ _ _ _ _ (deliver_closed a rd s w Hclosed) E). }
  intros [<- | Hin] He.
  - cbn in He. by eapply Forall_forall in Hquiet; [|apply list_elem_of_In].
  - by eapply IH.
Qed.

(** C7.  A call without a callback clears the stored callback and user
    data and sets the listener with the data-available bit out of its
    mask; from then on, whatever number of samples is delivered to the
    endpoint's reader (with takes and sends in between), no callback is
    invoked. *)
Theorem clear_callback_silences o h svc a si rd r ud w :
  w_services w !! h = Some svc ->
  id_matches (implementation_identifier svc) = true ->
  data svc = Some a ->
  w_infos w !! a = Some si ->
  request_reader si = Some rd ->
  w_dds w !! rd = Some (Ent_DataReader r) ->
  rd_listener_context r = Some a ->
  let mask :=
    Z.land (rd_status_changes r) (Int.not_uint32 dds_DATA_AVAILABLE_STATUS) in
  let gate := event_callback_mutex a in
  exists w',
    set_callback o (Some h) None ud w
      = Some (check_dds_ret_code (listener_rc o), w',
              [EvLock gate; EvStoreCallback a None None;
               EvSetListener rd mask (listener_rc o); EvUnlock gate]) /\
    w_infos w' !! a = Some (with_callback si None None) /\
    Z.land mask dds_DATA_AVAILABLE_STATUS = 0 /\
    (o F_set_listener = false ->
     w_dds w' !! rd = Some (Ent_DataReader (with_listener r mask))) /\
    (forall ops rec e,
       forallb (quiet_op rd) ops = true ->
       In rec (trace ops w') -> In e (rec_events rec) ->
       is_callback e = false).
Proof.
  intros Hh Hid Hd Ha Hrd Hr Hctx mask gate.
  cut (gwp true (set_callback o (Some h) None ud) w
         (fun res w' evs =>
            res = check_dds_ret_code (listener_rc o) /\
            evs = [EvLock gate; EvStoreCallback a None None;
                   EvSetListener rd mask (listener_rc o); EvUnlock gate] /\
            w_infos w' !! a = Some (with_callback si None None) /\
            (o F_set_listener = false ->
             w_dds w' !! rd = Some (Ent_DataReader (with_listener r mask))) /\
            gate_closed a rd w')).
  { intros G.
    apply gwp_total in G as (res & w' & evs & E & -> & -> & ? & ? & Hclosed).
    exists w'. split; [done|]. split; [done|].
    split; [apply mask_disabled|]. split; [done|].
    intros ops rec e Hops. by apply (run_closed_quiet a rd). }
  unfold rmw_service_set_on_new_request_callback, listener_rc, gate_closed.
  wp_run.
  all: wp_world; map_simpl.
  all: repeat split; try done; eauto.
Qed.

(** ** Teardown, creation and the wire mapping *)

Lemma destroy_spec o node service w :
  gwp false (rmw_destroy_service o node service) w (destroy_post w service).
Proof.
  unfold rmw_destroy_service. wp_run.
  all: destroy_leaf.
Qed.

(** C3, as amended.  On an endpoint whose data pointer is null,
    [rmw_destroy_service] tears nothing down: under the endpoint lock of
    the node's context it deletes no DDS entity, no [ServiceInfo], no
    graph-cache entry and no topic, and it writes to no context.  It frees
    the buffer of the service name (when the handle has one) and the
    handle itself, and returns [RMW_RET_OK]: the world afterwards is the
    one before without that buffer and without the handle.  The handle
    being freed, a second call on it is a use after free, whose behaviour
    is undefined. *)
Theorem destroy_null_data o n h svc cx w :
  id_matches (node_implementation_identifier n) = true ->
  w_services w !! h = Some svc ->
  id_matches (implementation_identifier svc) = true ->
  data svc = None ->
  w_ctxs w !! node_context n = Some cx ->
  (forall p, service_name svc = Some p -> is_Some (w_strings w !! p)) ->
  let lock := endpoint_mutex (node_context n) in
  exists w',
    rmw_destroy_service o (Some n) (Some h) w
      = Some (RMW_RET_OK, w', [EvLock lock; EvUnlock lock]) /\
    w_dds w' = w_dds w /\ w_infos w' = w_infos w /\
    w_graph w' = w_graph w /\ w_topics w' = w_topics w /\
    w_ctxs w' = w_ctxs w /\
    w_services w' = delete h (w_services w) /\
    w_strings w' = match service_name svc with
                   | Some p => delete p (w_strings w)
                   | None => w_strings w
                   end /\
    (forall p, service_name svc = Some p -> w_strings w' !! p = None) /\
    (forall o' n',
       id_matches (node_implementation_identifier n') = true ->
       rmw_destroy_service o' (Some n') (Some h) w' = None).
Proof.
  intros Hn Hh Hid Hd Hcx Hname lock.
  cut (gwp true (rmw_destroy_service o (Some n) (Some h)) w
         (fun res w' evs =>
            res = RMW_RET_OK /\ evs = [EvLock lock; EvUnlock lock] /\
            w_dds w' = w_dds w /\ w_infos w' = w_infos w /\
            w_graph w' = w_graph w /\ w_topics w' = w_topics w /\
            w_ctxs w' = w_ctxs w /\
            w_services w' = delete h (w_services w) /\
            w_strings w' = match service_name svc with
                           | Some p => delete p (w_strings w)
                           | None => w_strings w
                           end)).
  { intros G.
    apply gwp_total in G
      as (res & w' & evs & E & -> & -> & ? & ? & ? & ? & ? & Hs & Hstr).
    exists w'. repeat (split; [done|]). split.
    - intros p Hp. rewrite Hstr, Hp. apply lookup_delete_eq.
    - intros o' n' Hn'. unfold rmw_destroy_service, bind, load_service.
      rewrite Hn'. cbn. unfold bind, get_world, of_option. cbn.
      by rewrite Hs, lookup_delete_eq. }
  unfold rmw_destroy_service.
  destruct (service_name svc) as [p|] eqn:Hp.
  - destruct (Hname p eq_refl) as [str Hstr]. wp_run. done.
  - wp_run. done.
Qed.


Lemma create_spec o node tss name qos w :
  gwp false (rmw_create_service type_support_data o node tss name qos) w
    (create_post w).
Proof.
  unfold rmw_create_service. repeat create_step.
  all: create_leaf.
Qed.

Lemma set_callback_spec o service cb ud w :
  gwp false (set_callback o service cb ud) w (set_callback_post w).
Proof.
  unfold rmw_service_set_on_new_request_callback. wp_run.
  all: split; [reflexivity|].
  all: intros a0 si0 Ha0; wp_world.
  all: repeat first [progress map_simpl | split_lookup].
  all: eexists; split; [first [eassumption | reflexivity]|]; by simplify_eq.
Qed.

Lemma deliver_spec rd s w :
  gwp false (deliver rd s) w (fun _ w' _ => heap_kept w w').
Proof. unfold deliver. wp_run. all: by repeat split. Qed.

(** One call leaves every context as it is, and an endpoint that is there
    before and after the call has the mapping flag it had. *)
Lemma step_keeps_flag op w w' evs a b :
  exec op w = Some (tt, w', evs) ->
  endpoint_flag w a = Some b ->
  w_ctxs w' = w_ctxs w /\
  (is_Some (w_infos w' !! a) -> endpoint_flag w' a = Some b).
Proof.
  intros E Hflag. unfold endpoint_flag in *.
  destruct (w_infos w !! a) as [si|] eqn:Ha; [|done].
  destruct op; cbn [step] in E.
  - apply discard_inv in E as [x E].
    eapply gwp_elim in E; [|apply create_spec]. destruct E as [Hc Hi].
    split; [done|]. intros _. by rewrite (Hi _ _ Ha), Hc.
  - apply discard_inv in E as [x E].
    eapply gwp_elim in E; [|apply destroy_spec]. destruct E as (Hc & Hi & _).
    split; [done|]. intros [si' Ha']. rewrite Ha', Hc.
    apply Hi in Ha'. by simplify_eq.
  - apply discard_inv in E as [x E].
    eapply gwp_elim in E; [|apply take_spec].
    destruct E as ((Hc & _ & _ & Hi & _) & _). by rewrite Hi, Hc, Ha.
  - apply discard_inv in E as [x E].
    eapply gwp_elim in E; [|apply send_spec].
    destruct E as ((Hc & _ & _ & Hi & _) & _). by rewrite Hi, Hc, Ha.
  - apply discard_inv in E as [x E].
    eapply gwp_elim in E; [|apply set_callback_spec]. destruct E as [Hc Hi].
    split; [done|]. intros _. destruct (Hi _ _ Ha) as (si' & -> & ->).
    by rewrite Hc.
  - eapply gwp_elim in E; [|apply deliver_spec].
    destruct E as (Hc & _ & _ & Hi & _). by rewrite Hi, Hc, Ha.
Qed.

Lemma take_codec_spec o service hdr req t w :
  gwp false (take o service hdr req t) w
    (fun res _ evs =>
       forall a b, handle_endpoint w service = Some a ->
         endpoint_flag w a = Some b ->
         take_under (variant_of_flag b) type_support_data dds_sn_to_ros_sn
           dds_guid_to_ros_guid w a hdr req res evs).
Proof.
  clear check_dds_ret_code ros_sn_to_dds_sn ros_guid_to_dds_guid.
  unfold rmw_take_request. wp_run.
  all: cbn [app]; intros aa bb Hend Hflag rdd vv Hevs.
  all: try discriminate Hevs.
  all: injection Hevs as <- <- _.
  all: endpoint_hyps Hend Hflag.
  all: split; [reflexivity|].
  all: eexists _, _, _, _, _, _, _.
  all: do 5 (split; [eassumption|]).
  all: split; [reflexivity|]; split; [reflexivity|].
  all: intros raw Hv Hraw; try congruence.
  all: bool_hyps; unfold decode_under, variant_of_flag.
  all: match goal with
       | H : sample_data _ = Some _ |- _ =>
           rewrite H in Hraw; injection Hraw as <-
       end.
  all: match goal with
       | H : deserialize_request_basic _ _ _ _ = _ |- _ => rewrite H
       | H : deserialize_request_enhanced _ _ _ _ = _ |- _ => rewrite H
       end.
  all: by subst.
Qed.

Lemma send_codec_spec o service hdr resp w :
  gwp false (send o service hdr resp) w
    (fun _ _ evs =>
       forall a b, handle_endpoint w service = Some a ->
         endpoint_flag w a = Some b ->
         send_under (variant_of_flag b) type_support_data ros_sn_to_dds_sn
           ros_guid_to_dds_guid w a hdr resp evs).
Proof.
  clear check_dds_ret_code dds_sn_to_ros_sn dds_guid_to_ros_guid.
  unfold rmw_send_response. wp_run.
  all: cbn [app]; intros aa bb Hend Hflag wrr vv ss rcc Hevs.
  all: try discriminate Hevs.
  all: injection Hevs as <- <- <- <-.
  all: endpoint_hyps Hend Hflag.
  all: split; [reflexivity|].
  all: eexists _, _, _, _.
  all: do 3 (split; [eassumption|]).
  all: split; [reflexivity|]; split; [reflexivity|].
  all: unfold encoded_under, variant_of_flag;
    cbn [written_size written_data written_info].
  all: split; [assumption|]; split; [assumption|].
  all: first [reflexivity | eexists; split; [reflexivity|]; by split].
Qed.

(** A take or a send on an endpoint goes through the transport under the
    mapping of the endpoint's flag. *)
Lemma step_uses_flag op w w' evs a b e v :
  exec op w = Some (tt, w', evs) ->
  op_endpoint w op = Some a ->
  endpoint_flag w a = Some b ->
  In e evs -> transport_variant e = Some v ->
  v = variant_of_flag b.
Proof.
  intros E Hop Hflag He Hv. unfold endpoint_flag in Hflag.
  destruct op; try discriminate Hop; cbn [step op_endpoint] in *;
    apply discard_inv in E as [x E]; unfold handle_endpoint in Hop.
  - eapply gwp_elim in E; [|apply take_spec].
    destruct E as (_ & _ & [[-> _] |
      (h & svc & a' & si & rd & c & cx & rc & -> & Hh & Hd & Ha & _ & Hc &
       Hcx & -> & _)]); [done|].
    rewrite Hh, Hd in Hop. simplify_eq. rewrite Ha, Hc, Hcx in Hflag.
    simplify_eq. destruct He as [<- | [<- | []]]; by simplify_eq/=.
  - eapply gwp_elim in E; [|apply send_spec].
    destruct E as (_ & _ & [-> |
      (h & svc & a' & si & wr & c & cx & s & rc & -> & Hh & Hd & Ha & _ & Hc &
       Hcx & ->)]); [done|].
    rewrite Hh, Hd in Hop. simplify_eq. rewrite Ha, Hc, Hcx in Hflag.
    simplify_eq. destruct He as [<- | []]; by simplify_eq/=.
Qed.

(** A take or a send on an endpoint goes through the codec of the
    variant of the endpoint's flag. *)
Lemma step_uses_codec op w w' evs a b :
  exec op w = Some (tt, w', evs) ->
  op_endpoint w op = Some a ->
  endpoint_flag w a = Some b ->
  codec_under (variant_of_flag b) type_support_data ros_sn_to_dds_sn
    dds_sn_to_ros_sn ros_guid_to_dds_guid dds_guid_to_ros_guid a
    {| rec_before := w; rec_op := op; rec_events := evs; rec_after := w' |}.
Proof.
  intros E Hop Hflag.
  destruct op; try discriminate Hop;
    cbn [step op_endpoint codec_under rec_op rec_before rec_after
         rec_events] in *;
    apply discard_inv in E as [x E]; exists x; (split; [exact E|]).
  - exact (gwp_elim _ _ _ _ _ _ (take_codec_spec _ _ _ _ _ _) E _ _
             Hop Hflag).
  - exact (gwp_elim _ _ _ _ _ _ (send_codec_spec _ _ _ _ _) E _ _
             Hop Hflag).
Qed.

(** C8.  Over any sequence of calls (creations, teardowns, takes, sends,
    callback registrations, deliveries, on any endpoints), as long as the
    endpoint at [a] exists: no call writes to a context, and the mapping
    flag the endpoint reads through its context stays the one it was at
    the start; every take and every send on that endpoint goes through
    the transport under the variant of that flag, and through the codec
    of that variant and no other: a take that is handed a sample decodes
    it as [decode_under] of that variant does (the envelope out of the
    payload under the basic variant, out of the sample metadata under the
    enhanced one), and a send publishes the sample that [encoded_under]
    of that variant describes. *)
Theorem wire_variant_never_mixed ops w a b :
  endpoint_flag w a = Some b ->
  (forall rec, In rec (trace ops w) -> is_Some (w_infos (rec_after rec) !! a)) ->
  forall rec, In rec (trace ops w) ->
    w_ctxs (rec_after rec) = w_ctxs w /\
    endpoint_flag (rec_after rec) a = Some b /\
    (op_endpoint (rec_before rec) (rec_op rec) = Some a ->
     forall e v, In e (rec_events rec) -> transport_variant e = Some v ->
       v = variant_of_flag b) /\
    (op_endpoint (rec_before rec) (rec_op rec) = Some a ->
     codec_under (variant_of_flag b) type_support_data ros_sn_to_dds_sn
       dds_sn_to_ros_sn ros_guid_to_dds_guid dds_guid_to_ros_guid a rec).
Proof.
  revert w. induction ops as [|op ops IH]; intros w Hflag Hlive rec;
    [intros []|].
  cbn [run] in *.
  destruct (exec op w) as [[[[] w'] evs]|] eqn:E; [|intros []].
  destruct (step_keeps_flag _ _ _ _ _ _ E Hflag) as [Hc Hkeep].
  assert (endpoint_flag w' a = Some b) as Hflag'.
  { apply Hkeep. by apply (Hlive (Build_step_record w op evs w')); left. }
  intros [<- | Hin]; cbn [rec_after rec_before rec_op rec_events].
  - split; [done|]. split; [done|]. split.
    + intros Hop e v. by eapply step_uses_flag.
    + intros Hop. by eapply step_uses_codec.
  - destruct (IH w' Hflag' (fun r Hr => Hlive r (or_intror Hr)) rec Hin)
      as (Hc' & ? & ? & ?).
    split; [congruence|]. by repeat split.
Qed.

(** ** What a take and a send change *)

Lemma take_world_spec o service hdr req t w :
  gwp false (take o service hdr req t) w
    (fun _ w' evs => take_world w service w' evs).
Proof.
  clear check_dds_ret_code ros_sn_to_dds_sn ros_guid_to_dds_guid.
  unfold rmw_take_request. wp_run.
  all: try (left; reflexivity).
  all: try (left; solve [world_eq]).
  all: right; eexists _, _, _, _, _, _, _, _, _.
  all: split; [reflexivity|].
  all: do 6 (split; [eassumption|]).
  all: split; [reflexivity|].
  all: world_eq.
Qed.

(** X1.  Whatever the arguments and whatever fails, [rmw_take_request]
    either leaves the world exactly as it was (no scratch sequence stays
    allocated, no reader changes), or it has taken one sample from the
    transport, and then the only change is that the request reader of the
    endpoint has lost the oldest sample of its buffer. *)
Theorem take_consumes_oldest o service hdr req t w res w' evs :
  take o service hdr req t w = Some (res, w', evs) ->
  w' = w \/
  exists h svc a si rd r s rest v,
    service = Some h /\ w_services w !! h = Some svc /\ data svc = Some a /\
    w_infos w !! a = Some si /\ request_reader si = Some rd /\
    w_dds w !! rd = Some (Ent_DataReader r) /\ rd_samples r = s :: rest /\
    evs = [EvRawTake rd v dds_RETCODE_OK; EvReturnLoan rd] /\
    w' = set_dds (<[rd := Ent_DataReader (with_samples r rest (rd_loans r))]>) w.
Proof.
  intros E. exact (gwp_elim _ _ _ _ _ _ (take_world_spec _ _ _ _ _ _) E).
Qed.

Lemma send_world_spec o service hdr resp w :
  gwp false (send o service hdr resp) w (send_world w service).
Proof.
  clear check_dds_ret_code dds_sn_to_ros_sn dds_guid_to_ros_guid.
  unfold rmw_send_response. wp_run.
  all: cbn [app]; unfold send_world.
  all: first
    [ left; split; [discriminate|]; split; [reflexivity|];
      first [left; reflexivity | right; eauto]
    | right; split; [reflexivity|];
      eexists _, _, _, _, _, _, _, _, _;
      split; [reflexivity|];
      do 5 (split; [eassumption|]);
      split; reflexivity ].
Qed.

(** X2.  [rmw_send_response] is all or nothing: it returns [RMW_RET_OK]
    exactly when the transport has accepted one sample, and then the only
    change is that sample at the end of what the endpoint's response writer
    has published; on every other return (argument checks, a null writer or
    type support, a failed allocation or serialisation, a refused write) the
    world is exactly as it was. *)
Theorem send_all_or_nothing o service hdr resp w res w' evs :
  send o service hdr resp w = Some (res, w', evs) ->
  (res <> RMW_RET_OK /\ w' = w /\
   (evs = [] \/ exists wr v s, evs = [EvRawWrite wr v s dds_RETCODE_ERROR]))
  \/
  (res = RMW_RET_OK /\
   exists h svc a si wr topic written v s,
     service = Some h /\ w_services w !! h = Some svc /\ data svc = Some a /\
     w_infos w !! a = Some si /\ response_writer si = Some wr /\
     w_dds w !! wr = Some (Ent_DataWriter topic written) /\
     evs = [EvRawWrite wr v s dds_RETCODE_OK] /\
     w' = set_dds (<[wr := Ent_DataWriter topic (written ++ [s])]>) w).
Proof.
  intros E. exact (gwp_elim _ _ _ _ _ _ (send_world_spec _ _ _ _ _) E).
Qed.

(** X4.  A request that cannot be decoded is lost.  When the oldest sample
    of the request reader is valid and carries data, but the deserialiser of
    the endpoint's mapping reports failure, [rmw_take_request] returns
    [RMW_RET_ERROR] with [taken == false] and the request header as it was;
    the request buffer holds whatever the deserialiser left in it, the loan
    is returned, and the sample is gone from the reader's buffer: a later
    take does not see it again. *)
Theorem take_decode_failure_drops_request
    o h svc a si rd ts c cx r s rest hdr req t raw req' parts w :
  w_services w !! h = Some svc ->
  id_matches (implementation_identifier svc) = true ->
  data svc = Some a ->
  w_infos w !! a = Some si ->
  request_reader si = Some rd ->
  service_typesupport si = Some ts ->
  ctx si = Some c ->
  w_ctxs w !! c = Some cx ->
  w_dds w !! rd = Some (Ent_DataReader r) ->
  rd_samples r = s :: rest ->
  valid_data (sample_info s) = true ->
  sample_data s = Some raw ->
  o F_DataSeq_create = false ->
  o F_SampleInfoSeq_create = false ->
  o F_UnsignedLongSeq_create = false ->
  o F_raw_take = false ->
  (if service_mapping_basic cx
   then deserialize_request_basic (type_support_data ts) raw
          (sample_size s) req = (false, req', parts)
   else deserialize_request_enhanced (type_support_data ts) raw
          (sample_size s) req = (false, req')) ->
  take o (Some h) (Some hdr) (Some req) (Some t) w =
  Some ((RMW_RET_ERROR,
         {| out_request_header := Some hdr;
            out_ros_request := Some req';
            out_taken := Some false |}),
        set_dds (<[rd := Ent_DataReader (with_samples r rest (rd_loans r))]>) w,
        [EvRawTake rd (variant_of_flag (service_mapping_basic cx))
           dds_RETCODE_OK;
         EvReturnLoan rd]).
Proof.
  intros Hh Hid Hd Ha Hrd Hts Hc Hcx Hr Hs Hv Hraw Ho1 Ho2 Ho3 Ho4 Hdec.
  cut (gwp true (take o (Some h) (Some hdr) (Some req) (Some t)) w
         (fun res w' evs =>
            res = (RMW_RET_ERROR,
                   {| out_request_header := Some hdr;
                      out_ros_request := Some req';
                      out_taken := Some false |}) /\
            w' = set_dds
                   (<[rd := Ent_DataReader
                              (with_samples r rest (rd_loans r))]>) w /\
            evs = [EvRawTake rd (variant_of_flag (service_mapping_basic cx))
                     dds_RETCODE_OK; EvReturnLoan rd])).
  { intros G. by apply gwp_total in G as (res & w' & evs & E & -> & -> & ->). }
  clear check_dds_ret_code ros_sn_to_dds_sn ros_guid_to_dds_guid.
  unfold rmw_take_request.
  destruct (service_mapping_basic cx) eqn:Hflag;
    [destruct parts as [[hi lo] g]|].
  all: wp_run.
  all: split; [reflexivity|]; split; [|reflexivity].
  all: world_eq.
Qed.

(** ** The arithmetic of the request header *)

(** X6.  With the seconds of a DDS time in the range of [int32_t] and its
    nanoseconds in the range of [uint32_t], the two timestamps that
    [rmw_take_request] writes into the request header are exactly [sec *
    10^9 + nanosec]: the 64-bit arithmetic does not wrap. *)
Theorem fill_header_times_exact info sn guid hdr :
  Int.in_int32 (sec (source_timestamp info)) ->
  Int.in_uint32 (nanosec (source_timestamp info)) ->
  Int.in_int32 (sec (reception_timestamp info)) ->
  Int.in_uint32 (nanosec (reception_timestamp info)) ->
  let hdr' := fill_header info sn guid hdr in
  info_source_timestamp hdr'
    = sec (source_timestamp info) * 1000000000
      + nanosec (source_timestamp info) /\
  info_received_timestamp hdr'
    = sec (reception_timestamp info) * 1000000000
      + nanosec (reception_timestamp info) /\
  Int.in_int64 (info_source_timestamp hdr') /\
  Int.in_int64 (info_received_timestamp hdr').
Proof.
  unfold Int.in_int32, Int.in_uint32. intros Hs1 Hn1 Hs2 Hn2.
  cbn [fill_header info_source_timestamp info_received_timestamp].
  unfold Int.nanoseconds.
  rewrite !(wrap_int64_small (_ * _)) by (unfold Int.in_int64; lia).
  rewrite !wrap_int64_small by (unfold Int.in_int64; lia).
  unfold Int.in_int64. lia.
Qed.

(** X7.  The sequence number that [rmw_take_request] puts together under the
    basic mapping, [((int64_t)sn_high) << 32 | sn_low], is [sn_high * 2^32 +
    sn_low] for every [int32_t] high half (negative ones included) and every
    [uint32_t] low half; it fits [int64_t], and two different pairs of
    halves never give the same sequence number. *)
Theorem split_injective hi lo hi' lo' :
  Int.in_int32 hi -> Int.in_uint32 lo ->
  Int.in_int32 hi' -> Int.in_uint32 lo' ->
  Int.sequence_number_of_split hi lo = hi * 2 ^ 32 + lo /\
  Int.in_int64 (Int.sequence_number_of_split hi lo) /\
  (Int.sequence_number_of_split hi lo = Int.sequence_number_of_split hi' lo' ->
   hi = hi' /\ lo = lo').
Proof.
  intros Hhi Hlo Hhi' Hlo'. rewrite !split_as_sum by done.
  unfold Int.in_int32, Int.in_uint32, Int.in_int64 in *.
  split; [done|]. split; [lia|]. lia.
Qed.

(** X3.  Requests come out in the order they came in.  A take on an
    endpoint whose oldest buffered sample is a valid request that the
    deserialiser accepts returns [RMW_RET_OK] with [taken == true], the
    decoded request and a header filled from that sample: both timestamps in
    nanoseconds, the sequence number (put together from its two halves under
    the basic mapping, converted from the sample info under the enhanced
    one) and the first 16 bytes of the client GUID.  The loan is returned,
    the scratch sequences are gone, and exactly that sample has left the
    buffer of the request reader. *)
Theorem take_delivers_oldest_request
    o h svc a si rd ts c cx r s rest hdr req t raw req' hi lo g w :
  w_services w !! h = Some svc ->
  id_matches (implementation_identifier svc) = true ->
  data svc = Some a ->
  w_infos w !! a = Some si ->
  request_reader si = Some rd ->
  service_typesupport si = Some ts ->
  ctx si = Some c ->
  w_ctxs w !! c = Some cx ->
  w_dds w !! rd = Some (Ent_DataReader r) ->
  rd_samples r = s :: rest ->
  valid_data (sample_info s) = true ->
  sample_data s = Some raw ->
  o F_DataSeq_create = false ->
  o F_SampleInfoSeq_create = false ->
  o F_UnsignedLongSeq_create = false ->
  o F_raw_take = false ->
  (if service_mapping_basic cx
   then deserialize_request_basic (type_support_data ts) raw
          (sample_size s) req = (true, req', (hi, lo, g))
   else deserialize_request_enhanced (type_support_data ts) raw
          (sample_size s) req = (true, req')) ->
  let sn := if service_mapping_basic cx
            then Int.sequence_number_of_split hi lo
            else dds_sn_to_ros_sn (seq (sample_info s)) in
  let guid := if service_mapping_basic cx then g
              else dds_guid_to_ros_guid (src_guid (sample_info s)) in
  take o (Some h) (Some hdr) (Some req) (Some t) w =
  Some ((RMW_RET_OK,
         {| out_request_header :=
              Some {| info_source_timestamp :=
                        Int.nanoseconds (sec (source_timestamp (sample_info s)))
                          (nanosec (source_timestamp (sample_info s)));
                      info_received_timestamp :=
                        Int.nanoseconds
                          (sec (reception_timestamp (sample_info s)))
                          (nanosec (reception_timestamp (sample_info s)));
                      request_id :=
                        {| writer_guid :=
                             memcpy (writer_guid (request_id hdr)) guid
                               RMW_GID_STORAGE_SIZE;
                           sequence_number := sn |} |};
            out_ros_request := Some req';
            out_taken := Some true |}),
        set_dds (<[rd := Ent_DataReader (with_samples r rest (rd_loans r))]>) w,
        [EvRawTake rd (variant_of_flag (service_mapping_basic cx))
           dds_RETCODE_OK;
         EvReturnLoan rd]).
Proof.
  intros Hh Hid Hd Ha Hrd Hts Hc Hcx Hr Hs Hv Hraw Ho1 Ho2 Ho3 Ho4 Hdec sn guid.
  cut (gwp true (take o (Some h) (Some hdr) (Some req) (Some t)) w
         (fun res w' evs =>
            res = (RMW_RET_OK,
                   {| out_request_header :=
                        Some (fill_header (sample_info s) sn guid hdr);
                      out_ros_request := Some req';
                      out_taken := Some true |}) /\
            w' = set_dds
                   (<[rd := Ent_DataReader
                              (with_samples r rest (rd_loans r))]>) w /\
            evs = [EvRawTake rd (variant_of_flag (service_mapping_basic cx))
                     dds_RETCODE_OK; EvReturnLoan rd])).
  { intros G. by apply gwp_total in G as (res & w' & evs & E & -> & -> & ->). }
  clear check_dds_ret_code ros_sn_to_dds_sn ros_guid_to_dds_guid.
  subst sn guid. unfold rmw_take_request.
  destruct (service_mapping_basic cx) eqn:Hflag.
  all: wp_run.
  all: split; [reflexivity|]; split; [|reflexivity].
  all: world_eq.
Qed.

(** X5.  A response goes out once, under the mapping of the context.  A send
    on an endpoint whose response the codec can allocate and serialise,
    the transport accepting the write, returns [RMW_RET_OK] after exactly
    one raw write to the response writer.  Under the basic mapping the
    sequence number and the client GUID of the request id go to the
    serialiser as they are and no sample info is sent; under the enhanced
    mapping the payload is serialised on its own and the sample info sent
    along is all zero but for the converted sequence number and GUID. *)
Theorem send_publishes_one_sample
    o h svc a si wr ts c cx topic written hdr resp size raw w :
  w_services w !! h = Some svc ->
  id_matches (implementation_identifier svc) = true ->
  data svc = Some a ->
  w_infos w !! a = Some si ->
  response_writer si = Some wr ->
  service_typesupport si = Some ts ->
  ctx si = Some c ->
  w_ctxs w !! c = Some cx ->
  w_dds w !! wr = Some (Ent_DataWriter topic written) ->
  o F_raw_write = false ->
  (if service_mapping_basic cx
   then allocate_response_basic (type_support_data ts) resp = Some size /\
        serialize_response_basic (type_support_data ts) resp size
          (sequence_number hdr) (writer_guid hdr) = Some raw
   else allocate_response_enhanced (type_support_data ts) resp = Some size /\
        serialize_response_enhanced (type_support_data ts) resp size
          = Some raw) ->
  let info :=
    if service_mapping_basic cx then None
    else Some {| valid_data := false;
                 source_timestamp := {| sec := 0; nanosec := 0 |};
                 reception_timestamp := {| sec := 0; nanosec := 0 |};
                 src_guid := ros_guid_to_dds_guid (writer_guid hdr);
                 seq := ros_sn_to_dds_sn (sequence_number hdr) |} in
  let s := {| written_data := raw; written_size := size;
              written_info := info |} in
  send o (Some h) (Some hdr) (Some resp) w =
  Some (RMW_RET_OK,
        set_dds (<[wr := Ent_DataWriter topic (written ++ [s])]>) w,
        [EvRawWrite wr (variant_of_flag (service_mapping_basic cx)) s
           dds_RETCODE_OK]).
Proof.
  intros Hh Hid Hd Ha Hwr Hts Hc Hcx Hw Ho Hcodec info s.
  subst s info.
  etrans; [eapply send_ok; eassumption|].
  by destruct (service_mapping_basic cx).
Qed.

(** ** Registration and delivery *)

(** X8.  Registering a callback on an endpoint whose request reader has
    nothing buffered does not invoke it: between taking and releasing the
    lock of the gate, the only call made is the one that sets the listener;
    the callback and the user data are stored all the same. *)
Theorem set_callback_no_unread_is_silent o h svc a si rd r fn ud w :
  w_services w !! h = Some svc ->
  id_matches (implementation_identifier svc) = true ->
  data svc = Some a ->
  w_infos w !! a = Some si ->
  request_reader si = Some rd ->
  w_dds w !! rd = Some (Ent_DataReader r) ->
  rd_samples r = [] ->
  let mask := Z.lor (rd_status_changes r) dds_DATA_AVAILABLE_STATUS in
  let gate := event_callback_mutex a in
  exists w',
    set_callback o (Some h) (Some fn) ud w
      = Some (check_dds_ret_code (listener_rc o), w',
              [EvLock gate; EvStoreCallback a (Some fn) ud;
               EvSetListener rd mask (listener_rc o); EvUnlock gate]) /\
    w_infos w' !! a = Some (with_callback si (Some fn) ud).
Proof.
  intros Hh Hid Hd Ha Hrd Hr Hs mask gate.
  cut (gwp true (set_callback o (Some h) (Some fn) ud) w
         (fun res w' evs =>
            res = check_dds_ret_code (listener_rc o) /\
            evs = [EvLock gate; EvStoreCallback a (Some fn) ud;
                   EvSetListener rd mask (listener_rc o); EvUnlock gate] /\
            w_infos w' !! a = Some (with_callback si (Some fn) ud))).
  { intros G. apply gwp_total in G as (res & w' & evs & E & -> & -> & ?).
    by exists w'. }
  unfold rmw_service_set_on_new_request_callback, listener_rc.
  assert (bool_decide (0 < length (rd_samples r))%nat = false) as HKb.
  { rewrite Hs. apply bool_decide_eq_false. cbn. lia. }
  wp_run.
  all: wp_world; map_simpl; done.
Qed.

Lemma set_callback_registers o h svc a si rd r fn ud w :
  w_services w !! h = Some svc ->
  id_matches (implementation_identifier svc) = true ->
  data svc = Some a ->
  w_infos w !! a = Some si ->
  request_reader si = Some rd ->
  w_dds w !! rd = Some (Ent_DataReader r) ->
  o F_set_listener = false ->
  let mask := Z.lor (rd_status_changes r) dds_DATA_AVAILABLE_STATUS in
  gwp true (set_callback o (Some h) (Some fn) ud) w
    (fun res w' _ =>
       res = check_dds_ret_code dds_RETCODE_OK /\
       w' = set_dds (<[rd := Ent_DataReader (with_listener r mask)]>)
              (set_infos (<[a := with_callback si (Some fn) ud]>) w)).
Proof.
  intros Hh Hid Hd Ha Hrd Hr Ho mask.
  unfold rmw_service_set_on_new_request_callback.
  wp_run.
  all: done.
Qed.

(** X9.  Once a callback is registered (the listener having been set)
    on an endpoint whose reader has the [ServiceInfo] as its listener
    context, a sample that arrives at the request reader makes the
    [on_data_available] handler invoke that callback, with the user data it
    was registered with, exactly once, under the lock of the gate, and with
    the number of samples then buffered: those that were there and the new
    one. *)
Theorem registered_callback_hears_delivery o h svc a si rd r fn ud s w :
  w_services w !! h = Some svc ->
  id_matches (implementation_identifier svc) = true ->
  data svc = Some a ->
  w_infos w !! a = Some si ->
  request_reader si = Some rd ->
  w_dds w !! rd = Some (Ent_DataReader r) ->
  rd_listener_context r = Some a ->
  o F_set_listener = false ->
  let gate := event_callback_mutex a in
  let mask := Z.lor (rd_status_changes r) dds_DATA_AVAILABLE_STATUS in
  exists w1 evs w2,
    set_callback o (Some h) (Some fn) ud w
      = Some (check_dds_ret_code dds_RETCODE_OK, w1, evs) /\
    deliver rd s w1
      = Some (tt, w2,
              [EvLock gate; EvCallback fn ud (S (length (rd_samples r)));
               EvUnlock gate]) /\
    w_dds w2 !! rd
      = Some (Ent_DataReader
                (with_samples (with_listener r mask) (rd_samples r ++ [s])
                   (rd_loans r))).
Proof.
  intros Hh Hid Hd Ha Hrd Hr Hctx Ho gate mask.
  destruct (gwp_total _ _ _
              (set_callback_registers o h svc a si rd r fn ud w
                 Hh Hid Hd Ha Hrd Hr Ho))
    as (res & w1 & evs & E & -> & Hw1).
  exists w1, evs. fold mask in Hw1.
  assert (w_dds w1 !! rd = Some (Ent_DataReader (with_listener r mask)))
    as Hr1 by (subst w1; wp_world; by rewrite lookup_insert_eq).
  assert (w_infos w1 !! a = Some (with_callback si (Some fn) ud))
    as Ha1 by (subst w1; wp_world; by rewrite lookup_insert_eq).
  clear Hw1 Hh Ha Hr.
  cut (gwp true (deliver rd s) w1
         (fun _ w2 evs2 =>
            evs2 = [EvLock gate; EvCallback fn ud (S (length (rd_samples r)));
                    EvUnlock gate] /\
            w_dds w2 !! rd
              = Some (Ent_DataReader
                        (with_samples (with_listener r mask)
                           (rd_samples r ++ [s]) (rd_loans r))))).
  { intros G. apply gwp_total in G as ([] & w2 & evs2 & E2 & -> & ?).
    by exists w2. }
  assert (negb (Z.land mask dds_DATA_AVAILABLE_STATUS =? 0) = true) as Hbit
    by (subst mask; by rewrite mask_enabled).
  unfold deliver.
  wp_go.
  all: wp_world; map_simpl.
  all: split; [|done].
  all: cbn [app]; by rewrite length_app, Nat.add_1_r.
Qed.

(** X10.  A handle that belongs to another rmw implementation is turned
    down by every function that takes one.  In [rmw_take_request],
    [rmw_send_response] and the callback registration the check of the
    handle comes before anything else is looked at (a null header, buffer
    or flag included), and the call returns
    [RMW_RET_INCORRECT_RMW_IMPLEMENTATION].  In [rmw_destroy_service] the
    node is checked first: with a null node the call returns
    [RMW_RET_INVALID_ARGUMENT], and with any other node it returns
    [RMW_RET_INCORRECT_RMW_IMPLEMENTATION], for the node when the node is
    of another implementation and for the handle when it is not.  None of
    these calls takes a lock or makes a call into the transport, and each
    leaves the world and the caller's buffers as they were. *)
Theorem foreign_handle_rejected o h svc hdr req t rid resp cb ud w :
  w_services w !! h = Some svc ->
  id_matches (implementation_identifier svc) = false ->
  take o (Some h) hdr req t w
    = Some ((RMW_RET_INCORRECT_RMW_IMPLEMENTATION, untouched hdr req t),
            w, []) /\
  send o (Some h) rid resp w
    = Some (RMW_RET_INCORRECT_RMW_IMPLEMENTATION, w, []) /\
  set_callback o (Some h) cb ud w
    = Some (RMW_RET_INCORRECT_RMW_IMPLEMENTATION, w, []) /\
  rmw_destroy_service o None (Some h) w
    = Some (RMW_RET_INVALID_ARGUMENT, w, []) /\
  (forall n,
     rmw_destroy_service o (Some n) (Some h) w
       = Some (RMW_RET_INCORRECT_RMW_IMPLEMENTATION, w, [])).
Proof.
  intros Hh Hid.
  unfold rmw_take_request, rmw_send_response,
    rmw_service_set_on_new_request_callback, rmw_destroy_service.
  repeat split;
    [| | |intros n; destruct (id_matches (node_implementation_identifier n));
          cbn [negb]; [|reflexivity]].
  all: unfold bind, load_service, get_world, of_option, ret; cbn.
  all: by rewrite Hh, Hid.
Qed.

(** ** Teardown *)

Lemma destroy_releases o n l w :
  id_matches (node_implementation_identifier n) = true ->
  is_Some (w_ctxs w !! node_context n) ->
  endpoint_at w l ->
  o F_delete_datawriter = false ->
  o F_delete_readcondition = false ->
  o F_delete_datareader = false ->
  o F_on_service_deleted = false ->
  let lock := endpoint_mutex (node_context n) in
  rmw_destroy_service o (Some n) (Some (ep_handle l)) w
  = Some (RMW_RET_OK, endpoint_released l w,
          [EvLock lock;
           EvDelete (ep_writer l) dds_RETCODE_OK;
           EvDelete (ep_condition l) dds_RETCODE_OK;
           EvDelete (ep_reader l) dds_RETCODE_OK;
           EvUnlock lock]).
Proof.
  intros Hn [cx Hnode] Hep Ho1 Ho2 Ho3 Ho4 lock.
  cut (gwp true (rmw_destroy_service o (Some n) (Some (ep_handle l))) w
         (fun res w' evs =>
            res = RMW_RET_OK /\ w' = endpoint_released l w /\
            evs = [EvLock lock;
                   EvDelete (ep_writer l) dds_RETCODE_OK;
                   EvDelete (ep_condition l) dds_RETCODE_OK;
                   EvDelete (ep_reader l) dds_RETCODE_OK;
                   EvUnlock lock])).
  { intros G. by apply gwp_total in G as (res & w' & evs & E & -> & -> & ->). }
  unfold endpoint_released.
  destruct l as [h p a ts c rd cond wr dseq iseq sseq].
  endpoint_facts Hep.
  unfold rmw_destroy_service, is_ok. rewrite Hn. cbn [negb].
  wp_go.
  all: split; [reflexivity|]; split; [|reflexivity].
  all: world_eq.
Qed.

(** X11.  The teardown of a whole endpoint, when the transport and the graph
    cache do their part: the writer, the read condition and the reader are
    deleted in that order under the endpoint lock of the node's context, and
    afterwards the handle, the name, the [ServiceInfo], the six DDS entities
    and the graph-cache entry of the endpoint are gone.  The contexts and
    the topics are as they were: the teardown deletes no topic. *)
Theorem destroy_releases_endpoint o n l w :
  id_matches (node_implementation_identifier n) = true ->
  is_Some (w_ctxs w !! node_context n) ->
  endpoint_at w l ->
  o F_delete_datawriter = false ->
  o F_delete_readcondition = false ->
  o F_delete_datareader = false ->
  o F_on_service_deleted = false ->
  let lock := endpoint_mutex (node_context n) in
  rmw_destroy_service o (Some n) (Some (ep_handle l)) w
  = Some (RMW_RET_OK, endpoint_released l w,
          [EvLock lock;
           EvDelete (ep_writer l) dds_RETCODE_OK;
           EvDelete (ep_condition l) dds_RETCODE_OK;
           EvDelete (ep_reader l) dds_RETCODE_OK;
           EvUnlock lock]).
Proof. apply destroy_releases. Qed.

(** X12.  When the deletion of the response writer is refused, the teardown
    stops at once: it returns [RMW_RET_ERROR] and nothing has been released;
    the world is exactly as it was. *)
Theorem destroy_writer_failure_changes_nothing o n l w :
  id_matches (node_implementation_identifier n) = true ->
  is_Some (w_ctxs w !! node_context n) ->
  endpoint_at w l ->
  o F_delete_datawriter = true ->
  let lock := endpoint_mutex (node_context n) in
  rmw_destroy_service o (Some n) (Some (ep_handle l)) w
  = Some (RMW_RET_ERROR, w,
          [EvLock lock; EvDelete (ep_writer l) dds_RETCODE_ERROR;
           EvUnlock lock]).
Proof.
  intros Hn [cx Hnode] Hep Ho1 lock.
  cut (gwp true (rmw_destroy_service o (Some n) (Some (ep_handle l))) w
         (fun res w' evs =>
            res = RMW_RET_ERROR /\ w' = w /\
            evs = [EvLock lock; EvDelete (ep_writer l) dds_RETCODE_ERROR;
                   EvUnlock lock])).
  { intros G. by apply gwp_total in G as (res & w' & evs & E & -> & -> & ->). }
  destruct l as [h p a ts c rd cond wr dseq iseq sseq].
  endpoint_facts Hep.
  unfold rmw_destroy_service, is_ok. rewrite Hn. cbn [negb].
  wp_go.
  all: done.
Qed.

(** X13.  When the writer has been deleted and the deletion of the read
    condition is refused, the teardown returns [RMW_RET_ERROR] half way: the
    writer and the three scratch sequences are gone, while the handle and
    the [ServiceInfo] are still there and still point to them.  The teardown
    cannot be tried again: a second call on the handle hands the dangling
    writer pointer to the transport, which is undefined. *)
Theorem destroy_partial_failure_is_final o n l w :
  id_matches (node_implementation_identifier n) = true ->
  is_Some (w_ctxs w !! node_context n) ->
  endpoint_at w l ->
  o F_delete_datawriter = false ->
  o F_delete_readcondition = true ->
  let lock := endpoint_mutex (node_context n) in
  let w' := endpoint_half_released l w in
  rmw_destroy_service o (Some n) (Some (ep_handle l)) w
  = Some (RMW_RET_ERROR, w',
          [EvLock lock; EvDelete (ep_writer l) dds_RETCODE_OK;
           EvDelete (ep_condition l) dds_RETCODE_ERROR; EvUnlock lock]) /\
  w_services w' !! ep_handle l = Some (endpoint_service l) /\
  (exists cb, w_infos w' !! ep_info l = Some (endpoint_info l cb)) /\
  w_dds w' !! ep_writer l = None /\
  (forall o' n',
     id_matches (node_implementation_identifier n') = true ->
     is_Some (w_ctxs w !! node_context n') ->
     rmw_destroy_service o' (Some n') (Some (ep_handle l)) w' = None).
Proof.
  intros Hn [cx Hnode] Hep Ho1 Ho2 lock w'.
  assert (w_services w' !! ep_handle l = Some (endpoint_service l)) as Hh'
    by apply Hep.
  assert (exists cb, w_infos w' !! ep_info l = Some (endpoint_info l cb))
    as [cb' Ha'] by apply Hep.
  assert (w_dds w' !! ep_writer l = None) as Hw'.
  { destruct Hep as (_ & _ & _ & _ & _ & _ & (? & ? & Hwr) & [? Hd] & [? Hi]
                     & [? Hs]).
    subst w'. unfold endpoint_half_released. wp_world.
    rewrite !lookup_delete_ne by congruence. apply lookup_delete_eq. }
  split; [|split; [done|]; split; [by exists cb'|]; split; [done|]].
  - cut (gwp true (rmw_destroy_service o (Some n) (Some (ep_handle l))) w
           (fun res w1 evs =>
              res = RMW_RET_ERROR /\ w1 = w' /\
              evs = [EvLock lock; EvDelete (ep_writer l) dds_RETCODE_OK;
                     EvDelete (ep_condition l) dds_RETCODE_ERROR;
                     EvUnlock lock])).
    { intros G.
      by apply gwp_total in G as (res & w1 & evs & E & -> & -> & ->). }
    clear Hh' Ha' Hw'. subst w'. unfold endpoint_half_released.
    destruct l as [h p a ts c rd cond wr dseq iseq sseq].
    endpoint_facts Hep.
    unfold rmw_destroy_service, is_ok. rewrite Hn. cbn [negb].
    wp_go.
    all: split; [reflexivity|]; split; [|reflexivity].
    all: world_eq.
  - intros o' n' Hn' [cx' Hnode'].
    assert (w_ctxs w' !! node_context n' = Some cx') as Hnode'' by done.
    cut (gwp false (rmw_destroy_service o' (Some n') (Some (ep_handle l))) w'
           (fun _ _ _ => False)).
    { unfold gwp.
      by destruct (rmw_destroy_service o' (Some n') (Some (ep_handle l)) w')
        as [[[? ?] ?]|]. }
    unfold endpoint_service, endpoint_info in *.
    unfold rmw_destroy_service, is_ok. rewrite Hn'. cbn [negb].
    wp_go.
Qed.

(** ** Creation *)

Lemma create_builds o n tss name qos ts cx w :
  creatable type_support_data w n tss name ts cx ->
  (forall f, o f = false) ->
  let lock := endpoint_mutex (node_context n) in
  let w' l :=
    endpoint_built l name (participant cx)
      (fst (create_service_type_name (type_support_data ts)))
      (snd (create_service_type_name (type_support_data ts))) w in
  exists l,
    ep_typesupport l = ts /\ ep_ctx l = node_context n /\
    layout_fresh w l /\ endpoint_at (w' l) l /\
    create o (Some n) (Some tss) (Some name) (Some qos) w
      = Some (Some (ep_handle l), w' l, [EvLock lock; EvUnlock lock]).
Proof.
  intros (Hn & Hname & Hts & Hcx & Ht1 & Ht2 & Hm1 & Hm2) Ho lock w'.
  cut (gwp true (create o (Some n) (Some tss) (Some name) (Some qos)) w
         (fun res w1 evs =>
            exists l,
              ep_typesupport l = ts /\ ep_ctx l = node_context n /\
              layout_fresh w l /\ endpoint_at (w' l) l /\
              res = Some (ep_handle l) /\ w1 = w' l /\
              evs = [EvLock lock; EvUnlock lock])).
  { intros G.
    apply gwp_total in G
      as (res & w1 & evs & E & l & ? & ? & ? & ? & -> & -> & ->).
    by exists l. }
  subst w'. cbn beta.
  oracle_all Ho.
  pose proof (topic_keys_differ (participant cx) name) as Hkeys.
  unfold request_topic_name, response_topic_name in Hkeys.
  unfold rmw_create_service, qos_profile_update_best_available_for_services.
  rewrite Hn, Hname, Ho0, Ho1, andb_false_r, Hts, Ht1, Ht2, Hm1, Hm2.
  cbn [negb orb].
  create_go.
  all: match goal with
       | |- context [ set_infos
                        <[?a := Build_ServiceInfo (Some ?t) (Some ?wr)
                                  (Some ?rd) (Some ?c) (Some ?d) (Some ?i)
                                  (Some ?s) (Some ?x) _]> _ ] =>
           match goal with
           | |- context [ set_services
                            <[?h := Build_rmw_service_t RMW_GURUMDDS_ID _
                                      (Some ?p)]> _ ] =>
               exists (Build_endpoint_layout h p a t x rd c wr d i s)
           end
       end.
  all: cbn [ep_typesupport ep_ctx ep_handle].
  all: split; [reflexivity|]; split; [reflexivity|].
  all: split;
    [ unfold layout_fresh;
      cbn [ep_handle ep_name ep_info ep_reader ep_condition ep_writer
           ep_data_seq ep_info_seq ep_sizes];
      split; [apply not_elem_of_dom, is_fresh|];
      split; [apply not_elem_of_dom, is_fresh|];
      repeat split; eassumption |].
  all: split;
    [ apply endpoint_built_whole;
      cbn [ep_ctx ep_reader ep_condition ep_writer ep_data_seq ep_info_seq
           ep_sizes]; first [by eexists | ne_solve] |].
  all: split; [reflexivity|]; split; [|reflexivity].
  all: unfold endpoint_built; rewrite hold_topics_cases; cbn zeta.
  all: unfold request_topic_name, response_topic_name, endpoint_service,
         endpoint_info;
       cbn [ep_handle ep_name ep_info ep_typesupport ep_ctx ep_reader
            ep_condition ep_writer ep_data_seq ep_info_seq ep_sizes].
  all: repeat match goal with
              | H : w_topics _ !! _ = _ |- _ => rewrite H
              end.
  all: world_eq.
Qed.

(** X14.  A creation that is given what it needs, and that nothing fails,
    returns the handle of a whole endpoint built from fresh objects: the
    world is the one it started from with exactly the handle, the name, the
    [ServiceInfo] (no callback stored), the reader (empty, no listener
    installed, the [ServiceInfo] as listener context), the read condition,
    the writer, the three scratch sequences, the graph-cache entry and one
    more reference to each of the two topics.  The two type supports
    registered on the way are deleted again, and the only observable calls
    are the taking and the release of the endpoint lock. *)
Theorem create_builds_endpoint o n tss name qos ts cx w :
  creatable type_support_data w n tss name ts cx ->
  (forall f, o f = false) ->
  let lock := endpoint_mutex (node_context n) in
  let w' l :=
    endpoint_built l name (participant cx)
      (fst (create_service_type_name (type_support_data ts)))
      (snd (create_service_type_name (type_support_data ts))) w in
  exists l,
    ep_typesupport l = ts /\ ep_ctx l = node_context n /\
    layout_fresh w l /\ endpoint_at (w' l) l /\
    create o (Some n) (Some tss) (Some name) (Some qos) w
      = Some (Some (ep_handle l), w' l, [EvLock lock; EvUnlock lock]).
Proof. apply create_builds. Qed.

(** X15.  The argument checks of [rmw_create_service] come before the
    endpoint lock is taken and before anything is allocated: a null node, a
    node of another implementation, a null type support, a null or empty
    service name, a null QoS profile, a service name that the validation
    turns down (unless the profile asks to avoid the ROS naming
    conventions), or a type support of neither introspection kind make the
    call return a null handle with the world exactly as it was. *)
Theorem create_rejects_arguments o node tss name qos w :
  node = None \/
  (exists n, node = Some n /\
             id_matches (node_implementation_identifier n) = false) \/
  tss = None \/
  name = None \/
  (exists s, name = Some s /\ is_empty s = true) \/
  qos = None \/
  (exists q, qos = Some q /\ avoid_ros_namespace_conventions q = false /\
             (o F_validate_full_topic_name = true \/
              o F_topic_name_invalid = true)) \/
  (exists t, tss = Some t /\ introspection_c t = None /\
             introspection_cpp t = None) ->
  create o node tss name qos w = Some (None, w, []).
Proof.
  intros H.
  unfold rmw_create_service, qos_profile_update_best_available_for_services.
  destruct node as [n|]; [|reflexivity].
  destruct (id_matches (node_implementation_identifier n)) eqn:Hid;
    [cbn [negb]|reflexivity].
  destruct tss as [t|]; [|reflexivity].
  destruct name as [s|]; [|reflexivity].
  destruct (is_empty s) eqn:Hs; [reflexivity|].
  destruct qos as [q|]; [|reflexivity].
  destruct (negb (avoid_ros_namespace_conventions q)
            && (o F_validate_full_topic_name || o F_topic_name_invalid))
    eqn:Hv; [reflexivity|].
  destruct (match introspection_c t with
            | Some t0 => Some t0
            | None => introspection_cpp t
            end) eqn:Hts; [|reflexivity].
  exfalso.
  destruct H as [?|[(?&?&?)|[?|[?|[(?&?&?)|[?|[(?&[= <-]&Hq&Hf)
                                              |(?&[= <-]&Hc&Hp)]]]]]]];
    try congruence.
  - rewrite Hq in Hv. cbn [negb andb] in Hv.
    destruct Hf as [Hf|Hf]; rewrite Hf in Hv;
      [done | by rewrite orb_true_r in Hv].
  - by rewrite Hc, Hp in Hts.
Qed.

Lemma create_failure_spec o node tss name qos w :
  topics_referenced w ->
  o F_delete_datawriter = false ->
  o F_delete_readcondition = false ->
  o F_delete_datareader = false ->
  o F_delete_topic = false ->
  o F_DataSeq_create = false ->
  o F_SampleInfoSeq_create = false ->
  o F_UnsignedLongSeq_create = false ->
  o F_rmw_service_allocate = false ->
  o F_rmw_allocate_name = false ->
  o F_on_service_created = false ->
  gwp false (create o node tss name qos) w
    (fun res w' evs => res = None -> w' = w).
Proof.
  intros Hrefs Hd1 Hd2 Hd3 Hd4 Hs1 Hs2 Hs3 Ha1 Ha2 Hg.
  unfold rmw_create_service.
  repeat first
    [ lazymatch goal with
      | |- gwp _ (with_lock _ _) _ _ =>
          match goal with
          | c : rmw_context_impl_t, s : string |- _ =>
              let H := fresh "Hkeys" in
              pose proof (topic_keys_differ (participant c) s) as H;
              unfold request_topic_name, response_topic_name in H
          end;
          unfold with_lock
      end
    | create_go_step ].
  all: try discriminate.
  all: try (intros _; reflexivity).
  all: intros _; bool_hyps.
  all: topic_refs_absurd Hrefs.
  all: world_eq.
Qed.

(** X16.  Rollback through [fail:].  Whatever step of
    [rmw_create_service] fails before the scratch sequences are made (a
    type support, a registration, a topic, the reader, its read condition,
    the writer, any of the QoS calls, the [ServiceInfo]), the clean-up after
    [fail:] undoes everything the call had done by then: in a world whose
    topics each hold at least one reference, and provided that the deletions
    themselves are not refused, a call that returns a null handle leaves
    the world exactly as it found it, topics and their reference counts
    included. *)
Theorem create_failure_restores o node tss name qos w w' evs :
  create o node tss name qos w = Some (None, w', evs) ->
  topics_referenced w ->
  o F_delete_datawriter = false ->
  o F_delete_readcondition = false ->
  o F_delete_datareader = false ->
  o F_delete_topic = false ->
  (forall f, late_fault f = true -> o f = false) ->
  o F_DataSeq_create = false ->
  o F_SampleInfoSeq_create = false ->
  o F_UnsignedLongSeq_create = false ->
  w' = w.
Proof.
  intros E Hrefs Hd1 Hd2 Hd3 Hd4 Hlate Hs1 Hs2 Hs3.
  refine (gwp_elim _ _ _ _ _ _
            (create_failure_spec o node tss name qos w Hrefs Hd1 Hd2 Hd3 Hd4
               Hs1 Hs2 Hs3 _ _ _) E eq_refl);
    by apply Hlate.
Qed.

(** X17.  A failure after the scratch sequences leaks them.  When the very
    last step of a creation fails, the registration of the endpoint with the
    graph cache, the call goes to [fail:], which frees the handle and the
    name, deletes the read condition, the reader and the writer, gives the
    topics back and deletes the [ServiceInfo], but has no statement for the
    three scratch sequences: the call returns a null handle, and (in a world
    whose topics each hold at least one reference) the world it leaves is
    the one it found plus three empty sequences that nothing points to. *)
Theorem create_late_failure_leaks_sequences o n tss name qos ts cx w :
  creatable type_support_data w n tss name ts cx ->
  topics_referenced w ->
  (forall f, f <> F_on_service_created -> o f = false) ->
  o F_on_service_created = true ->
  let lock := endpoint_mutex (node_context n) in
  exists p1 p2 p3 rd cond wr,
    w_dds w !! p1 = None /\ w_dds w !! p2 = None /\ w_dds w !! p3 = None /\
    p1 <> p2 /\ p1 <> p3 /\ p2 <> p3 /\
    create o (Some n) (Some tss) (Some name) (Some qos) w
      = Some (None, sequences_left p1 p2 p3 w,
              [EvLock lock; EvDelete cond dds_RETCODE_OK;
               EvDelete rd dds_RETCODE_OK; EvDelete wr dds_RETCODE_OK;
               EvUnlock lock]).
Proof.
  intros (Hn & Hname & Hts & Hcx & Ht1 & Ht2 & Hm1 & Hm2) Hrefs Ho Hlate lock.
  cut (gwp true (create o (Some n) (Some tss) (Some name) (Some qos)) w
         (fun res w1 evs =>
            exists p1 p2 p3 rd cond wr,
              w_dds w !! p1 = None /\ w_dds w !! p2 = None /\
              w_dds w !! p3 = None /\
              p1 <> p2 /\ p1 <> p3 /\ p2 <> p3 /\
              res = None /\ w1 = sequences_left p1 p2 p3 w /\
              evs = [EvLock lock; EvDelete cond dds_RETCODE_OK;
                     EvDelete rd dds_RETCODE_OK; EvDelete wr dds_RETCODE_OK;
                     EvUnlock lock])).
  { intros G.
    apply gwp_total in G
      as (res & w1 & evs & E & p1 & p2 & p3 & rd & cond & wr & ? & ? & ? & ?
          & ? & ? & -> & -> & ->).
    by exists p1, p2, p3, rd, cond, wr. }
  oracle_but Ho.
  pose proof (topic_keys_differ (participant cx) name) as Hkeys.
  unfold request_topic_name, response_topic_name in Hkeys.
  unfold rmw_create_service, qos_profile_update_best_available_for_services.
  rewrite Hn, Hname, Ho0, Ho1, andb_false_r, Hts, Ht1, Ht2, Hm1, Hm2.
  cbn [negb orb].
  create_go.
  all: match goal with
       | |- context [ <[?p1 := Ent_DataSeq []]> ] =>
           match goal with
           | |- context [ <[?p2 := Ent_SampleInfoSeq []]> ] =>
               match goal with
               | |- context [ <[?p3 := Ent_UnsignedLongSeq []]> ] =>
                   exists p1, p2, p3
               end
           end
       end.
  all: eexists _, _, _.
  all: do 3 (split; [assumption|]).
  all: do 3 (split; [ne_solve|]).
  all: split; [reflexivity|]; split; [|reflexivity].
  all: bool_hyps.
  all: topic_refs_absurd Hrefs.
  all: unfold sequences_left; world_eq.
Qed.

(** X18.  Creation followed by teardown.  An endpoint that is created and
    then torn down, nothing failing, in a world whose graph cache holds live
    endpoints only, leaves the heap, the DDS entities and the graph cache
    exactly as they were before the creation; the two topics are the
    exception: the teardown deletes no topic, so each of them stays in the
    table with the reference the creation took. *)
Theorem create_then_destroy_keeps_topics o o' n tss name qos ts cx w :
  creatable type_support_data w n tss name ts cx ->
  graph_live w ->
  (forall f, o f = false) ->
  (forall f, o' f = false) ->
  exists h w1 evs1 evs2,
    create o (Some n) (Some tss) (Some name) (Some qos) w
      = Some (Some h, w1, evs1) /\
    rmw_destroy_service o' (Some n) (Some h) w1
      = Some (RMW_RET_OK,
              set_topics
                (hold_topics (participant cx) name
                   (fst (create_service_type_name (type_support_data ts)))
                   (snd (create_service_type_name (type_support_data ts))))
                w,
              evs2).
Proof.
  intros Hok Hgraph Ho Ho'.
  destruct (create_builds o n tss name qos ts cx w Hok Ho)
    as (l & _ & _ & Hfresh & Hwhole & E).
  eexists _, _, _, _. split; [exact E|].
  destruct Hok as (Hn & _ & _ & Hcx & _).
  rewrite <- (endpoint_released_built l name (participant cx) _ _ w Hfresh
                Hgraph).
  eapply destroy_releases; [done | by eexists | done | done..].
Qed.

(** ** An endpoint in use *)

Lemma take_defined l o service hdr req t w :
  endpoint_at w l -> on_handle l service = true ->
  gwp true (take o service hdr req t) w (fun _ _ _ => True).
Proof.
  clear check_dds_ret_code ros_sn_to_dds_sn ros_guid_to_dds_guid.
  intros Hep [->| ->]%on_handle_cases; [done|].
  destruct l as [h p a ts c rd cond wr dseq iseq sseq].
  endpoint_facts Hep.
  unfold rmw_take_request. wp_go.
  all: done.
Qed.

Lemma send_defined l o service hdr resp w :
  endpoint_at w l -> on_handle l service = true ->
  gwp true (send o service hdr resp) w (fun _ _ _ => True).
Proof.
  clear check_dds_ret_code dds_sn_to_ros_sn dds_guid_to_ros_guid.
  intros Hep [->| ->]%on_handle_cases; [done|].
  destruct l as [h p a ts c rd cond wr dseq iseq sseq].
  endpoint_facts Hep.
  unfold rmw_send_response. wp_go.
  all: done.
Qed.

Lemma set_callback_whole l o service cb ud w :
  endpoint_at w l -> on_handle l service = true ->
  gwp true (set_callback o service cb ud) w (fun _ w' _ => endpoint_at w' l).
Proof.
  intros Hep [->| ->]%on_handle_cases; [done|].
  pose proof Hep as Hep'.
  destruct l as [h p a ts c rd cond wr dseq iseq sseq].
  endpoint_facts Hep.
  unfold rmw_service_set_on_new_request_callback. wp_go.
  all: first
    [ exact Hep'
    | unfold endpoint_at, endpoint_service, endpoint_info;
      cbn [ep_handle ep_name ep_info ep_typesupport ep_ctx ep_reader
           ep_condition ep_writer ep_data_seq ep_info_seq ep_sizes];
      wp_world; map_simpl; unfold with_callback;
      cbn [service_typesupport response_writer request_reader
           read_condition data_seq info_seq raw_data_sizes ctx];
      repeat split; eauto ].
Qed.

Lemma deliver_whole l rd s w :
  endpoint_at w l -> rd = ep_reader l ->
  gwp true (deliver rd s) w (fun _ w' _ => endpoint_at w' l).
Proof.
  intros Hep ->.
  pose proof Hep as Hep'.
  destruct l as [h p a ts c rd cond wr dseq iseq sseq].
  endpoint_facts Hep.
  assert (endpoint_at
            (set_dds (<[rd := Ent_DataReader
                               (with_samples r (rd_samples r ++ [s])
                                  (rd_loans r))]>) w)
            (Build_endpoint_layout h p a ts c rd cond wr dseq iseq sseq))
    as Hep'' by (by eapply endpoint_at_reader).
  unfold deliver. wp_go.
  all: exact Hep''.
Qed.

(** One call on a whole endpoint returns, and leaves the endpoint whole. *)
Lemma step_on_endpoint l op w :
  endpoint_at w l -> endpoint_op l op = true ->
  exists w' evs, exec op w = Some (tt, w', evs) /\ endpoint_at w' l.
Proof.
  intros Hep Hop. destruct op; try discriminate Hop; cbn [endpoint_op] in Hop;
    cbn [step].
  - destruct (gwp_total _ _ _ (take_defined l o service request_header
                                 ros_request taken w Hep Hop))
      as (x & w' & evs & E & _).
    exists w', evs. split.
    { unfold bind, ret. rewrite E. by rewrite app_nil_r. }
    destruct (gwp_elim _ _ _ _ _ _ (take_world_spec _ _ _ _ _ _) E)
      as [->|(? & ? & ? & ? & rd & r & ? & rest & ? & _ & _ & _ & _ & _ & Hr
              & _ & _ & ->)]; [done|].
    by eapply endpoint_at_reader.
  - destruct (gwp_total _ _ _ (send_defined l o service request_header
                                 ros_response w Hep Hop))
      as (x & w' & evs & E & _).
    exists w', evs. split.
    { unfold bind, ret. rewrite E. by rewrite app_nil_r. }
    destruct (gwp_elim _ _ _ _ _ _ (send_world_spec _ _ _ _ _) E)
      as [(_ & -> & _)|(_ & ? & ? & ? & ? & wr & topic & written & ? & ? & _
                        & _ & _ & _ & _ & Hw & _ & ->)]; [done|].
    by eapply endpoint_at_writer.
  - destruct (gwp_total _ _ _ (set_callback_whole l o service cb ud w Hep Hop))
      as (x & w' & evs & E & Hep').
    exists w', evs. split; [|done].
    unfold bind, ret. rewrite E. by rewrite app_nil_r.
  - apply bool_decide_eq_true in Hop.
    destruct (gwp_total _ _ _ (deliver_whole l reader s w Hep Hop))
      as ([] & w' & evs & E & Hep').
    by exists w', evs.
Qed.

(** X19.  No use of a whole endpoint breaks it.  Whatever sequence of takes,
    sends and callback registrations is made on the handle of a whole
    endpoint, with whatever arguments and whatever the transport and the
    allocator refuse, and whatever samples arrive at its request reader in
    between, every one of the calls returns (none of them reads through a
    dangling or null pointer), and the endpoint is whole after each of them.
    *)
Theorem endpoint_calls_never_undefined l ops w :
  endpoint_at w l ->
  forallb (endpoint_op l) ops = true ->
  length (trace ops w) = length ops /\
  (forall rec, In rec (trace ops w) -> endpoint_at (rec_after rec) l).
Proof.
  revert w. induction ops as [|op ops IH]; intros w Hep Hops; [by split|].
  cbn in Hops. apply andb_true_iff in Hops as [Hop Hops].
  destruct (step_on_endpoint l op w Hep Hop) as (w' & evs & E & Hep').
  cbn [run]. rewrite E. destruct (IH w' Hep' Hops) as [Hlen Hall].
  split; [cbn; by rewrite Hlen|].
  intros rec [<-|Hin]; [done|by apply Hall].
Qed.

(** ** The QoS getters *)

Section ActualQosProperties.

Variable convert_reliability : Z -> Z.
Variable convert_durability : Z -> Z.
Variable convert_deadline : dds_Time_t -> rmw_time_t.
Variable convert_lifespan : dds_Time_t -> rmw_time_t.
Variable convert_liveliness : dds_LivelinessQosPolicy -> Z.
Variable convert_liveliness_lease_duration :
  dds_LivelinessQosPolicy -> rmw_time_t.
Variable convert_history : dds_HistoryQosPolicy -> Z.
Variable dds_DataWriter_get_qos : addr -> option dds_DataWriterQos.
Variable dds_DataWriterQos_finalize : dds_DataWriterQos -> dds_ReturnCode_t.
Variable dds_DataReader_get_qos : addr -> option dds_DataReaderQos.
Variable dds_DataReaderQos_finalize : dds_DataReaderQos -> dds_ReturnCode_t.

Local Abbreviation publisher_qos :=
  (rmw_service_response_publisher_get_actual_qos convert_reliability
     convert_durability convert_deadline convert_lifespan convert_liveliness
     convert_liveliness_lease_duration convert_history
     dds_DataWriter_get_qos dds_DataWriterQos_finalize).
Local Abbreviation subscription_qos :=
  (rmw_service_request_subscription_get_actual_qos convert_reliability
     convert_durability convert_deadline convert_liveliness
     convert_liveliness_lease_duration convert_history
     dds_DataReader_get_qos dds_DataReaderQos_finalize).
Local Abbreviation writer_profile :=
  (profile_from_writer convert_reliability convert_durability
     convert_deadline convert_lifespan convert_liveliness
     convert_liveliness_lease_duration convert_history).
Local Abbreviation reader_profile :=
  (profile_from_reader convert_reliability convert_durability
     convert_deadline convert_liveliness convert_liveliness_lease_duration
     convert_history).

(** X20.  On a whole endpoint whose writer and reader have the same
    policies, the two getters return [RMW_RET_OK] without changing the world
    and report the same profile, converted policy by policy, with one
    difference: the getter of the response publisher reports the lifespan of
    the writer, while the getter of the request subscription has no
    assignment to [lifespan] and leaves there what the caller passed in.
    The depth is the [int32_t] depth of the history cast to [size_t]: itself
    when it is not negative, and [2^64 + depth] when it is. *)
Theorem actual_qos_getters_agree l q wq rq w :
  endpoint_at w l ->
  dds_DataWriter_get_qos (ep_writer l) = Some wq ->
  dds_DataReader_get_qos (ep_reader l) = Some rq ->
  dds_DataWriterQos_finalize wq = dds_RETCODE_OK ->
  dds_DataReaderQos_finalize rq = dds_RETCODE_OK ->
  same_policies rq wq ->
  Int.in_int32 (history_depth (wq_history wq)) ->
  let reported :=
    {| reliability := convert_reliability (wq_reliability wq);
       durability := convert_durability (wq_durability wq);
       deadline := convert_deadline (wq_deadline wq);
       lifespan := convert_lifespan (wq_lifespan wq);
       liveliness := convert_liveliness (wq_liveliness wq);
       liveliness_lease_duration :=
         convert_liveliness_lease_duration (wq_liveliness wq);
       history := convert_history (wq_history wq);
       depth := if 0 <=? history_depth (wq_history wq)
                then history_depth (wq_history wq)
                else 2 ^ 64 + history_depth (wq_history wq);
       qos_naming := qos_naming q |} in
  publisher_qos (Some (ep_handle l)) (Some q) w
    = Some ((RMW_RET_OK, Some reported), w, []) /\
  subscription_qos (Some (ep_handle l)) (Some q) w
    = Some ((RMW_RET_OK,
             Some {| reliability := reliability reported;
                     durability := durability reported;
                     deadline := deadline reported;
                     lifespan := lifespan q;
                     liveliness := liveliness reported;
                     liveliness_lease_duration :=
                       liveliness_lease_duration reported;
                     history := history reported;
                     depth := depth reported;
                     qos_naming := qos_naming q |}),
            w, []).
Proof.
  intros Hep Hwq Hrq Hwf Hrf (Hs1 & Hs2 & Hs3 & Hs4 & Hs5) Hd reported.
  assert (size_t_of_int32 (history_depth (wq_history wq))
          = if 0 <=? history_depth (wq_history wq)
            then history_depth (wq_history wq)
            else 2 ^ 64 + history_depth (wq_history wq)) as Hdepth.
  { unfold size_t_of_int32, Int.in_int32 in *.
    destruct (Z.leb_spec 0 (history_depth (wq_history wq))).
    - apply Z.mod_small. lia.
    - rewrite <- (Z.mod_add _ 1) by lia. rewrite Z.mod_small by lia. lia. }
  destruct l as [h p a ts c rd cond wr dseq iseq sseq].
  endpoint_facts Hep.
  subst reported.
  cbn [reliability durability deadline lifespan liveliness
       liveliness_lease_duration history depth].
  rewrite <- Hdepth.
  split.
  - cut (gwp true (publisher_qos (Some h) (Some q)) w
           (fun res w' evs =>
              res = (RMW_RET_OK,
                     Some {| reliability :=
                               convert_reliability (wq_reliability wq);
                             durability :=
                               convert_durability (wq_durability wq);
                             deadline := convert_deadline (wq_deadline wq);
                             lifespan := convert_lifespan (wq_lifespan wq);
                             liveliness :=
                               convert_liveliness (wq_liveliness wq);
                             liveliness_lease_duration :=
                               convert_liveliness_lease_duration
                                 (wq_liveliness wq);
                             history := convert_history (wq_history wq);
                             depth :=
                               size_t_of_int32
                                 (history_depth (wq_history wq));
                             qos_naming := qos_naming q |}) /\
              w' = w /\ evs = [])).
    { intros G.
      by apply gwp_total in G as (res & w' & evs & E & -> & -> & ->). }
    assert (negb (bool_decide (dds_DataWriterQos_finalize wq
                               = dds_RETCODE_OK)) = false) as Hfin
      by (by rewrite Hwf).
    unfold rmw_service_response_publisher_get_actual_qos, is_ok.
    wp_go. done.
  - cut (gwp true (subscription_qos (Some h) (Some q)) w
           (fun res w' evs =>
              res = (RMW_RET_OK,
                     Some {| reliability :=
                               convert_reliability (wq_reliability wq);
                             durability :=
                               convert_durability (wq_durability wq);
                             deadline := convert_deadline (wq_deadline wq);
                             lifespan := lifespan q;
                             liveliness :=
                               convert_liveliness (wq_liveliness wq);
                             liveliness_lease_duration :=
                               convert_liveliness_lease_duration
                                 (wq_liveliness wq);
                             history := convert_history (wq_history wq);
                             depth :=
                               size_t_of_int32
                                 (history_depth (wq_history wq));
                             qos_naming := qos_naming q |}) /\
              w' = w /\ evs = [])).
    { intros G.
      by apply gwp_total in G as (res & w' & evs & E & -> & -> & ->). }
    assert (negb (bool_decide (dds_DataReaderQos_finalize rq
                               = dds_RETCODE_OK)) = false) as Hfin
      by (by rewrite Hrf).
    rewrite <- Hs1, <- Hs2, <- Hs3, <- Hs4, <- Hs5.
    unfold rmw_service_request_subscription_get_actual_qos, is_ok.
    wp_go. done.
Qed.

Lemma actual_qos_spec service qos w :
  gwp false (publisher_qos service qos) w
    (fun res w' evs =>
       w' = w /\ evs = [] /\
       (fst res <> RMW_RET_OK ->
        snd res = qos \/
        exists h svc a si q,
          service = Some h /\ w_services w !! h = Some svc /\
          data svc = Some a /\ w_infos w !! a = Some si /\
          qos = Some q /\ fst res = RMW_RET_ERROR /\
          exists wr dq,
            response_writer si = Some wr /\
            dds_DataWriter_get_qos wr = Some dq /\
            dds_DataWriterQos_finalize dq <> dds_RETCODE_OK /\
            snd res = Some (writer_profile dq q))) /\
  gwp false (subscription_qos service qos) w
    (fun res w' evs =>
       w' = w /\ evs = [] /\
       (fst res <> RMW_RET_OK ->
        snd res = qos \/
        exists h svc a si q,
          service = Some h /\ w_services w !! h = Some svc /\
          data svc = Some a /\ w_infos w !! a = Some si /\
          qos = Some q /\ fst res = RMW_RET_ERROR /\
          exists rd dq,
            request_reader si = Some rd /\
            dds_DataReader_get_qos rd = Some dq /\
            dds_DataReaderQos_finalize dq <> dds_RETCODE_OK /\
            snd res = Some (reader_profile dq q))).
Proof.
  split.
  - unfold rmw_service_response_publisher_get_actual_qos, is_ok. wp_go.
    all: split; [reflexivity|]; split; [reflexivity|]; intros Hres.
    all: first
      [ by left
      | bool_hyps; right; eexists _, _, _, _, _;
        do 5 (split; [first [reflexivity | eassumption]|]);
        split; [reflexivity|]; eexists _, _;
        do 3 (split; [eassumption|]); reflexivity ].
  - unfold rmw_service_request_subscription_get_actual_qos, is_ok. wp_go.
    all: split; [reflexivity|]; split; [reflexivity|]; intros Hres.
    all: first
      [ by left
      | bool_hyps; right; eexists _, _, _, _, _;
        do 5 (split; [first [reflexivity | eassumption]|]);
        split; [reflexivity|]; eexists _, _;
        do 3 (split; [eassumption|]); reflexivity ].
Qed.

(** X21.  Both getters are read-only, and all but one of their error
    returns leave the caller's profile as it was.  On every return the
    world is unchanged and no call is observed.  A return other than
    [RMW_RET_OK] hands the profile back untouched, with one exception:
    when the QoS of the endpoint's own writer (for the response-publisher
    getter) or reader (for the request-subscription getter) was read and
    its finalisation failed, the call returns [RMW_RET_ERROR] and the
    profile has already been overwritten with the policies read. *)
Theorem actual_qos_errors_keep_profile (publisher : bool) service qos w
    res out w' evs :
  (if publisher then publisher_qos service qos w
   else subscription_qos service qos w) = Some ((res, out), w', evs) ->
  w' = w /\ evs = [] /\
  (res <> RMW_RET_OK ->
   out = qos \/
   exists h svc a si q,
     service = Some h /\ w_services w !! h = Some svc /\
     data svc = Some a /\ w_infos w !! a = Some si /\
     qos = Some q /\ res = RMW_RET_ERROR /\
     if publisher
     then exists wr dq,
            response_writer si = Some wr /\
            dds_DataWriter_get_qos wr = Some dq /\
            dds_DataWriterQos_finalize dq <> dds_RETCODE_OK /\
            out = Some (writer_profile dq q)
     else exists rd dq,
            request_reader si = Some rd /\
            dds_DataReader_get_qos rd = Some dq /\
            dds_DataReaderQos_finalize dq <> dds_RETCODE_OK /\
            out = Some (reader_profile dq q)).
Proof.
  destruct (actual_qos_spec service qos w) as [Hp Hs].
  destruct publisher; intros E.
  - exact (gwp_elim _ _ _ _ _ _ Hp E).
  - exact (gwp_elim _ _ _ _ _ _ Hs E).
Qed.

End ActualQosProperties.

End Properties.

Import Fixture.

(** * The properties on the concrete endpoint *)

(** C1 (defect in the code).  When [dds_DataSeq_create] fails in
    [rmw_create_service], the function returns a null handle straight
    away, without going through the clean-up after [fail:]: in a world
    that held nothing before the call, the [ServiceInfo], the reader, its
    read condition, the writer, the two type supports and the two topics
    made by the call are all still there. *)
Theorem create_scratch_failure_leaks :
  let r := create (fault_at F_DataSeq_create) basic_ctx w_init in
  let w' := world_of r in
  value_of r = Some None /\
  w_dds w_init = ∅ /\ w_infos w_init = ∅ /\ w_topics w_init = ∅ /\
  is_Some (w_infos w' !! 1%positive) /\
  w_dds w' !! 3%positive
    = Some (Ent_DataReader (new_reader "rq/add_two_intsRequest")) /\
  w_dds w' !! 4%positive = Some (Ent_ReadCondition 3) /\
  w_dds w' !! 5%positive = Some (Ent_DataWriter "rr/add_two_intsReply" []) /\
  w_dds w' !! 1%positive
    = Some (Ent_TypeSupport "!rq" (Some "AddTwoInts_Request_"%string)) /\
  w_dds w' !! 2%positive
    = Some (Ent_TypeSupport "!rr" (Some "AddTwoInts_Response_"%string)) /\
  is_Some (w_topics w' !! (1%positive, "rq/add_two_intsRequest"%string)) /\
  is_Some (w_topics w' !! (1%positive, "rr/add_two_intsReply"%string)).
Proof. vm_compute. repeat split; eauto. Qed.

(** C2 (defect in the code).  A take that retrieves one sample whose
    validity flag is false returns [RMW_RET_OK] and leaves the request
    header and the request buffer as they were, but reports
    [taken == true]. *)
Theorem take_invalid_sample_reports_taken :
  value_of (take no_fault (Some the_handle) (Some empty_header) (Some [])
              (Some false) w_lifecycle)
  = Some (RMW_RET_OK,
          {| out_request_header := Some empty_header;
             out_ros_request := Some [];
             out_taken := Some true |}).
Proof. vm_compute. reflexivity. Qed.

(** C3, the counterexample.  [rmw_destroy_service] ends with
    [rmw_service_free(service)]: after one successful teardown the handle
    is gone, and a second call on the same handle dereferences freed
    memory, which the model reports as undefined.  On a handle whose data
    pointer is null the call returns [RMW_RET_OK], but it is not a no-op
    either: the name and the handle are released. *)
Lemma destroy_twice_undefined :
  let destroy :=
    rmw_destroy_service no_fault (Some (node basic_ctx)) (Some the_handle) in
  value_of (destroy w_basic) = Some RMW_RET_OK /\
  destroy (world_of (destroy w_basic)) = None /\
  value_of (destroy w_null_data) = Some RMW_RET_OK /\
  world_of (destroy w_null_data) <> w_null_data.
Proof.
  vm_compute. repeat split. intros E.
  apply (f_equal (fun w => w_services w !! the_handle)) in E.
  vm_compute in E. discriminate E.
Qed.

(** C3 on the fixture: the handle of the basic endpoint with its data
    pointer cleared; its name sits in the buffer at address 1. *)
Lemma destroy_null_data_witness :
  let lock := endpoint_mutex basic_ctx in
  exists w',
    rmw_destroy_service no_fault (Some (node basic_ctx)) (Some the_handle)
      w_null_data
      = Some (RMW_RET_OK, w', [EvLock lock; EvUnlock lock]) /\
    w_dds w' = w_dds w_null_data /\ w_infos w' = w_infos w_null_data /\
    w_graph w' = w_graph w_null_data /\ w_topics w' = w_topics w_null_data /\
    w_ctxs w' = w_ctxs w_null_data /\
    w_services w' = delete the_handle (w_services w_null_data) /\
    w_strings w' = delete 1%positive (w_strings w_null_data) /\
    (forall p, Some 1%positive = Some p -> w_strings w' !! p = None) /\
    (forall o' n',
       id_matches (node_implementation_identifier n') = true ->
       rmw_destroy_service o' (Some n') (Some the_handle) w' = None).
Proof.
  apply (destroy_null_data no_fault (node basic_ctx) the_handle
           (with_data the_service None) basic_context w_null_data).
  - reflexivity.
  - vm_compute. reflexivity.
  - reflexivity.
  - reflexivity.
  - vm_compute. reflexivity.
  - intros p [= <-]. vm_compute. eauto.
Defined.

(** C4 on the fixture: a take on the freshly created basic endpoint. *)
Lemma take_no_data_witness :
  exists w',
    take no_fault (Some the_handle) (Some empty_header) (Some request_body)
      (Some true) w_basic
    = Some ((RMW_RET_OK,
             {| out_request_header := Some empty_header;
                out_ros_request := Some request_body;
                out_taken := Some false |}),
            w',
            [EvRawTake the_reader Basic dds_RETCODE_NO_DATA;
             EvReturnLoan the_reader]).
Proof.
  apply (take_no_data type_support_data id id no_fault the_handle the_service
           the_endpoint the_info the_reader 1%positive basic_ctx basic_context
           reader_state empty_header request_body true w_basic);
    vm_compute; reflexivity.
Defined.

(** C5 on the fixture: the sixteen zero bytes and sequence number 42 under
    the basic mapping, whose halves are 0 and 42. *)
Lemma correlation_round_trip_witness :
  let envelope := {| writer_guid := zero_guid; sequence_number := 42 |} in
  Int.sequence_number_of_split (sn_high 42) (sn_low 42) = 42 /\
  sn_high 42 = 0 /\ sn_low 42 = 42 /\
  exists s w1,
    send no_fault (Some the_handle) (Some envelope) (Some request_body) w_basic
      = Some (RMW_RET_OK, w1, [EvRawWrite the_writer Basic s dds_RETCODE_OK]) /\
    exists hdr w2,
      take no_fault (Some the_handle) (Some empty_header) (Some [])
        (Some false)
        (enqueue the_reader
           (loop_back s {| sec := 1; nanosec := 5 |} {| sec := 1; nanosec := 7 |})
           w1)
        = Some ((RMW_RET_OK,
                 {| out_request_header := Some hdr;
                    out_ros_request := Some request_body;
                    out_taken := Some true |}),
                w2,
                [EvRawTake the_reader Basic dds_RETCODE_OK;
                 EvReturnLoan the_reader]) /\
      request_id hdr = envelope.
Proof.
  apply (correlation_round_trip type_support_data id id id id no_fault
           no_fault the_handle the_service the_endpoint the_info the_writer
           the_reader 1%positive basic_ctx basic_context
           "rr/add_two_intsReply" [] reader_state zero_guid 42 request_body
           26 (zero_guid ++ be32 0 ++ be32 42 ++ request_body)
           empty_header [] false {| sec := 1; nanosec := 5 |}
           {| sec := 1; nanosec := 7 |} w_basic);
    try (vm_compute; reflexivity).
  - vm_compute. split; [by intros [=] | reflexivity].
  - vm_compute. repeat split; reflexivity.
Defined.

(** C6 on the fixture: two requests are buffered when the callback is
    registered, and it is called once with the count 2. *)
Lemma set_callback_reports_unread_witness :
  let gate := event_callback_mutex the_endpoint in
  exists w',
    set_callback no_fault (Some the_handle) (Some 9%positive)
      (Some 10%positive) w_two_requests
      = Some (check_dds_ret_code (listener_rc no_fault), w',
              [EvLock gate; EvCallback 9 (Some 10%positive) 2;
               EvStoreCallback the_endpoint (Some 9%positive)
                 (Some 10%positive);
               EvSetListener the_reader
                 (Z.lor 0 dds_DATA_AVAILABLE_STATUS) (listener_rc no_fault);
               EvUnlock gate]) /\
    w_infos w' !! the_endpoint = Some info_registered /\
    Z.land (Z.lor 0 dds_DATA_AVAILABLE_STATUS) dds_DATA_AVAILABLE_STATUS
      = dds_DATA_AVAILABLE_STATUS /\
    (no_fault F_set_listener = false ->
     w_dds w' !! the_reader
       = Some (Ent_DataReader
                 (with_listener reader_two (Z.lor 0 dds_DATA_AVAILABLE_STATUS)))).
Proof.
  apply (set_callback_reports_unread check_dds_ret_code no_fault the_handle
           the_service the_endpoint the_info the_reader reader_two 9%positive
           (Some 10%positive) w_two_requests);
    try (vm_compute; reflexivity).
  vm_compute. lia.
Defined.

(** C7 on the fixture: clearing the callback registered in
    [w_registered]. *)
Lemma clear_callback_silences_witness :
  let gate := event_callback_mutex the_endpoint in
  let mask := Z.land 0 (Int.not_uint32 dds_DATA_AVAILABLE_STATUS) in
  exists w',
    set_callback no_fault (Some the_handle) None None w_registered
      = Some (check_dds_ret_code (listener_rc no_fault), w',
              [EvLock gate; EvStoreCallback the_endpoint None None;
               EvSetListener the_reader mask (listener_rc no_fault);
               EvUnlock gate]) /\
    w_infos w' !! the_endpoint = Some (with_callback info_registered None None) /\
    Z.land mask dds_DATA_AVAILABLE_STATUS = 0 /\
    (no_fault F_set_listener = false ->
     w_dds w' !! the_reader
       = Some (Ent_DataReader (with_listener reader_registered mask))) /\
    (forall ops rec e,
       forallb (quiet_op the_reader) ops = true ->
       In rec (run_calls ops w') -> In e (rec_events rec) ->
       is_callback e = false).
Proof.
  apply (clear_callback_silences type_support_data check_dds_ret_code id id
           id id no_fault the_handle the_service the_endpoint info_registered
           the_reader reader_registered None w_registered);
    vm_compute; reflexivity.
Defined.

(** C8 on the fixture: the calls of [some_calls] on the basic endpoint,
    among them the creation of a second endpoint under the enhanced
    mapping. *)
Lemma wire_variant_never_mixed_witness :
  endpoint_flag w_basic the_endpoint = Some true /\
  forall rec, In rec (run_calls some_calls w_basic) ->
    w_ctxs (rec_after rec) = w_ctxs w_basic /\
    endpoint_flag (rec_after rec) the_endpoint = Some true /\
    (op_endpoint (rec_before rec) (rec_op rec) = Some the_endpoint ->
     forall e v, In e (rec_events rec) -> transport_variant e = Some v ->
       v = variant_of_flag true) /\
    (op_endpoint (rec_before rec) (rec_op rec) = Some the_endpoint ->
     codec_under (variant_of_flag true) type_support_data id id id id
       the_endpoint rec).
Proof.
  split; [vm_compute; reflexivity|].
  apply (wire_variant_never_mixed type_support_data check_dds_ret_code id id
           id id some_calls w_basic the_endpoint true).
  - vm_compute. reflexivity.
  - apply List.Forall_forall, (bool_decide_unpack _). vm_compute. exact I.
Defined.

(** C9 on the fixture: a take that retrieves one request. *)
Lemma take_returns_loans_witness :
  exists res w' evs,
    take no_fault (Some the_handle) (Some empty_header) (Some [])
      (Some false) w_request = Some (res, w', evs) /\
    (forall pre rd v rc post,
        evs = pre ++ EvRawTake rd v rc :: post ->
        In (EvReturnLoan rd) post) /\
    (forall rd r,
        w_dds w_request !! rd = Some (Ent_DataReader r) ->
        exists r', w_dds w' !! rd = Some (Ent_DataReader r') /\
                   rd_loans r' = rd_loans r).
Proof.
  eexists _, _, _. split; [vm_compute; reflexivity|].
  eapply (take_returns_loans type_support_data id id no_fault
            (Some the_handle) (Some empty_header) (Some []) (Some false)
            w_request).
  vm_compute. reflexivity.
Defined.



(** * The further properties on the concrete endpoint *)

Import Cases.

(** The endpoint that the creation under the basic mapping has built is
    whole, and stays so with samples in the buffer of its reader. *)
Lemma the_layout_whole : endpoint_at w_basic the_layout.
Proof. vm_compute. repeat split; eauto. Qed.

Lemma basic_creatable :
  creatable type_support_data w_init (node basic_ctx) type_supports
    "/add_two_ints" 1%positive basic_context.
Proof. vm_compute. repeat split. Qed.

(** X1 on the fixture: a take of the one request buffered. *)
Lemma take_consumes_oldest_witness :
  exists res w' evs,
    take no_fault (Some the_handle) (Some empty_header) (Some [])
      (Some false) w_request = Some (res, w', evs) /\
    (w' = w_request \/
     exists h svc a si rd r s rest v,
       Some the_handle = Some h /\ w_services w_request !! h = Some svc /\
       data svc = Some a /\ w_infos w_request !! a = Some si /\
       request_reader si = Some rd /\
       w_dds w_request !! rd = Some (Ent_DataReader r) /\
       rd_samples r = s :: rest /\
       evs = [EvRawTake rd v dds_RETCODE_OK; EvReturnLoan rd] /\
       w' = set_dds
              (<[rd := Ent_DataReader (with_samples r rest (rd_loans r))]>)
              w_request).
Proof.
  eexists _, _, _. split; [vm_compute; reflexivity|].
  eapply (take_consumes_oldest type_support_data id id no_fault
            (Some the_handle) (Some empty_header) (Some []) (Some false)
            w_request).
  vm_compute. reflexivity.
Defined.

(** X2 on the fixture: a send that the transport refuses. *)
Lemma send_all_or_nothing_witness :
  exists res w' evs,
    send (fault_at F_raw_write) (Some the_handle)
      (Some {| writer_guid := zero_guid; sequence_number := 42 |})
      (Some request_body) w_basic = Some (res, w', evs) /\
    ((res <> RMW_RET_OK /\ w' = w_basic /\
      (evs = [] \/
       exists wr v s, evs = [EvRawWrite wr v s dds_RETCODE_ERROR]))
     \/
     (res = RMW_RET_OK /\
      exists h svc a si wr topic written v s,
        Some the_handle = Some h /\ w_services w_basic !! h = Some svc /\
        data svc = Some a /\ w_infos w_basic !! a = Some si /\
        response_writer si = Some wr /\
        w_dds w_basic !! wr = Some (Ent_DataWriter topic written) /\
        evs = [EvRawWrite wr v s dds_RETCODE_OK] /\
        w' = set_dds (<[wr := Ent_DataWriter topic (written ++ [s])]>)
               w_basic)).
Proof.
  eexists _, _, _. split; [vm_compute; reflexivity|].
  eapply (send_all_or_nothing type_support_data id id
            (fault_at F_raw_write) (Some the_handle)
            (Some {| writer_guid := zero_guid; sequence_number := 42 |})
            (Some request_body) w_basic).
  vm_compute. reflexivity.
Defined.

(** X3 on the fixture: the request of [w_request], decoded. *)
Lemma take_delivers_oldest_request_witness :
  take no_fault (Some the_handle) (Some empty_header) (Some []) (Some false)
    w_request
  = Some ((RMW_RET_OK,
           {| out_request_header :=
                Some {| info_source_timestamp := 1000000005;
                        info_received_timestamp := 1000000007;
                        request_id :=
                          {| writer_guid := zero_guid;
                             sequence_number := 42 |} |};
              out_ros_request := Some request_body;
              out_taken := Some true |}),
          set_dds (<[the_reader := Ent_DataReader reader_state]>) w_request,
          [EvRawTake the_reader Basic dds_RETCODE_OK;
           EvReturnLoan the_reader]).
Proof.
  apply (take_delivers_oldest_request type_support_data id id no_fault
           the_handle the_service the_endpoint the_info the_reader 1%positive
           basic_ctx basic_context reader_request request_sample []
           empty_header [] false
           (zero_guid ++ be32 0 ++ be32 42 ++ request_body) request_body
           0 42 zero_guid w_request);
    vm_compute; reflexivity.
Defined.

(** X4 on the fixture: a sample of one byte, which the deserialiser of
    the basic mapping turns down. *)
Lemma take_decode_failure_drops_request_witness :
  take no_fault (Some the_handle) (Some empty_header) (Some []) (Some false)
    w_short
  = Some ((RMW_RET_ERROR,
           {| out_request_header := Some empty_header;
              out_ros_request := Some [];
              out_taken := Some false |}),
          set_dds (<[the_reader := Ent_DataReader reader_state]>) w_short,
          [EvRawTake the_reader Basic dds_RETCODE_OK;
           EvReturnLoan the_reader]).
Proof.
  apply (take_decode_failure_drops_request type_support_data id id no_fault
           the_handle the_service the_endpoint the_info the_reader 1%positive
           basic_ctx basic_context reader_short short_sample []
           empty_header [] false [Byte.x01] [] (0, 0, []) w_short);
    vm_compute; reflexivity.
Defined.

(** X5 on the fixture: the response to request 42. *)
Lemma send_publishes_one_sample_witness :
  let envelope := {| writer_guid := zero_guid; sequence_number := 42 |} in
  let s := {| written_data :=
                zero_guid ++ be32 0 ++ be32 42 ++ request_body;
              written_size := 26; written_info := None |} in
  send no_fault (Some the_handle) (Some envelope) (Some request_body) w_basic
  = Some (RMW_RET_OK,
          set_dds
            (<[the_writer := Ent_DataWriter "rr/add_two_intsReply" [s]]>)
            w_basic,
          [EvRawWrite the_writer Basic s dds_RETCODE_OK]).
Proof.
  apply (send_publishes_one_sample type_support_data id id no_fault
           the_handle the_service the_endpoint the_info the_writer 1%positive
           basic_ctx basic_context "rr/add_two_intsReply" []
           {| writer_guid := zero_guid; sequence_number := 42 |}
           request_body 26 (zero_guid ++ be32 0 ++ be32 42 ++ request_body)
           w_basic);
    try (vm_compute; reflexivity).
  vm_compute. split; reflexivity.
Defined.

(** X6 on the fixture: the timestamps of [request_sample]. *)
Lemma fill_header_times_exact_witness :
  let hdr' := fill_header (sample_info request_sample) 42 zero_guid
                empty_header in
  info_source_timestamp hdr' = 1 * 1000000000 + 5 /\
  info_received_timestamp hdr' = 1 * 1000000000 + 7 /\
  Int.in_int64 (info_source_timestamp hdr') /\
  Int.in_int64 (info_received_timestamp hdr').
Proof.
  apply (fill_header_times_exact (sample_info request_sample) 42 zero_guid
           empty_header);
    unfold Int.in_int32, Int.in_uint32; cbn; lia.
Defined.

(** X7 on the fixture: a negative high half, against the halves of 42. *)
Lemma split_injective_witness :
  Int.sequence_number_of_split (-1) 7 = -1 * 2 ^ 32 + 7 /\
  Int.in_int64 (Int.sequence_number_of_split (-1) 7) /\
  (Int.sequence_number_of_split (-1) 7 = Int.sequence_number_of_split 0 42 ->
   -1 = 0 /\ 7 = 42).
Proof.
  apply (split_injective (-1) 7 0 42);
    unfold Int.in_int32, Int.in_uint32; lia.
Defined.

(** X8 on the fixture: a registration on the freshly created endpoint. *)
Lemma set_callback_no_unread_is_silent_witness :
  let mask := Z.lor 0 dds_DATA_AVAILABLE_STATUS in
  let gate := event_callback_mutex the_endpoint in
  exists w',
    set_callback no_fault (Some the_handle) (Some 9%positive)
      (Some 10%positive) w_basic
      = Some (check_dds_ret_code (listener_rc no_fault), w',
              [EvLock gate;
               EvStoreCallback the_endpoint (Some 9%positive)
                 (Some 10%positive);
               EvSetListener the_reader mask (listener_rc no_fault);
               EvUnlock gate]) /\
    w_infos w' !! the_endpoint = Some info_registered.
Proof.
  apply (set_callback_no_unread_is_silent check_dds_ret_code no_fault
           the_handle the_service the_endpoint the_info the_reader
           reader_state 9%positive (Some 10%positive) w_basic);
    vm_compute; reflexivity.
Defined.

(** X9 on the fixture: a registration on the freshly created endpoint,
    and then the arrival of a request. *)
Lemma registered_callback_hears_delivery_witness :
  let gate := event_callback_mutex the_endpoint in
  let mask := Z.lor 0 dds_DATA_AVAILABLE_STATUS in
  exists w1 evs w2,
    set_callback no_fault (Some the_handle) (Some 9%positive)
      (Some 10%positive) w_basic
      = Some (check_dds_ret_code dds_RETCODE_OK, w1, evs) /\
    deliver the_reader request_sample w1
      = Some (tt, w2,
              [EvLock gate; EvCallback 9 (Some 10%positive) 1;
               EvUnlock gate]) /\
    w_dds w2 !! the_reader
      = Some (Ent_DataReader
                (with_samples (with_listener reader_state mask)
                   [request_sample] 0)).
Proof.
  apply (registered_callback_hears_delivery check_dds_ret_code no_fault
           the_handle the_service the_endpoint the_info the_reader
           reader_state 9%positive (Some 10%positive) request_sample
           w_basic);
    vm_compute; reflexivity.
Defined.

(** X10 on the fixture: the handle relabelled for another
    implementation. *)
Lemma foreign_handle_rejected_witness :
  take no_fault (Some the_handle) None None None w_foreign
    = Some ((RMW_RET_INCORRECT_RMW_IMPLEMENTATION, untouched None None None),
            w_foreign, []) /\
  send no_fault (Some the_handle) None None w_foreign
    = Some (RMW_RET_INCORRECT_RMW_IMPLEMENTATION, w_foreign, []) /\
  set_callback no_fault (Some the_handle) None None w_foreign
    = Some (RMW_RET_INCORRECT_RMW_IMPLEMENTATION, w_foreign, []) /\
  rmw_destroy_service no_fault None (Some the_handle) w_foreign
    = Some (RMW_RET_INVALID_ARGUMENT, w_foreign, []) /\
  (forall n,
     rmw_destroy_service no_fault (Some n) (Some the_handle) w_foreign
       = Some (RMW_RET_INCORRECT_RMW_IMPLEMENTATION, w_foreign, [])).
Proof.
  apply (foreign_handle_rejected type_support_data check_dds_ret_code id id
           id id no_fault the_handle foreign_service None None None None
           None None None w_foreign);
    vm_compute; reflexivity.
Defined.

(** X11 on the fixture: the teardown of the basic endpoint. *)
Lemma destroy_releases_endpoint_witness :
  let lock := endpoint_mutex basic_ctx in
  rmw_destroy_service no_fault (Some (node basic_ctx)) (Some the_handle)
    w_basic
  = Some (RMW_RET_OK, endpoint_released the_layout w_basic,
          [EvLock lock;
           EvDelete the_writer dds_RETCODE_OK;
           EvDelete 4%positive dds_RETCODE_OK;
           EvDelete the_reader dds_RETCODE_OK;
           EvUnlock lock]).
Proof.
  apply (destroy_releases_endpoint no_fault (node basic_ctx) the_layout
           w_basic);
    try reflexivity.
  - vm_compute. eauto.
  - exact the_layout_whole.
Defined.

(** X12 on the fixture: the deletion of the writer is refused. *)
Lemma destroy_writer_failure_changes_nothing_witness :
  let lock := endpoint_mutex basic_ctx in
  rmw_destroy_service (fault_at F_delete_datawriter) (Some (node basic_ctx))
    (Some the_handle) w_basic
  = Some (RMW_RET_ERROR, w_basic,
          [EvLock lock; EvDelete the_writer dds_RETCODE_ERROR;
           EvUnlock lock]).
Proof.
  apply (destroy_writer_failure_changes_nothing
           (fault_at F_delete_datawriter) (node basic_ctx) the_layout
           w_basic);
    try reflexivity.
  - vm_compute. eauto.
  - exact the_layout_whole.
Defined.

(** X13 on the fixture: the deletion of the read condition is refused. *)
Lemma destroy_partial_failure_is_final_witness :
  let lock := endpoint_mutex basic_ctx in
  let w' := endpoint_half_released the_layout w_basic in
  rmw_destroy_service (fault_at F_delete_readcondition)
    (Some (node basic_ctx)) (Some the_handle) w_basic
  = Some (RMW_RET_ERROR, w',
          [EvLock lock; EvDelete the_writer dds_RETCODE_OK;
           EvDelete 4%positive dds_RETCODE_ERROR; EvUnlock lock]) /\
  w_services w' !! the_handle = Some (endpoint_service the_layout) /\
  (exists cb, w_infos w' !! the_endpoint = Some (endpoint_info the_layout cb)) /\
  w_dds w' !! the_writer = None /\
  (forall o' n',
     id_matches (node_implementation_identifier n') = true ->
     is_Some (w_ctxs w_basic !! node_context n') ->
     rmw_destroy_service o' (Some n') (Some the_handle) w' = None).
Proof.
  apply (destroy_partial_failure_is_final (fault_at F_delete_readcondition)
           (node basic_ctx) the_layout w_basic);
    try reflexivity.
  - vm_compute. eauto.
  - exact the_layout_whole.
Defined.

(** X14 on the fixture: the creation of the basic endpoint in
    [w_init]. *)
Lemma create_builds_endpoint_witness :
  let lock := endpoint_mutex basic_ctx in
  let w' l :=
    endpoint_built l "/add_two_ints" 1%positive "AddTwoInts_Request_"
      "AddTwoInts_Response_" w_init in
  exists l,
    ep_typesupport l = 1%positive /\ ep_ctx l = basic_ctx /\
    layout_fresh w_init l /\ endpoint_at (w' l) l /\
    create no_fault basic_ctx w_init
      = Some (Some (ep_handle l), w' l, [EvLock lock; EvUnlock lock]).
Proof.
  apply (create_builds_endpoint type_support_data no_fault (node basic_ctx)
           type_supports "/add_two_ints" qos 1%positive basic_context w_init).
  - exact basic_creatable.
  - reflexivity.
Defined.

(** X15 on the fixture: a creation without a node. *)
Lemma create_rejects_arguments_witness :
  rmw_create_service type_support_data (fault_at F_create_datareader) None
    (Some type_supports) (Some "/add_two_ints"%string) (Some qos) w_basic
  = Some (None, w_basic, []).
Proof.
  apply (create_rejects_arguments type_support_data
           (fault_at F_create_datareader) None (Some type_supports)
           (Some "/add_two_ints"%string) (Some qos) w_basic).
  left. reflexivity.
Defined.

(** X16 on the fixture: a creation whose writer the transport refuses. *)
Lemma create_failure_restores_witness :
  exists w' evs,
    create (fault_at F_create_datawriter) basic_ctx w_init
      = Some (None, w', evs) /\
    w' = w_init.
Proof.
  eexists _, _. split; [vm_compute; reflexivity|].
  eapply (create_failure_restores type_support_data
            (fault_at F_create_datawriter) (Some (node basic_ctx))
            (Some type_supports) (Some "/add_two_ints"%string) (Some qos)
            w_init);
    try reflexivity.
  - vm_compute. reflexivity.
  - intros k t H. exfalso. revert H. cbn. by rewrite lookup_empty.
  - by intros [].
Defined.

(** X17 on the fixture: the registration with the graph cache fails. *)
Lemma create_late_failure_leaks_sequences_witness :
  let lock := endpoint_mutex basic_ctx in
  exists p1 p2 p3 rd cond wr,
    w_dds w_init !! p1 = None /\ w_dds w_init !! p2 = None /\
    w_dds w_init !! p3 = None /\
    p1 <> p2 /\ p1 <> p3 /\ p2 <> p3 /\
    create (fault_at F_on_service_created) basic_ctx w_init
      = Some (None, sequences_left p1 p2 p3 w_init,
              [EvLock lock; EvDelete cond dds_RETCODE_OK;
               EvDelete rd dds_RETCODE_OK; EvDelete wr dds_RETCODE_OK;
               EvUnlock lock]).
Proof.
  apply (create_late_failure_leaks_sequences type_support_data
           (fault_at F_on_service_created) (node basic_ctx) type_supports
           "/add_two_ints" qos 1%positive basic_context w_init).
  - exact basic_creatable.
  - intros k t H. exfalso. revert H. cbn. by rewrite lookup_empty.
  - intros f Hf. by destruct f.
  - reflexivity.
Defined.

(** X18 on the fixture: the basic endpoint created in [w_init] and torn
    down again. *)
Lemma create_then_destroy_keeps_topics_witness :
  exists h w1 evs1 evs2,
    create no_fault basic_ctx w_init = Some (Some h, w1, evs1) /\
    rmw_destroy_service no_fault (Some (node basic_ctx)) (Some h) w1
      = Some (RMW_RET_OK,
              set_topics
                (hold_topics 1%positive "/add_two_ints" "AddTwoInts_Request_"
                   "AddTwoInts_Response_")
                w_init,
              evs2).
Proof.
  apply (create_then_destroy_keeps_topics type_support_data no_fault no_fault
           (node basic_ctx) type_supports "/add_two_ints" qos 1%positive
           basic_context w_init).
  - exact basic_creatable.
  - intros a Ha. exfalso. revert Ha. cbn. apply not_elem_of_empty.
  - reflexivity.
  - reflexivity.
Defined.

(** X19 on the fixture: the calls of [endpoint_calls] on the basic
    endpoint. *)
Lemma endpoint_calls_never_undefined_witness :
  length (run_calls endpoint_calls w_basic) = length endpoint_calls /\
  (forall rec, In rec (run_calls endpoint_calls w_basic) ->
     endpoint_at (rec_after rec) the_layout).
Proof.
  apply (endpoint_calls_never_undefined type_support_data check_dds_ret_code
           id id id id the_layout endpoint_calls w_basic).
  - exact the_layout_whole.
  - vm_compute. reflexivity.
Defined.

(** X20 on the fixture: a writer and a reader with the same policies and
    a history depth of 10; the caller's lifespan of 9 s 9 ns survives the
    getter of the request subscription. *)
Lemma actual_qos_getters_agree_witness :
  let reported :=
    {| reliability := 1; durability := 0;
       deadline := {| rmw_sec := 2; rmw_nsec := 0 |};
       lifespan := {| rmw_sec := 4; rmw_nsec := 0 |};
       liveliness := 0;
       liveliness_lease_duration := {| rmw_sec := 3; rmw_nsec := 0 |};
       history := 0; depth := 10; qos_naming := qos |} in
  publisher_qos (Some the_handle) (Some caller_profile) w_basic
    = Some ((RMW_RET_OK, Some reported), w_basic, []) /\
  subscription_qos (Some the_handle) (Some caller_profile) w_basic
    = Some ((RMW_RET_OK,
             Some {| reliability := 1; durability := 0;
                     deadline := {| rmw_sec := 2; rmw_nsec := 0 |};
                     lifespan := {| rmw_sec := 9; rmw_nsec := 9 |};
                     liveliness := 0;
                     liveliness_lease_duration :=
                       {| rmw_sec := 3; rmw_nsec := 0 |};
                     history := 0; depth := 10; qos_naming := qos |}),
            w_basic, []).
Proof.
  apply (actual_qos_getters_agree id id rmw_time_of rmw_time_of
           liveliness_kind lease_of history_kind writer_qos_of
           writer_finalize reader_qos_of reader_finalize the_layout
           caller_profile toy_writer_qos toy_reader_qos w_basic);
    try reflexivity.
  - exact the_layout_whole.
  - repeat split.
  - unfold Int.in_int32. cbn. lia.
Defined.

(** X21 on the fixture: the getter of the response publisher on a
    transport that fails to finalise the QoS it has read; the caller's
    profile comes back overwritten with the policies of the writer. *)
Lemma actual_qos_errors_keep_profile_witness :
  exists res out w' evs,
    publisher_qos_unfinalised (Some the_handle) (Some caller_profile) w_basic
      = Some ((res, out), w', evs) /\
    w' = w_basic /\ evs = [] /\
    (res <> RMW_RET_OK ->
     out = Some caller_profile \/
     exists h svc a si q,
       Some the_handle = Some h /\ w_services w_basic !! h = Some svc /\
       data svc = Some a /\ w_infos w_basic !! a = Some si /\
       Some caller_profile = Some q /\ res = RMW_RET_ERROR /\
       exists wr dq,
         response_writer si = Some wr /\
         writer_qos_of wr = Some dq /\
         writer_finalize_fails dq <> dds_RETCODE_OK /\
         out = Some (profile_from_writer id id rmw_time_of rmw_time_of
                       liveliness_kind lease_of history_kind dq q)).
Proof.
  eexists _, _, _, _. split; [vm_compute; reflexivity|].
  eapply (actual_qos_errors_keep_profile id id rmw_time_of rmw_time_of
            liveliness_kind lease_of history_kind writer_qos_of
            writer_finalize_fails reader_qos_of reader_finalize true
            (Some the_handle) (Some caller_profile) w_basic).
  vm_compute. reflexivity.
Defined.
